(** * Grammarly optimisation server: login state machine, scoring runner
      and optimisation loop.

    The TypeScript sources are embedded as state-passing functions over an
    explicit record of collaborators (browser page, automation agent, LLM
    client, session API).  Every [await] that may reject is a computation
    returning a [Completion]; the calls made on the collaborators are
    appended to a call log, which plays the role of the mock call logs of the
    unit tests.  Calls to the process-wide logger [log] have no effect on
    control flow and are left out. *)

From Stdlib Require Import ZArith QArith List String Ascii Bool Lia DecimalString.
Import ListNotations.

Local Open Scope Z_scope.

(* ------------------------------------------------------------------ *)
(** * JavaScript values *)

Module Js.

(** A thrown value: an [Error] instance with its message, or anything else
    (the sources test [error instanceof Error]). *)
Inductive Thrown : Type :=
| ErrorObj (message : string)
| NonError (shown : string).

(** [error instanceof Error ? error.message : dflt]. *)
Definition messageOr (dflt : string) (e : Thrown) : string :=
  match e with
  | ErrorObj m => m
  | NonError _ => dflt
  end.

(** Truthiness of a string (the empty string is falsy). *)
Definition truthy (s : string) : bool :=
  match s with
  | EmptyString => false
  | String _ _ => true
  end.

(** Truthiness of an optional string ([undefined] and [null] are falsy). *)
Definition truthyOpt (o : option string) : bool :=
  match o with
  | None => false
  | Some s => truthy s
  end.

(** Truthiness of an optional boolean flag. *)
Definition truthyFlag (o : option bool) : bool :=
  match o with
  | Some true => true
  | _ => false
  end.

(** [s.includes(t)]: [t] occurs in [s] as a contiguous substring. *)
Fixpoint includes (s t : string) : bool :=
  if String.prefix t s then true
  else match s with
       | EmptyString => false
       | String _ s' => includes s' t
       end.

(** [c.toLowerCase()] on the ASCII range. *)
Definition lowerAscii (c : ascii) : ascii :=
  let n := nat_of_ascii c in
  if (andb (Nat.leb 65 n) (Nat.leb n 90)) then ascii_of_nat (n + 32) else c.

Fixpoint toLowerCase (s : string) : string :=
  match s with
  | EmptyString => EmptyString
  | String c s' => String (lowerAscii c) (toLowerCase s')
  end.

(** [parts.join(sep)]. *)
Definition join (sep : string) (parts : list string) : string :=
  String.concat sep parts.

(** [text.slice(0, n)] for [n >= 0]. *)
Definition slice0 (n : nat) (s : string) : string :=
  String.substring 0 n s.

(** Template-literal rendering of an integral number. *)
Definition showInt (z : Z) : string :=
  NilZero.string_of_int (Z.to_int z).

(** [Math.min] on integers. *)
Definition mathMin (a b : Z) : Z := Z.min a b.

End Js.

(* ------------------------------------------------------------------ *)
(** * Asynchronous computations: state passing with exceptions *)

Module Async.

Inductive Completion (A : Type) : Type :=
| Normal (a : A)
| Throw (e : Js.Thrown).
Arguments Normal {A} a.
Arguments Throw {A} e.

Definition M (St A : Type) : Type := St -> Completion A * St.

Section Ops.
Context {St : Type}.

Definition ret {A} (a : A) : M St A := fun st => (Normal a, st).

Definition throw {A} (e : Js.Thrown) : M St A := fun st => (Throw e, st).

Definition bind {A B} (m : M St A) (k : A -> M St B) : M St B :=
  fun st =>
    match m st with
    | (Normal a, st') => k a st'
    | (Throw e, st') => (Throw e, st')
    end.

(** [try { body } catch (e) { handler e }]: the effects of [body] up to
    the throw are kept. *)
Definition tryCatch {A} (body : M St A) (handler : Js.Thrown -> M St A) : M St A :=
  fun st =>
    match body st with
    | (Normal a, st') => (Normal a, st')
    | (Throw e, st') => handler e st'
    end.

(** [try { body } finally { fin }]: [fin] runs on both exits; a throw
    from [fin] replaces the completion of [body]. *)
Definition tryFinally {A} (body : M St A) (fin : M St unit) : M St A :=
  fun st =>
    match body st with
    | (c, st') =>
        match fin st' with
        | (Normal _, st'') => (c, st'')
        | (Throw e, st'') => (Throw e, st'')
        end
    end.

Definition gets {A} (f : St -> A) : M St A := fun st => (Normal (f st), st).

Definition modify (f : St -> St) : M St unit := fun st => (Normal tt, f st).

(** [wp m Q st]: running [m] from [st] ends in a completion and a state
    related by [Q]. *)
Definition wp {A} (m : M St A) (Q : Completion A -> St -> Prop) (st : St) : Prop :=
  Q (fst (m st)) (snd (m st)).

End Ops.

Declare Scope async_scope.
Delimit Scope async_scope with async.
Notation "x <- m ;; k" := (bind m (fun x => k))
  (at level 100, m at next level, right associativity) : async_scope.
Notation "m ;;; k" := (bind m (fun _ => k))
  (at level 100, right associativity) : async_scope.

End Async.

Import Async.
Local Open Scope async_scope.

(* ------------------------------------------------------------------ *)
(** * Optimisation loop ([runGrammarlyOptimization]) *)

Module Scores.
(** [GrammarlyScores]: [None] is JavaScript [null]. *)
Record t : Type := mk
  { aiDetectionPercent : option Q;
    plagiarismPercent : option Q;
    notes : string }.
End Scores.

Module History.
(** [HistoryEntry]. *)
Record t : Type := mk
  { iteration : Z;
    ai_detection_percent : option Q;
    plagiarism_percent : option Q;
    note : string }.
End History.

Module Result.
(** [GrammarlyOptimizeResult]. *)
Record t : Type := mk
  { final_text : string;
    ai_detection_percent : option Q;
    plagiarism_percent : option Q;
    iterations_used : Z;
    thresholds_met : bool;
    history : list History.t;
    notes : string }.
End Result.

Module Optimizer.

Inductive GrammarlyOptimizeMode : Type := score_only | optimize | analyze.

Inductive RewriterTone : Type := neutral | formal | informal | academic | custom.

(** [GrammarlyOptimizeInput], after parsing by [ToolInputSchema]. *)
Record GrammarlyOptimizeInput : Type :=
  { text : string;
    mode : GrammarlyOptimizeMode;
    max_ai_percent : Q;
    max_plagiarism_percent : Q;
    max_iterations : Z;
    tone : RewriterTone;
    domain_hint : option string;
    custom_instructions : option string }.

Definition isNull {A} (o : option A) : bool :=
  match o with
  | None => true
  | Some _ => false
  end.

Definition thresholdsMet (scores : Scores.t) (maxAiPercent maxPlagiarismPercent : Q) : bool :=
  let aiUnavailable := isNull (Scores.aiDetectionPercent scores) in
  let plagiarismUnavailable := isNull (Scores.plagiarismPercent scores) in
  if aiUnavailable && plagiarismUnavailable then false
  else
    let aiOk :=
      match Scores.aiDetectionPercent scores with
      | None => true
      | Some ai => Qle_bool ai maxAiPercent
      end in
    let plagiarismOk :=
      match Scores.plagiarismPercent scores with
      | None => true
      | Some pl => Qle_bool pl maxPlagiarismPercent
      end in
    aiOk && plagiarismOk.

Module RewriteRequest.
(** Argument object of [rewriteTextWithClaude]. *)
Record t : Type := mk
  { originalText : string;
    lastAiPercent : option Q;
    lastPlagiarismPercent : option Q;
    targetMaxAiPercent : Q;
    targetMaxPlagiarismPercent : Q;
    tone : RewriterTone;
    domainHint : option string;
    customInstructions : option string;
    maxIterations : Z }.
End RewriteRequest.

Record RewriteResult : Type :=
  { rewrittenText : string;
    reasoning : string }.

Module AnalyzeRequest.
(** Positional arguments of [analyzeTextWithClaude]. *)
Record t : Type := mk
  { currentText : string;
    aiDetectionPercent : option Q;
    plagiarismPercent : option Q;
    maxAiPercent : Q;
    maxPlagiarismPercent : Q;
    tone : RewriterTone;
    domain_hint : option string }.
End AnalyzeRequest.

Module SummaryRequest.
(** Argument object of [summarizeOptimizationWithClaude]. *)
Record t : Type := mk
  { mode : GrammarlyOptimizeMode;
    iterationsUsed : Z;
    thresholdsMet : bool;
    history : list History.t;
    finalText : string;
    maxAiPercent : Q;
    maxPlagiarismPercent : Q }.
End SummaryRequest.

(** Calls on the collaborators, in the order they are made. *)
Inductive Call : Type :=
| CallProgress (message : string) (progress : Q)
| CallCreateSession
| CallScoreTask (sessionId text : string)
| CallRewrite (request : RewriteRequest.t)
| CallAnalyze (request : AnalyzeRequest.t)
| CallSummarize (request : SummaryRequest.t)
| CallDeleteSession (sessionId : string).

(** The collaborators of the loop, each a transition of the outside world
    that resolves or rejects.  [appConfig] is closed over. *)
Record Collaborators (World : Type) : Type :=
  { onProgress : option (string -> Q -> World -> Completion unit * World);
    createGrammarlySession : World -> Completion string * World;
    runGrammarlyScoreTask : string -> string -> World -> Completion Scores.t * World;
    rewriteTextWithClaude : RewriteRequest.t -> World -> Completion RewriteResult * World;
    analyzeTextWithClaude : AnalyzeRequest.t -> World -> Completion string * World;
    summarizeOptimizationWithClaude : SummaryRequest.t -> World -> Completion string * World;
    deleteSession : string -> World -> Completion unit * World }.
Arguments onProgress {World} _.
Arguments createGrammarlySession {World} _ _.
Arguments runGrammarlyScoreTask {World} _ _ _ _.
Arguments rewriteTextWithClaude {World} _ _ _.
Arguments analyzeTextWithClaude {World} _ _ _.
Arguments summarizeOptimizationWithClaude {World} _ _ _.
Arguments deleteSession {World} _ _ _.

(** The outside world, the call log and the local [sessionId] variable that
    the [finally] block reads. *)
Record State (World : Type) : Type :=
  { world : World;
    calls : list Call;
    sessionId : option string }.
Arguments world {World} _.
Arguments calls {World} _.
Arguments sessionId {World} _.

(** The local variables of the optimisation loop. *)
Record LoopState : Type :=
  { currentText : string;
    lastScores : Scores.t;
    iterationsUsed : Z;
    reachedThresholds : bool;
    history : list History.t }.

Definition historyEntry (iteration : Z) (scores : Scores.t) (note : string) : History.t :=
  {| History.iteration := iteration;
     History.ai_detection_percent := Scores.aiDetectionPercent scores;
     History.plagiarism_percent := Scores.plagiarismPercent scores;
     History.note := note |}.

Section Run.
Context {World : Type}.
Variable env : Collaborators World.

Definition initialState (w : World) : State World :=
  {| world := w; calls := []; sessionId := None |}.

(** One awaited call on a collaborator, recorded in the log. *)
Definition call {A} (c : Call) (f : World -> Completion A * World) : M (State World) A :=
  fun st =>
    let (r, w') := f (world st) in
    (r, {| world := w'; calls := calls st ++ [c]; sessionId := sessionId st |}).

(** [await onProgress?.(message, progress)]. *)
Definition progress (message : string) (pct : Q) : M (State World) unit :=
  match onProgress env with
  | None => ret tt
  | Some cb => call (CallProgress message pct) (cb message pct)
  end.

Definition assignSessionId (sid : string) : M (State World) unit :=
  modify (fun st => {| world := world st; calls := calls st; sessionId := Some sid |}).

Definition iterationLabel (iteration maxIterations : Z) (what : string) : string :=
  ("Iteration " ++ Js.showInt iteration ++ "/" ++ Js.showInt maxIterations ++ what)%string.

(** The body of the [for] loop for one value of [iteration], up to and
    including [history.push].  The two progress percentages are exact
    rationals here, where the source computes them as doubles; nothing
    below depends on their values. *)
Definition iterationBody (input : GrammarlyOptimizeInput) (sid : string)
    (iteration : Z) (ls : LoopState) : M (State World) LoopState :=
  let maxIterations := max_iterations input in
  let iterationProgress :=
    (15 + (inject_Z (iteration - 1) / inject_Z maxIterations) * 70)%Q in
  progress (iterationLabel iteration maxIterations ": Rewriting with Claude...")
    iterationProgress ;;;
  let request :=
    {| RewriteRequest.originalText := currentText ls;
       RewriteRequest.lastAiPercent := Scores.aiDetectionPercent (lastScores ls);
       RewriteRequest.lastPlagiarismPercent := Scores.plagiarismPercent (lastScores ls);
       RewriteRequest.targetMaxAiPercent := max_ai_percent input;
       RewriteRequest.targetMaxPlagiarismPercent := max_plagiarism_percent input;
       RewriteRequest.tone := tone input;
       RewriteRequest.domainHint := domain_hint input;
       RewriteRequest.customInstructions := custom_instructions input;
       RewriteRequest.maxIterations := maxIterations |} in
  rewriteResult <- call (CallRewrite request) (rewriteTextWithClaude env request) ;;
  let currentText' := rewrittenText rewriteResult in
  let scoringProgress :=
    (15 + (inject_Z iteration / inject_Z maxIterations) * 70)%Q in
  progress (iterationLabel iteration maxIterations ": Re-scoring with Grammarly...")
    scoringProgress ;;;
  scores <- call (CallScoreTask sid currentText')
              (runGrammarlyScoreTask env sid currentText') ;;
  ret {| currentText := currentText';
         lastScores := scores;
         iterationsUsed := iteration;
         reachedThresholds :=
           thresholdsMet scores (max_ai_percent input) (max_plagiarism_percent input);
         history := history ls ++ [historyEntry iteration scores (reasoning rewriteResult)] |}.

(** [for (let iteration = 1; iteration <= maxIterations; iteration += 1)]
    with its [break]: [remaining] counts the values of [iteration] still to
    run, [maxIterations - iteration + 1]. *)
Fixpoint optimizeLoop (input : GrammarlyOptimizeInput) (sid : string)
    (remaining : nat) (iteration : Z) (ls : LoopState) : M (State World) LoopState :=
  match remaining with
  | O => ret ls
  | S remaining' =>
      ls' <- iterationBody input sid iteration ls ;;
      if reachedThresholds ls' then ret ls'
      else optimizeLoop input sid remaining' (iteration + 1) ls'
  end.

(** The body of the [try] block. *)
Definition tryBody (input : GrammarlyOptimizeInput) : M (State World) Result.t :=
  let maxAiPercent := max_ai_percent input in
  let maxPlagiarismPercent := max_plagiarism_percent input in
  let maxIterations := max_iterations input in
  sid <- call CallCreateSession (createGrammarlySession env) ;;
  assignSessionId sid ;;;
  progress "Running initial Grammarly scoring..." 10 ;;;
  scores0 <- call (CallScoreTask sid (text input))
               (runGrammarlyScoreTask env sid (text input)) ;;
  let history0 :=
    [historyEntry 0 scores0 "Baseline Grammarly scores on original text (iteration 0)."] in
  match mode input with
  | score_only =>
      progress "Scoring complete" 100 ;;;
      let reached := thresholdsMet scores0 maxAiPercent maxPlagiarismPercent in
      ret {| Result.final_text := text input;
             Result.ai_detection_percent := Scores.aiDetectionPercent scores0;
             Result.plagiarism_percent := Scores.plagiarismPercent scores0;
             Result.iterations_used := 0;
             Result.thresholds_met := reached;
             Result.history := history0;
             Result.notes :=
               if reached
               then "Score-only run: original text already meets configured AI and plagiarism thresholds."
               else "Score-only run: thresholds not met or scores unavailable; no rewriting performed." |}
  | analyze =>
      progress "Analyzing text with Claude..." 50 ;;;
      let request :=
        {| AnalyzeRequest.currentText := text input;
           AnalyzeRequest.aiDetectionPercent := Scores.aiDetectionPercent scores0;
           AnalyzeRequest.plagiarismPercent := Scores.plagiarismPercent scores0;
           AnalyzeRequest.maxAiPercent := maxAiPercent;
           AnalyzeRequest.maxPlagiarismPercent := maxPlagiarismPercent;
           AnalyzeRequest.tone := tone input;
           AnalyzeRequest.domain_hint := domain_hint input |} in
      analysis <- call (CallAnalyze request) (analyzeTextWithClaude env request) ;;
      let reached := thresholdsMet scores0 maxAiPercent maxPlagiarismPercent in
      progress "Analysis complete" 100 ;;;
      ret {| Result.final_text := text input;
             Result.ai_detection_percent := Scores.aiDetectionPercent scores0;
             Result.plagiarism_percent := Scores.plagiarismPercent scores0;
             Result.iterations_used := 0;
             Result.thresholds_met := reached;
             Result.history := history0;
             Result.notes := analysis |}
  | optimize =>
      progress "Starting optimization loop..." 15 ;;;
      ls <- optimizeLoop input sid (Z.to_nat maxIterations) 1
              {| currentText := text input;
                 lastScores := scores0;
                 iterationsUsed := 0;
                 reachedThresholds := false;
                 history := history0 |} ;;
      progress "Generating optimization summary..." 92 ;;;
      let request :=
        {| SummaryRequest.mode := mode input;
           SummaryRequest.iterationsUsed := iterationsUsed ls;
           SummaryRequest.thresholdsMet := reachedThresholds ls;
           SummaryRequest.history := history ls;
           SummaryRequest.finalText := currentText ls;
           SummaryRequest.maxAiPercent := maxAiPercent;
           SummaryRequest.maxPlagiarismPercent := maxPlagiarismPercent |} in
      notes <- call (CallSummarize request) (summarizeOptimizationWithClaude env request) ;;
      progress "Optimization complete" 100 ;;;
      ret {| Result.final_text := currentText ls;
             Result.ai_detection_percent := Scores.aiDetectionPercent (lastScores ls);
             Result.plagiarism_percent := Scores.plagiarismPercent (lastScores ls);
             Result.iterations_used := iterationsUsed ls;
             Result.thresholds_met := reachedThresholds ls;
             Result.history := history ls;
             Result.notes := notes |}
  end.

(** The [finally] block: [if (sessionId) { try { deleteSession } catch { log } }]. *)
Definition finallyBlock : M (State World) unit :=
  sid <- gets sessionId ;;
  if Js.truthyOpt sid
  then
    match sid with
    | Some s => tryCatch (call (CallDeleteSession s) (deleteSession env s)) (fun _ => ret tt)
    | None => ret tt
    end
  else ret tt.

(** [createBrowserUseClient] only constructs the client object; the session
    is created inside the [try] block. *)
Definition runGrammarlyOptimization (input : GrammarlyOptimizeInput) (w : World)
  : Completion Result.t * State World :=
  (progress "Creating Browser Use session..." 5 ;;;
   tryFinally (tryBody input) finallyBlock) (initialState w).

(** The same flow with the [try]/[finally] frame removed: what the main
    flow alone computes. *)
Definition mainFlow (input : GrammarlyOptimizeInput) (w : World)
  : Completion Result.t * State World :=
  (progress "Creating Browser Use session..." 5 ;;; tryBody input) (initialState w).

End Run.

(** [env] with another [deleteSession]. *)
Definition withDeleteSession {World} (env : Collaborators World)
    (del : string -> World -> Completion unit * World) : Collaborators World :=
  {| onProgress := onProgress env;
     createGrammarlySession := createGrammarlySession env;
     runGrammarlyScoreTask := runGrammarlyScoreTask env;
     rewriteTextWithClaude := rewriteTextWithClaude env;
     analyzeTextWithClaude := analyzeTextWithClaude env;
     summarizeOptimizationWithClaude := summarizeOptimizationWithClaude env;
     deleteSession := del |}.

(** The scores recorded in a history entry. *)
Definition entryScores (e : History.t) : Scores.t :=
  {| Scores.aiDetectionPercent := History.ai_detection_percent e;
     Scores.plagiarismPercent := History.plagiarism_percent e;
     Scores.notes := EmptyString |}.

Definition isRewrite (c : Call) : bool :=
  match c with
  | CallRewrite _ => true
  | _ => false
  end.

Definition isScoreTask (c : Call) : bool :=
  match c with
  | CallScoreTask _ _ => true
  | _ => false
  end.

Definition countCalls (p : Call -> bool) (log : list Call) : nat :=
  List.length (List.filter p log).

(** The calls the [finally] block makes when the local variable [sessionId]
    holds [sid]. *)
Definition teardownCalls (sid : option string) : list Call :=
  match sid with
  | Some s => if Js.truthy s then [CallDeleteSession s] else []
  | None => []
  end.

(** ** Scripted collaborators

    A world in the manner of the unit-test mocks: the scoring task answers
    with the next scripted scores (and rejects once the script is used up),
    the LLM steps always resolve, and closing the session always rejects. *)

Record Scripted : Type :=
  { scriptedScores : list Scores.t }.

Definition scriptedEnv : Collaborators Scripted :=
  {| onProgress := Some (fun _ _ w => (Normal tt, w));
     createGrammarlySession := fun w => (Normal "bu-session-12345"%string, w);
     runGrammarlyScoreTask := fun _ _ w =>
       match scriptedScores w with
       | [] => (Throw (Js.ErrorObj "Browser Use task did not return structured scores"), w)
       | scores :: rest => (Normal scores, {| scriptedScores := rest |})
       end;
     rewriteTextWithClaude := fun request w =>
       (Normal {| rewrittenText := (RewriteRequest.originalText request ++ " (rewritten)")%string;
                  reasoning := "Varied sentence structure" |}, w);
     analyzeTextWithClaude := fun _ w => (Normal "Analysis narrative"%string, w);
     summarizeOptimizationWithClaude := fun _ w => (Normal "Summary narrative"%string, w);
     deleteSession := fun _ w => (Throw (Js.ErrorObj "session already closed"), w) |}.

Definition scenarioInput (m : GrammarlyOptimizeMode) : GrammarlyOptimizeInput :=
  {| text := "Test text";
     mode := m;
     max_ai_percent := 10;
     max_plagiarism_percent := 5;
     max_iterations := 5;
     tone := neutral;
     domain_hint := None;
     custom_instructions := None |}.

Definition scenarioWorld : Scripted :=
  {| scriptedScores :=
       [ Scores.mk (Some 15%Q) (Some 3%Q) "baseline";
         Scores.mk (Some 8%Q) (Some 2%Q) "after rewrite" ] |}.

(** The collaborators of [scriptedEnv], except that the session is created
    with the empty string as its id. *)
Definition emptyIdEnv : Collaborators Scripted :=
  {| onProgress := onProgress scriptedEnv;
     createGrammarlySession := fun w => (Normal EmptyString, w);
     runGrammarlyScoreTask := runGrammarlyScoreTask scriptedEnv;
     rewriteTextWithClaude := rewriteTextWithClaude scriptedEnv;
     analyzeTextWithClaude := analyzeTextWithClaude scriptedEnv;
     summarizeOptimizationWithClaude := summarizeOptimizationWithClaude scriptedEnv;
     deleteSession := deleteSession scriptedEnv |}.

(** A text whose baseline scores already meet the thresholds of
    [scenarioInput]. *)
Definition alreadyMetWorld : Scripted :=
  {| scriptedScores :=
       [ Scores.mk (Some 4%Q) (Some 1%Q) "baseline";
         Scores.mk (Some 3%Q) (Some 1%Q) "after rewrite" ] |}.

(** ** Properties of a run *)

(** The scores recorded in entry [e] meet the configured thresholds. *)
Definition entryMeets (input : GrammarlyOptimizeInput) (e : History.t) : bool :=
  thresholdsMet (entryScores e) (max_ai_percent input) (max_plagiarism_percent input).

(** What one run of the loop (from any iteration) has done when it ends
    normally: [entries] are the history entries it pushed. *)
Definition loopRan {World : Type} (input : GrammarlyOptimizeInput) (budget : nat) (iteration : Z) (ls ls' : LoopState)
    (st st' : State World) (entries : list History.t) : Prop :=
  history ls' = history ls ++ entries
  /\ iterationsUsed ls' = iteration - 1 + Z.of_nat (List.length entries)
  /\ (List.length entries <= budget)%nat
  /\ (forall j e, nth_error entries j = Some e -> entryMeets input e = true ->
                  S j = List.length entries /\ reachedThresholds ls' = true)
  /\ (reachedThresholds ls' = false -> List.length entries = budget)
  /\ (forall j e, nth_error entries j = Some e ->
                  History.iteration e = iteration + Z.of_nat j)
  /\ countCalls isRewrite (calls st')
     = (countCalls isRewrite (calls st) + List.length entries)%nat
  /\ countCalls isScoreTask (calls st')
     = (countCalls isScoreTask (calls st) + List.length entries)%nat
  /\ sessionId st' = sessionId st.

(** A normal return in [optimize] mode: the history is the baseline entry
    followed by one entry per iteration, and only the last of those can meet
    the thresholds. *)
Definition optimizeReturned {World : Type} (input : GrammarlyOptimizeInput)
    (r : Result.t) (st' : State World) : Prop :=
  exists baseline entries,
    Result.history r = baseline :: entries
    /\ Result.iterations_used r = Z.of_nat (List.length entries)
    /\ (List.length entries <= Z.to_nat (max_iterations input))%nat
    /\ (forall j e, nth_error entries j = Some e -> entryMeets input e = true ->
                    S j = List.length entries /\ Result.thresholds_met r = true)
    /\ (Result.thresholds_met r = false ->
        List.length entries = Z.to_nat (max_iterations input))
    /\ (forall j e, nth_error entries j = Some e ->
                    History.iteration e = 1 + Z.of_nat j)
    /\ countCalls isRewrite (calls st') = List.length entries
    /\ countCalls isScoreTask (calls st') = S (List.length entries).

(** ** Observations on the call log and on the result *)

(** The texts handed to the scoring task, in call order. *)
Definition scoredTexts (log : list Call) : list string :=
  List.flat_map (fun c => match c with
                          | CallScoreTask _ scored => [scored]
                          | _ => []
                          end) log.

(** The session a call runs in or closes. *)
Definition sessionOf (c : Call) : option string :=
  match c with
  | CallScoreTask sid _ => Some sid
  | CallDeleteSession sid => Some sid
  | _ => None
  end.

Definition isCreateSession (c : Call) : bool :=
  match c with
  | CallCreateSession => true
  | _ => false
  end.

Definition isDeleteSession (c : Call) : bool :=
  match c with
  | CallDeleteSession _ => true
  | _ => false
  end.

(** The percentages a result reports. *)
Definition reportedScores (r : Result.t) : Scores.t :=
  {| Scores.aiDetectionPercent := Result.ai_detection_percent r;
     Scores.plagiarismPercent := Result.plagiarism_percent r;
     Scores.notes := EmptyString |}.

(** From [st] to [st'] at most [n] more rewrite calls and [n] more scoring
    calls were made. *)
Definition costs {World : Type} (n : nat) (st st' : State World) : Prop :=
  (countCalls isRewrite (calls st') <= countCalls isRewrite (calls st) + n)%nat
  /\ (countCalls isScoreTask (calls st') <= countCalls isScoreTask (calls st) + n)%nat.

(** Call [c] runs in, or closes, no session other than [current]. *)
Definition inSession (current : option string) (c : Call) : Prop :=
  match sessionOf c with
  | None => True
  | Some sid => current = Some sid
  end.

(** From [st] to [st'] every call stayed in session [sid], and no session
    was created or closed. *)
Definition sessionKept {World : Type} (sid : string) (st st' : State World) : Prop :=
  (Forall (inSession (Some sid)) (calls st) -> Forall (inSession (Some sid)) (calls st'))
  /\ countCalls isCreateSession (calls st') = countCalls isCreateSession (calls st)
  /\ countCalls isDeleteSession (calls st') = countCalls isDeleteSession (calls st)
  /\ (In CallCreateSession (calls st) -> In CallCreateSession (calls st'))
  /\ sessionId st' = sessionId st.

(** The session bookkeeping of a whole run. *)
Definition oneSession {World : Type} (st : State World) : Prop :=
  (countCalls isCreateSession (calls st) <= 1)%nat
  /\ (countCalls isDeleteSession (calls st) <= 1)%nat
  /\ Forall (inSession (sessionId st)) (calls st)
  /\ (sessionId st <> None -> In CallCreateSession (calls st)).

(** The text in [currentText] is the one scored last, and the last history
    entry records the percentages in [lastScores]. *)
Definition scoredLast {World : Type} (ls : LoopState) (st : State World) : Prop :=
  (exists earlier, scoredTexts (calls st) = earlier ++ [currentText ls])
  /\ (exists older e,
        history ls = older ++ [e]
        /\ History.ai_detection_percent e = Scores.aiDetectionPercent (lastScores ls)
        /\ History.plagiarism_percent e = Scores.plagiarismPercent (lastScores ls)).

Definition isAnalyze (c : Call) : bool :=
  match c with
  | CallAnalyze _ => true
  | _ => false
  end.

Definition isSummarize (c : Call) : bool :=
  match c with
  | CallSummarize _ => true
  | _ => false
  end.

(** [p] counts none of the calls the optimisation loop makes. *)
Definition outsideLoop (p : Call -> bool) : Prop :=
  (forall message pct, p (CallProgress message pct) = false)
  /\ (forall request, p (CallRewrite request) = false)
  /\ (forall sid scored, p (CallScoreTask sid scored) = false).

(** The text of the most recent scoring call of a log, [init] when there
    is none. *)
Definition lastScoredText (init : option string) (log : list Call) : option string :=
  List.fold_left (fun acc c => match c with
                               | CallScoreTask _ scored => Some scored
                               | _ => acc
                               end) log init.


(** What a returned result says about the run that produced it. *)
Definition resultConsistent {World : Type} (input : GrammarlyOptimizeInput)
    (r : Result.t) (st : State World) : Prop :=
  (exists earlier, scoredTexts (calls st) = earlier ++ [Result.final_text r])
  /\ (exists older e,
        Result.history r = older ++ [e]
        /\ History.ai_detection_percent e = Result.ai_detection_percent r
        /\ History.plagiarism_percent e = Result.plagiarism_percent r)
  /\ (mode input <> optimize \/ 1 <= max_iterations input ->
      Result.thresholds_met r
      = thresholdsMet (reportedScores r) (max_ai_percent input)
          (max_plagiarism_percent input))
  /\ (mode input = optimize -> 1 <= max_iterations input -> 1 <= Result.iterations_used r)
  /\ (mode input <> optimize -> Result.iterations_used r = 0)
  /\ Z.of_nat (List.length (Result.history r)) = Result.iterations_used r + 1
  /\ (forall j e, nth_error (Result.history r) j = Some e ->
                  History.iteration e = Z.of_nat j).

End Optimizer.

(* ------------------------------------------------------------------ *)
(** * Login state machine ([attemptGrammarlyLogin]) *)

Module LoginAttemptResult.
(** [LoginAttemptResult]; an absent optional field is [None]. *)
Record t : Type := mk
  { success : bool;
    error : option string;
    invalidCredentials : option bool;
    captchaDetected : option bool;
    rateLimited : option bool }.
End LoginAttemptResult.

Module PartialResult.
(** [Partial<LoginAttemptResult>] as [detectLoginFailure] builds it (it
    never sets [success]). *)
Record t : Type := mk
  { error : option string;
    invalidCredentials : option bool;
    captchaDetected : option bool;
    rateLimited : option bool }.
End PartialResult.

Module Login.

Definition DEFAULT_MAX_RETRIES : Z := 1.

(** An element returned by [stagehand.observe] ([Action] of schemas.ts);
    the code reads [description] defensively ([e.description?.]). *)
Record Action : Type :=
  { selector : string;
    description : option string;
    method : option string;
    arguments : option (list string) }.

Record GrammarlyCredentials : Type :=
  { username : string;
    password : string }.

Record AutoLoginOptions : Type :=
  { timeoutMs : option Z;
    maxRetries : option Z }.

Record AuthStatus : Type :=
  { loggedIn : bool;
    currentUrl : string }.

(** The argument of [stagehand.act]: an observed element or a
    natural-language instruction. *)
Inductive ActArg : Type :=
| ActElement (element : Action)
| ActInstruction (instruction : string).

Inductive Call : Type :=
| CallGoto (url : string)
| CallObserve (instruction : string)
| CallAct (arg : ActArg)
| CallIsVisible (selector : string)
| CallFill (selector value : string)
| CallSleep (ms : Z)
| CallCheckAuthStatus.

(** The Stagehand instance, its first page and the imported
    [checkGrammarlyAuthStatus].  [pages] is the read
    [stagehand.context.pages()[0]]: whether there is a first page, or the
    error the read throws. *)
Record Stagehand (World : Type) : Type :=
  { pages : World -> Completion bool;
    pageUrl : World -> string;
    pageGoto : string -> World -> Completion unit * World;
    observe : string -> World -> Completion (list Action) * World;
    act : ActArg -> World -> Completion unit * World;
    locatorIsVisible : string -> World -> Completion bool * World;
    locatorFill : string -> string -> World -> Completion unit * World;
    sleep : Z -> World -> World;
    checkGrammarlyAuthStatus : World -> Completion AuthStatus * World }.
Arguments pages {World} _ _.
Arguments pageUrl {World} _ _.
Arguments pageGoto {World} _ _ _.
Arguments observe {World} _ _ _.
Arguments act {World} _ _ _.
Arguments locatorIsVisible {World} _ _ _.
Arguments locatorFill {World} _ _ _ _.
Arguments sleep {World} _ _ _.
Arguments checkGrammarlyAuthStatus {World} _ _.

Record State (World : Type) : Type :=
  { world : World;
    calls : list Call }.
Arguments world {World} _.
Arguments calls {World} _.

(** The read [stagehand.context.pages()[0]] returned a page. *)
Definition hasPage {World : Type} (stagehand : Stagehand World) (w : World) : bool :=
  match pages stagehand w with
  | Normal true => true
  | _ => false
  end.

Definition dquote : string := String (ascii_of_nat 34) EmptyString.

(** ['input[type="password"]'] and the like. *)
Definition inputSelector (attribute operator value : string) : string :=
  ("input[" ++ attribute ++ operator ++ dquote ++ value ++ dquote ++ "]")%string.

Definition emailInputs : list string :=
  [ inputSelector "type" "=" "email";
    inputSelector "type" "=" "text";
    inputSelector "name" "*=" "email";
    inputSelector "name" "*=" "username" ].

Definition passwordSelector : string := inputSelector "type" "=" "password".

Definition signinUrl : string := "https://www.grammarly.com/signin".

Definition observeErrors : string :=
  ("Find any error messages about invalid credentials, wrong password, " ++
   "account locked, CAPTCHA challenges, rate limits, or 'too many attempts' warnings")%string.
Definition observeEmailLogin : string :=
  "Find the 'Log in with email' button or 'Continue with email' option".
Definition observeEmailField : string :=
  "Find the email or username input field for logging into Grammarly".
Definition observePasswordField : string := "Find the password input field".

Definition actTypeEmail : string := "Click on the email input field and type the email".
Definition actContinue : string :=
  "Click the 'Continue' or 'Next' button to proceed after entering email".
Definition actSubmit : string :=
  "Click the 'Log in', 'Sign in', or submit button to complete login".

(** Every natural-language instruction the login flow hands to [act]. *)
Definition actInstructions : list string := [actTypeEmail; actContinue; actSubmit].

Definition noFailure : PartialResult.t :=
  PartialResult.mk None None None None.

(** [{ success: false, ...failure }]. *)
Definition failed (failure : PartialResult.t) : LoginAttemptResult.t :=
  {| LoginAttemptResult.success := false;
     LoginAttemptResult.error := PartialResult.error failure;
     LoginAttemptResult.invalidCredentials := PartialResult.invalidCredentials failure;
     LoginAttemptResult.captchaDetected := PartialResult.captchaDetected failure;
     LoginAttemptResult.rateLimited := PartialResult.rateLimited failure |}.

Definition failedWith (message : string) : LoginAttemptResult.t :=
  LoginAttemptResult.mk false (Some message) None None None.

Definition succeeded : LoginAttemptResult.t :=
  LoginAttemptResult.mk true None None None None.

(** [failure.invalidCredentials || failure.captchaDetected || failure.rateLimited]. *)
Definition classified (failure : PartialResult.t) : bool :=
  Js.truthyFlag (PartialResult.invalidCredentials failure)
  || Js.truthyFlag (PartialResult.captchaDetected failure)
  || Js.truthyFlag (PartialResult.rateLimited failure).

(** The keyword classification of [detectLoginFailure] over the joined,
    lower-cased descriptions. *)
Definition classifyErrorText (errorText : string) : PartialResult.t :=
  if Js.includes errorText "captcha" || Js.includes errorText "verify"
     || Js.includes errorText "robot" || Js.includes errorText "not a robot"
  then PartialResult.mk (Some "CAPTCHA challenge detected"%string) None (Some true) None
  else if Js.includes errorText "too many" || Js.includes errorText "rate"
          || Js.includes errorText "try again later"
          || Js.includes errorText "temporarily blocked"
  then PartialResult.mk (Some "Rate limit triggered"%string) None None (Some true)
  else if Js.includes errorText "invalid" || Js.includes errorText "incorrect"
          || Js.includes errorText "wrong" || Js.includes errorText "not found"
          || Js.includes errorText "doesn't match"
  then PartialResult.mk (Some "Invalid credentials"%string) (Some true) None None
  else PartialResult.mk (Some "Login error detected"%string) None None None.

Definition errorTextOf (errorIndicators : list Action) : string :=
  Js.join " "
    (List.map (fun e => match description e with
                        | Some d => Js.toLowerCase d
                        | None => EmptyString
                        end) errorIndicators).

(** [Math.min(baseDelayMs * 2 ** attempt, maxDelayMs)]. *)
Definition retryDelay (attempt : Z) : Z :=
  let baseDelayMs := 2000 in
  let maxDelayMs := 30000 in
  Js.mathMin (baseDelayMs * 2 ^ attempt) maxDelayMs.

Section Run.
Context {World : Type}.
Variable stagehand : Stagehand World.

Definition initialState (w : World) : State World :=
  {| world := w; calls := [] |}.

Definition call {A} (c : Call) (f : World -> Completion A * World) : M (State World) A :=
  fun st =>
    let (r, w') := f (world st) in
    (r, {| world := w'; calls := calls st ++ [c] |}).

Definition doObserve (instruction : string) : M (State World) (list Action) :=
  call (CallObserve instruction) (observe stagehand instruction).

Definition doAct (arg : ActArg) : M (State World) unit :=
  call (CallAct arg) (act stagehand arg).

Definition doSleep (ms : Z) : M (State World) unit :=
  call (CallSleep ms) (fun w => (Normal tt, sleep stagehand ms w)).

Definition doFill (selector value : string) : M (State World) unit :=
  call (CallFill selector value) (locatorFill stagehand selector value).

(** [const page = stagehand.context.pages()[0]]: the read is not inside
    any [try] of the function that makes it, so what it throws
    propagates. *)
Definition readPage : M (State World) bool :=
  fun st => (pages stagehand (world st), st).

Definition detectLoginFailure : M (State World) PartialResult.t :=
  page <- readPage ;;
  if negb page then ret noFailure
  else
    tryCatch
      (errorIndicators <- doObserve observeErrors ;;
       if (List.length errorIndicators =? 0)%nat then ret noFailure
       else ret (classifyErrorText (errorTextOf errorIndicators)))
      (fun _ => ret noFailure).

(** The [for (const selector of emailInputs)] loop; the result is
    [emailFilled]. *)
Fixpoint fillFirstVisible (selectors : list string) (value : string)
  : M (State World) bool :=
  match selectors with
  | [] => ret false
  | selector :: rest =>
      filled <-
        tryCatch
          (visible <- call (CallIsVisible selector) (locatorIsVisible stagehand selector) ;;
           if visible then (doFill selector value ;;; ret true) else ret false)
          (fun _ => ret false) ;;
      if filled then ret true else fillFirstVisible rest value
  end.

(** Steps 1 to 6 of one attempt.  [Some r] is [return r]; [None] means the
    login form was submitted. *)
Definition submitLoginForm (credentials : GrammarlyCredentials)
  : M (State World) (option LoginAttemptResult.t) :=
  currentUrl <- gets (fun st => pageUrl stagehand (world st)) ;;
  (if negb (Js.includes currentUrl "grammarly.com/signin")
      && negb (Js.includes currentUrl "grammarly.com/login")
   then call (CallGoto signinUrl) (pageGoto stagehand signinUrl) ;;; doSleep 2000
   else ret tt) ;;;
  emailLoginButton <- doObserve observeEmailLogin ;;
  match emailLoginButton with
  | firstEmailButton :: _ => doAct (ActElement firstEmailButton) ;;; doSleep 1500
  | [] => ret tt
  end ;;;
  doObserve observeEmailField ;;;
  emailFilled <- fillFirstVisible emailInputs (username credentials) ;;
  (if negb emailFilled then doAct (ActInstruction actTypeEmail) else ret tt) ;;;
  doSleep 500 ;;;
  doAct (ActInstruction actContinue) ;;;
  doSleep 2000 ;;;
  passwordObservation <- doObserve observePasswordField ;;
  if (List.length passwordObservation =? 0)%nat
  then
    failure <- detectLoginFailure ;;
    if Js.truthyOpt (PartialResult.error failure)
    then ret (Some (failed failure))
    else ret (Some (failedWith "Password field not found"))
  else
    doFill passwordSelector (password credentials) ;;;
    doSleep 500 ;;;
    doAct (ActInstruction actSubmit) ;;;
    doSleep 3000 ;;;
    ret None.

(** Step 7 and the rest of the [try] block. *)
Definition verifyLogin (attempt maxRetries : Z)
  : M (State World) (option LoginAttemptResult.t) :=
  authStatus <- call CallCheckAuthStatus (checkGrammarlyAuthStatus stagehand) ;;
  if loggedIn authStatus then ret (Some succeeded)
  else
    failure <- detectLoginFailure ;;
    if classified failure then ret (Some (failed failure))
    else
      (if attempt <? maxRetries then doSleep (retryDelay attempt) else ret tt) ;;;
      ret None.

(** The body of the [try] block of one attempt. *)
Definition attemptSteps (credentials : GrammarlyCredentials) (attempt maxRetries : Z)
  : M (State World) (option LoginAttemptResult.t) :=
  early <- submitLoginForm credentials ;;
  match early with
  | Some r => ret (Some r)
  | None => verifyLogin attempt maxRetries
  end.

(** One turn of the [for] loop: the [try] block with its [catch]. *)
Definition loginAttempt (credentials : GrammarlyCredentials) (attempt maxRetries : Z)
  : M (State World) (option LoginAttemptResult.t) :=
  tryCatch
    (attemptSteps credentials attempt maxRetries)
    (fun error =>
       if attempt >=? maxRetries
       then ret (Some (failedWith (Js.messageOr "Unknown error" error)))
       else doSleep (retryDelay attempt) ;;; ret None).

(** [for (let attempt = 0; attempt <= maxRetries; attempt++)] followed by
    the final [return]; [remaining] counts the values of [attempt] still to
    run, [maxRetries - attempt + 1]. *)
Fixpoint loginLoop (credentials : GrammarlyCredentials) (maxRetries : Z)
    (remaining : nat) (attempt : Z) : M (State World) LoginAttemptResult.t :=
  match remaining with
  | O => ret (failedWith "Login failed after all retry attempts")
  | S remaining' =>
      exit <- loginAttempt credentials attempt maxRetries ;;
      match exit with
      | Some r => ret r
      | None => loginLoop credentials maxRetries remaining' (attempt + 1)
      end
  end.

(** [options?.maxRetries ?? DEFAULT_MAX_RETRIES]. *)
Definition maxRetriesOf (options : option AutoLoginOptions) : Z :=
  match options with
  | Some o => match maxRetries o with
              | Some n => n
              | None => DEFAULT_MAX_RETRIES
              end
  | None => DEFAULT_MAX_RETRIES
  end.

Definition attemptGrammarlyLogin (credentials : GrammarlyCredentials)
    (options : option AutoLoginOptions) (w : World)
  : Completion LoginAttemptResult.t * State World :=
  let maxRetries := maxRetriesOf options in
  (page <- readPage ;;
   if negb page then ret (failedWith "No page available in Stagehand context")
   else loginLoop credentials maxRetries (Z.to_nat (maxRetries + 1)) 0)
    (initialState w).

End Run.

(** ** What the login flow may pass to its collaborators *)



Definition isCheckAuthStatus (c : Call) : bool :=
  match c with
  | CallCheckAuthStatus => true
  | _ => false
  end.

Definition countCalls (p : Call -> bool) (log : list Call) : nat :=
  List.length (List.filter p log).

(** Attempts [0 .. k-1] ran one after the other from the first state and
    none of them returned: each ended in an unclassified failed
    verification or in a caught exception followed by the back-off sleep. *)
Inductive retried {World : Type} (stagehand : Stagehand World)
    (credentials : GrammarlyCredentials) (maxRetries : Z)
  : nat -> State World -> State World -> Prop :=
| retried_none : forall st, retried stagehand credentials maxRetries 0 st st
| retried_more : forall k st st' st'',
    retried stagehand credentials maxRetries k st st' ->
    loginAttempt stagehand credentials (Z.of_nat k) maxRetries st' = (Normal None, st'') ->
    retried stagehand credentials maxRetries (S k) st st''.

(** ** Scripted collaborators

    A page in the manner of the unit-test mocks: successive [observe] calls
    answer with the scripted element lists (and with nothing once the script
    is used up), successive auth checks with the scripted verdicts, every
    locator is visible and every fill and act resolves. *)

Record Scripted : Type :=
  { scriptedPage : bool;
    scriptedUrl : string;
    gotoError : option string;
    observations : list (list Action);
    authChecks : list bool }.

Definition scriptedStagehand : Stagehand Scripted :=
  {| pages := fun w => Normal (scriptedPage w);
     pageUrl := scriptedUrl;
     pageGoto := fun url w =>
       match gotoError w with
       | Some message => (Throw (Js.ErrorObj message), w)
       | None =>
           (Normal tt,
            {| scriptedPage := scriptedPage w; scriptedUrl := url;
               gotoError := None; observations := observations w;
               authChecks := authChecks w |})
       end;
     observe := fun _ w =>
       match observations w with
       | [] => (Normal [], w)
       | found :: rest =>
           (Normal found,
            {| scriptedPage := scriptedPage w; scriptedUrl := scriptedUrl w;
               gotoError := gotoError w; observations := rest;
               authChecks := authChecks w |})
       end;
     act := fun _ w => (Normal tt, w);
     locatorIsVisible := fun _ w => (Normal true, w);
     locatorFill := fun _ _ w => (Normal tt, w);
     sleep := fun _ w => w;
     checkGrammarlyAuthStatus := fun w =>
       match authChecks w with
       | [] => (Normal {| loggedIn := false; currentUrl := scriptedUrl w |}, w)
       | verdict :: rest =>
           (Normal {| loggedIn := verdict; currentUrl := scriptedUrl w |},
            {| scriptedPage := scriptedPage w; scriptedUrl := scriptedUrl w;
               gotoError := gotoError w; observations := observations w;
               authChecks := rest |})
       end |}.

Definition described (text : string) : Action :=
  {| selector := "xpath=//*"; description := Some text; method := None; arguments := None |}.

Definition testCredentials : GrammarlyCredentials :=
  {| username := "test@example.com"; password := "testPassword123" |}.


Definition retries (n : Z) : option AutoLoginOptions :=
  Some {| timeoutMs := None; maxRetries := Some n |}.

(** The happy path of the tests: no e-mail button, both fields found, the
    auth check passes. *)
Definition happyWorld : Scripted :=
  {| scriptedPage := true;
     scriptedUrl := "https://other-site.com";
     gotoError := None;
     observations := [ []; [described "Email input"]; [described "Password input"] ];
     authChecks := [true] |}.

(** "does not retry on credential errors". *)
Definition wrongPasswordWorld : Scripted :=
  {| scriptedPage := true;
     scriptedUrl := "https://other-site.com";
     gotoError := None;
     observations := [ []; [described "Email input"]; [described "Password input"];
                       [described "Incorrect password"] ];
     authChecks := [] |}.

(** No error indicator is ever shown and the auth check never passes. *)
Definition silentWorld : Scripted :=
  {| scriptedPage := true;
     scriptedUrl := "https://www.grammarly.com/signin";
     gotoError := None;
     observations := [ []; [described "Email input"]; [described "Password input"]; [];
                       []; [described "Email input"]; [described "Password input"]; [] ];
     authChecks := [] |}.

(** "retries on transient failures": the first attempt fails without any
    error indicator, the second one passes the auth check. *)
Definition transientWorld : Scripted :=
  {| scriptedPage := true;
     scriptedUrl := "https://other-site.com";
     gotoError := None;
     observations := [ []; [described "Email input"]; [described "Password input"]; [];
                       []; [described "Email input"]; [described "Password input"] ];
     authChecks := [false; true] |}.

(** Navigation to the sign-in page is refused. *)
Definition offlineWorld : Scripted :=
  {| scriptedPage := true;
     scriptedUrl := "https://other-site.com";
     gotoError := Some "net::ERR_CONNECTION_REFUSED"%string;
     observations := [];
     authChecks := [] |}.

(** ** Observations on the call log and on the result *)

Definition isPasswordFill (c : Call) : bool :=
  match c with
  | CallFill selector _ => String.eqb selector passwordSelector
  | _ => false
  end.

Definition isGoto (c : Call) : bool :=
  match c with
  | CallGoto _ => true
  | _ => false
  end.

(** A [sleep] call lasts between [lo] and [hi] milliseconds. *)
Definition sleepWithin (lo hi : Z) (c : Call) : Prop :=
  match c with
  | CallSleep ms => lo <= ms <= hi
  | _ => True
  end.

(** How many of the three failure flags of a result are set. *)
Definition flagCount (r : LoginAttemptResult.t) : nat :=
  ((if Js.truthyFlag (LoginAttemptResult.invalidCredentials r) then 1 else 0)
   + (if Js.truthyFlag (LoginAttemptResult.captchaDetected r) then 1 else 0)
   + (if Js.truthyFlag (LoginAttemptResult.rateLimited r) then 1 else 0))%nat.

(** A success carries nothing else; a failure carries an error message and
    at most one flag. *)
Definition wellFormed (r : LoginAttemptResult.t) : Prop :=
  if LoginAttemptResult.success r
  then r = succeeded
  else (exists message, LoginAttemptResult.error r = Some message)
       /\ (flagCount r <= 1)%nat.

(** What a returned result says about the log it comes with: it is well
    formed, and a success comes right after an auth check that followed the
    filling of the password field. *)
Definition returnedAfter {World : Type} (credentials : GrammarlyCredentials)
    (r : LoginAttemptResult.t) (st' : State World) : Prop :=
  wellFormed r
  /\ (LoginAttemptResult.success r = true ->
      exists earlier,
        calls st' = earlier ++ [CallCheckAuthStatus]
        /\ In (CallFill passwordSelector (password credentials)) earlier).

(** [m] makes at most [n] calls that satisfy [p]. *)
Definition atMost {World : Type} (p : Call -> bool) (n : nat) {A}
    (m : M (State World) A) : Prop :=
  forall st, (countCalls p (calls (snd (m st))) <= countCalls p (calls st) + n)%nat.

(** [m] only makes calls that satisfy [P]. *)
Definition keepsLog {World : Type} (P : Call -> Prop) {A} (m : M (State World) A) : Prop :=
  forall st, Forall P (calls st) -> Forall P (calls (snd (m st))).

End Login.

(* ------------------------------------------------------------------ *)
(** * Scoring task runner ([runStagehandGrammarlyTask])

    The runner's module, src/browser/stagehand/grammarlyTask.ts, is not
    among the sources: only its unit tests are.  Its flow is modelled from
    section 4.4 of the specification; the wording of instructions and
    messages, which the specification leaves open, is a parameter. *)

Module ExtractedScores.
(** Modelled from the spec: the extracted [GrammarlyScores] of section 3
    ([overallScore] is optional, [null] percent fields are kept). *)
Record t : Type := mk
  { aiDetectionPercent : option Q;
    plagiarismPercent : option Q;
    overallScore : option Q;
    notes : string }.
End ExtractedScores.

Module Task.

(** Modelled from the spec: the fixed maximum length of section 4.4
    ("8000 characters"). *)
Definition MAX_TEXT_LENGTH : nat := Z.to_nat 8000.

(** Modelled from the spec: "Truncates input text to a fixed maximum
    length (8000 characters) before any UI interaction". *)
Definition truncateText (text : string) : string :=
  Js.slice0 MAX_TEXT_LENGTH text.

(** The content-editable region the text is injected into (the selector
    asserted by the unit tests). *)
Definition editorSelector : string :=
  ("[contenteditable=" ++ Login.dquote ++ "true" ++ Login.dquote ++ "]")%string.

Definition canonicalUrl : string := "https://app.grammarly.com".

(** [AppConfig], as far as the runner reads it. *)
Record AppConfig : Type :=
  { opServiceAccountToken : option string;
    opGrammarlySecretRef : option string }.

(** [isOnePasswordConfigured] of the 1Password provider:
    [!!config.opServiceAccountToken]. *)
Definition isOnePasswordConfigured (config : AppConfig) : bool :=
  Js.truthyOpt (opServiceAccountToken config).

(** Modelled from the spec: the options of section 4.4,
    [{iteration?, mode?, debugUrl?, appConfig?}]; [iteration] and [mode] are
    only logged. *)
Record TaskOptions : Type :=
  { iteration : option Z;
    mode : option string;
    debugUrl : option string;
    appConfig : option AppConfig }.

(** Why the runner gives up with an authentication error. *)
Inductive AuthFailure : Type :=
| NoCredentialIntegration
| SecretsFailed (error : Js.Thrown)
| LoginFailed (result : LoginAttemptResult.t).

Inductive ExtractKind : Type := Primary | Fallback.

(** The wording the specification leaves open. *)
Record Wording : Type :=
  { noPageMessage : string;
    authMessage : AuthFailure -> option string -> string;
    newDocumentQuery : string;
    newDocumentFallback : string;
    detectionQuery : string;
    detectionFallback : string;
    extractInstruction : ExtractKind -> string;
    annotatePartial : string -> string }.



Inductive ActArg : Type :=
| ActElement (element : Login.Action)
| ActInstruction (instruction : string).

(** Calls on the collaborators; an extraction is logged with its outcome,
    as vitest records [mock.results]. *)
Inductive Call : Type :=
| CallGoto (url : string)
| CallWaitForNetworkIdle
| CallCheckAuthStatus
| CallGetCredentials
| CallLogin (credentials : Login.GrammarlyCredentials)
| CallObserve (query : string)
| CallAct (arg : ActArg)
| CallFill (selector value : string)
| CallExtract (kind : ExtractKind) (instruction : string)
    (outcome : Completion ExtractedScores.t).

(** Modelled from the spec: the collaborator interfaces of section 6 that
    the runner uses.  An observed element may be absent ([undefined]). *)
Record Collaborators (World : Type) : Type :=
  { hasPage : World -> bool;
    pageUrl : World -> string;
    pageGoto : string -> World -> Completion unit * World;
    waitForNetworkIdle : World -> Completion unit * World;
    checkGrammarlyAuthStatus : World -> Completion Login.AuthStatus * World;
    getGrammarlyCredentials :
      AppConfig -> World -> Completion Login.GrammarlyCredentials * World;
    attemptGrammarlyLogin :
      Login.GrammarlyCredentials -> World -> Completion LoginAttemptResult.t * World;
    observe : string -> World -> Completion (list (option Login.Action)) * World;
    act : ActArg -> World -> Completion unit * World;
    locatorFill : string -> string -> World -> Completion unit * World;
    extract : ExtractKind -> string -> World -> Completion ExtractedScores.t * World }.
Arguments hasPage {World} _ _.
Arguments pageUrl {World} _ _.
Arguments pageGoto {World} _ _ _.
Arguments waitForNetworkIdle {World} _ _.
Arguments checkGrammarlyAuthStatus {World} _ _.
Arguments getGrammarlyCredentials {World} _ _ _.
Arguments attemptGrammarlyLogin {World} _ _ _.
Arguments observe {World} _ _ _.
Arguments act {World} _ _ _.
Arguments locatorFill {World} _ _ _ _.
Arguments extract {World} _ _ _ _.

Record State (World : Type) : Type :=
  { world : World;
    calls : list Call }.
Arguments world {World} _.
Arguments calls {World} _.

(** [GrammarlyAuthError]: an [Error] whose message reflects the reason and
    carries the debug handle when there is one. *)
Definition authError (wording : Wording) (reason : AuthFailure)
    (debug : option string) : Js.Thrown :=
  Js.ErrorObj (authMessage wording reason debug).

Section Run.
Context {World : Type}.
Variable env : Collaborators World.
Variable wording : Wording.

Definition initialState (w : World) : State World :=
  {| world := w; calls := [] |}.

Definition call {A} (c : Call) (f : World -> Completion A * World) : M (State World) A :=
  fun st =>
    let (r, w') := f (world st) in
    (r, {| world := w'; calls := calls st ++ [c] |}).

(** An extraction, logged with its outcome. *)
Definition callExtract (kind : ExtractKind) : M (State World) ExtractedScores.t :=
  fun st =>
    let instruction := extractInstruction wording kind in
    let (r, w') := extract env kind instruction (world st) in
    (r, {| world := w'; calls := calls st ++ [CallExtract kind instruction r] |}).

(** Modelled from the spec: "Navigates to the application's canonical URL
    if the current URL is not already within its domain; tolerates a wait
    for network idle timeout as non-fatal". *)
Definition navigate : M (State World) unit :=
  currentUrl <- gets (fun st => pageUrl env (world st)) ;;
  (if negb (Js.includes currentUrl "grammarly.com")
   then call (CallGoto canonicalUrl) (pageGoto env canonicalUrl)
   else ret tt) ;;;
  tryCatch (call CallWaitForNetworkIdle (waitForNetworkIdle env)) (fun _ => ret tt).

(** Modelled from the spec: the authentication step of section 4.4. *)
Definition ensureAuthenticated (options : option TaskOptions) : M (State World) unit :=
  let debug := match options with Some o => debugUrl o | None => None end in
  let config := match options with Some o => appConfig o | None => None end in
  authStatus <- call CallCheckAuthStatus (checkGrammarlyAuthStatus env) ;;
  if Login.loggedIn authStatus then ret tt
  else
    match config with
    | None => throw (authError wording NoCredentialIntegration debug)
    | Some cfg =>
        if negb (isOnePasswordConfigured cfg)
        then throw (authError wording NoCredentialIntegration debug)
        else
          credentials <-
            tryCatch
              (call CallGetCredentials (getGrammarlyCredentials env cfg))
              (fun error => throw (authError wording (SecretsFailed error) debug)) ;;
          result <- call (CallLogin credentials) (attemptGrammarlyLogin env credentials) ;;
          if LoginAttemptResult.success result then ret tt
          else throw (authError wording (LoginFailed result) debug)
    end.

(** Modelled from the spec: the observe-then-act pattern with its
    string-instruction fallback. *)
Definition observeThenAct (query fallback : string) : M (State World) unit :=
  observed <- call (CallObserve query) (observe env query) ;;
  match observed with
  | Some element :: _ => call (CallAct (ActElement element)) (act env (ActElement element))
  | _ => call (CallAct (ActInstruction fallback)) (act env (ActInstruction fallback))
  end.

(** Modelled from the spec: everything up to the extraction. *)
Definition prepareDocument (text : string) (options : option TaskOptions)
  : M (State World) unit :=
  page <- gets (fun st => hasPage env (world st)) ;;
  if negb page then throw (Js.ErrorObj (noPageMessage wording))
  else
    navigate ;;;
    ensureAuthenticated options ;;;
    let textToFill := truncateText text in
    observeThenAct (newDocumentQuery wording) (newDocumentFallback wording) ;;;
    call (CallFill editorSelector textToFill) (locatorFill env editorSelector textToFill) ;;;
    observeThenAct (detectionQuery wording) (detectionFallback wording).

Definition annotated (scores : ExtractedScores.t) : ExtractedScores.t :=
  {| ExtractedScores.aiDetectionPercent := ExtractedScores.aiDetectionPercent scores;
     ExtractedScores.plagiarismPercent := ExtractedScores.plagiarismPercent scores;
     ExtractedScores.overallScore := ExtractedScores.overallScore scores;
     ExtractedScores.notes := annotatePartial wording (ExtractedScores.notes scores) |}.

(** Modelled from the spec: "issue a structured-extraction query against
    the page.  On failure, attempt exactly one fallback extraction with a
    simplified schema/instruction; on success, annotate the result's notes
    field [...].  If the fallback also fails, propagate the original
    extraction error (not the fallback's)". *)
Definition extractScores : M (State World) ExtractedScores.t :=
  tryCatch
    (callExtract Primary)
    (fun originalError =>
       tryCatch
         (partial <- callExtract Fallback ;; ret (annotated partial))
         (fun _ => throw originalError)).

(** Modelled from the spec: the contract of section 4.4 (the function
    itself, in src/browser/stagehand/grammarlyTask.ts, is missing): prepare
    the document, then extract the scores. *)
Definition runStagehandGrammarlyTask (text : string) (options : option TaskOptions)
    (w : World) : Completion ExtractedScores.t * State World :=
  (prepareDocument text options ;;; extractScores) (initialState w).

End Run.

Definition isExtract (c : Call) : bool :=
  match c with
  | CallExtract _ _ _ => true
  | _ => false
  end.

Definition isFill (c : Call) : bool :=
  match c with
  | CallFill _ _ => true
  | _ => false
  end.

Definition countCalls (p : Call -> bool) (log : list Call) : nat :=
  List.length (List.filter p log).

(** Neither an extraction nor a fill. *)
Definition isSetup (c : Call) : Prop := isExtract c = false /\ isFill c = false.

(** ** Scripted collaborators *)

Record Scripted : Type :=
  { scriptedUrl : string;
    scriptedLoggedIn : bool;
    extractions : list (Completion ExtractedScores.t) }.

Definition scriptedEnv : Collaborators Scripted :=
  {| hasPage := fun _ => true;
     pageUrl := scriptedUrl;
     pageGoto := fun url w =>
       (Normal tt, {| scriptedUrl := url; scriptedLoggedIn := scriptedLoggedIn w;
                      extractions := extractions w |});
     waitForNetworkIdle := fun w => (Throw (Js.ErrorObj "Timeout waiting for network idle"), w);
     checkGrammarlyAuthStatus := fun w =>
       (Normal {| Login.loggedIn := scriptedLoggedIn w; Login.currentUrl := scriptedUrl w |}, w);
     getGrammarlyCredentials := fun _ w => (Normal Login.testCredentials, w);
     attemptGrammarlyLogin := fun _ w => (Normal Login.succeeded, w);
     observe := fun _ w => (Normal [], w);
     act := fun _ w => (Normal tt, w);
     locatorFill := fun _ _ w => (Normal tt, w);
     extract := fun _ _ w =>
       match extractions w with
       | [] => (Throw (Js.ErrorObj "No extraction scripted"), w)
       | outcome :: rest =>
           (outcome, {| scriptedUrl := scriptedUrl w; scriptedLoggedIn := scriptedLoggedIn w;
                        extractions := rest |})
       end |}.

Definition scriptedWording : Wording :=
  {| noPageMessage := "No page available in Stagehand context";
     authMessage := fun _ _ => "Grammarly login required"%string;
     newDocumentQuery := "Find the new document button";
     newDocumentFallback := "Click on 'New' to create a new document";
     detectionQuery := "Find the AI detection control";
     detectionFallback := "Open the AI detection panel";
     extractInstruction := fun kind =>
       match kind with
       | Primary => "Extract the AI Detection Percentage and the plagiarism percentage"%string
       | Fallback => "Extract any visible percentages"%string
       end;
     annotatePartial := fun notes => (notes ++ " (partial extraction)")%string |}.

(** ["a".repeat(n)]. *)
Fixpoint repeated (c : ascii) (n : nat) : string :=
  match n with
  | O => EmptyString
  | S n' => String c (repeated c n')
  end.

Definition fallbackScores : ExtractedScores.t :=
  ExtractedScores.mk (Some 10%Q) (Some 2%Q) None "Fallback extraction".

(** "attempts fallback extraction on primary extraction error". *)
Definition fallbackWorld : Scripted :=
  {| scriptedUrl := "https://app.grammarly.com";
     scriptedLoggedIn := true;
     extractions := [ Throw (Js.ErrorObj "Primary extraction failed");
                      Normal fallbackScores ] |}.

(** "throws original error when fallback extraction also fails". *)
Definition brokenWorld : Scripted :=
  {| scriptedUrl := "https://app.grammarly.com";
     scriptedLoggedIn := true;
     extractions := [ Throw (Js.ErrorObj "Primary extraction failed");
                      Throw (Js.ErrorObj "Fallback also failed") ] |}.

(** ** Properties of a run *)

(** [m] extends the log, and only by calls that satisfy [P]. *)
Definition addsOnly {World : Type} (P : Call -> Prop) {A} (m : M (State World) A) : Prop :=
  forall st, exists l, calls (snd (m st)) = calls st ++ l /\ Forall P l.

(** The calls made before the extraction: no extraction, and exactly one
    fill when the preparation completes, of the truncated text into the
    editor. *)
Definition prepared (text : string) (done : bool) (l : list Call) : Prop :=
  Forall (fun c => isExtract c = false) l
  /\ (forall selector value, In (CallFill selector value) l ->
        selector = editorSelector /\ value = truncateText text)
  /\ (done = true -> countCalls isFill l = 1%nat).

Definition completed {A} (c : Completion A) : bool :=
  match c with
  | Normal _ => true
  | Throw _ => false
  end.

(** The extraction step as the call log shows it: the primary extraction
    alone, or the failed primary extraction followed by the one fallback. *)
Inductive Extracted (wording : Wording)
  : Completion ExtractedScores.t -> list Call -> Prop :=
| primary_resolved : forall r,
    Extracted wording (Normal r)
      [CallExtract Primary (extractInstruction wording Primary) (Normal r)]
| fallback_resolved : forall e1 r2,
    Extracted wording (Normal (annotated wording r2))
      [CallExtract Primary (extractInstruction wording Primary) (Throw e1);
       CallExtract Fallback (extractInstruction wording Fallback) (Normal r2)]
| both_rejected : forall e1 e2,
    Extracted wording (Throw e1)
      [CallExtract Primary (extractInstruction wording Primary) (Throw e1);
       CallExtract Fallback (extractInstruction wording Fallback) (Throw e2)].

End Task.

(* ------------------------------------------------------------------ *)
(** * Model tier selection ([chooseClaudeModel])

    The LLM client, src/llm/claudeClient.ts, is not among the sources: only
    its unit tests are. *)

Module Claude.

Inductive ClaudeModel : Type := sonnet | opus.

(** Modelled from the spec: the tier selection of section 6, whose source
    file is missing: "text >12000 chars OR iterations >8 selects the
    higher-capability tier, else the standard tier". *)
Definition chooseClaudeModel (textLength iterations : Z) : ClaudeModel :=
  if (textLength >? 12000) || (iterations >? 8) then opus else sonnet.

End Claude.

(* ------------------------------------------------------------------ *)
(** * Browser Use scoring task ([browser/grammarlyTask.ts])

    The Browser Use provider behind the optimizer's [createGrammarlySession]
    and [runGrammarlyScoreTask]: the SDK client is a collaborator, and what
    it resolves with is kept as far as the code inspects it. *)

Module BrowserUse.

Definition newline : string := String (ascii_of_nat 10) EmptyString.

(** [[...].join("\n")]. *)
Definition buildGrammarlyTaskPrompt (text : string) : string :=
  Js.join newline
    [ "You are controlling a real browser that is already logged into a Grammarly or Superhuman account.";
      EmptyString;
      "Goal:";
      "1. Open the Grammarly docs writing surface at https://app.grammarly.com (or the equivalent docs surface if already open).";
      "2. Create a new document (not a classic doc).";
      "3. Paste the provided text exactly into the main editor area.";
      "4. Use Grammarly's AI Detector and Plagiarism Checker agents in the right-hand panel,";
      "   or the 'Check for AI text & plagiarism' control, to obtain:";
      "   - The overall AI-generated percentage (likelihood text was written with AI).";
      "   - The overall plagiarism / originality percentage.";
      "5. Wait for all results to fully load before reading the numbers.";
      "6. Return the results strictly in the JSON schema you were given.";
      EmptyString;
      "Important instructions:";
      "- Do not rewrite or paraphrase the text in the document.";
      "- If the AI Detector or Plagiarism Checker is not available, or scores cannot be found,";
      "  set the corresponding JSON field to null and explain why in notes.";
      "- When percentages are shown as strings like 'Probably AI-written' or 'No plagiarism found',";
      "  infer an approximate numeric percentage only if a number is explicitly visible.";
      EmptyString;
      "User text to evaluate (paste exactly as shown between markers):";
      "<START_USER_TEXT>";
      text;
      "<END_USER_TEXT>" ]%string.

(** The part of the prompt before the user text, and the part after it. *)
Definition promptHead : string :=
  (Js.join newline
     [ "You are controlling a real browser that is already logged into a Grammarly or Superhuman account.";
       EmptyString;
       "Goal:";
       "1. Open the Grammarly docs writing surface at https://app.grammarly.com (or the equivalent docs surface if already open).";
       "2. Create a new document (not a classic doc).";
       "3. Paste the provided text exactly into the main editor area.";
       "4. Use Grammarly's AI Detector and Plagiarism Checker agents in the right-hand panel,";
       "   or the 'Check for AI text & plagiarism' control, to obtain:";
       "   - The overall AI-generated percentage (likelihood text was written with AI).";
       "   - The overall plagiarism / originality percentage.";
       "5. Wait for all results to fully load before reading the numbers.";
       "6. Return the results strictly in the JSON schema you were given.";
       EmptyString;
       "Important instructions:";
       "- Do not rewrite or paraphrase the text in the document.";
       "- If the AI Detector or Plagiarism Checker is not available, or scores cannot be found,";
       "  set the corresponding JSON field to null and explain why in notes.";
       "- When percentages are shown as strings like 'Probably AI-written' or 'No plagiarism found',";
       "  infer an approximate numeric percentage only if a number is explicitly visible.";
       EmptyString;
       "User text to evaluate (paste exactly as shown between markers):";
       "<START_USER_TEXT>" ]%string ++ newline)%string.

Definition promptTail : string := (newline ++ "<END_USER_TEXT>")%string.

(** What [client.sessions.createSession] resolves with: nothing ([null] or
    [undefined]), or an object whose [id] is a string ([Some]) or is not. *)
Inductive SessionValue : Type :=
| NoSession
| SessionObject (id : option string).

(** What [task.complete()] resolves with: nothing, or an object whose
    [parsed] field is absent ([None]) or holds the structured output. *)
Inductive TaskResult : Type :=
| NoResult
| ResultObject (parsed : option Scores.t).

(** The argument of [client.tasks.createTask]; the [schema] field is the
    constant [GrammarlyScoresSchema]. *)
Record TaskRequest : Type :=
  { sessionId : string;
    llm : string;
    task : string }.

Inductive Call : Type :=
| CallCreateSession (profileId : string)
| CallCreateTask (request : TaskRequest)
| CallComplete.

(** The SDK client; [Handle] is the task object [createTask] resolves
    with. *)
Record Client (World Handle : Type) : Type :=
  { createSession : string -> World -> Completion SessionValue * World;
    createTask : TaskRequest -> World -> Completion Handle * World;
    complete : Handle -> World -> Completion TaskResult * World }.
Arguments createSession {World Handle} _ _ _.
Arguments createTask {World Handle} _ _ _.
Arguments complete {World Handle} _ _ _.

Record State (World : Type) : Type :=
  { world : World;
    calls : list Call }.
Arguments world {World} _.
Arguments calls {World} _.

Section Run.
Context {World Handle : Type}.
Variable client : Client World Handle.

Definition call {A} (c : Call) (f : World -> Completion A * World) : M (State World) A :=
  fun st =>
    let (r, w') := f (world st) in
    (r, {| world := w'; calls := calls st ++ [c] |}).

Definition createGrammarlySession (profileId : string) : M (State World) string :=
  tryCatch
    (session <- call (CallCreateSession profileId) (createSession client profileId) ;;
     match session with
     | SessionObject (Some id) => ret id
     | _ => throw (Js.ErrorObj "Browser Use session did not return a valid id")
     end)
    (fun error =>
       match error with
       | Js.ErrorObj _ => throw error
       | Js.NonError _ => throw (Js.ErrorObj "Failed to create Browser Use session")
       end).

Definition runGrammarlyScoreTask (sessionId text : string) : M (State World) Scores.t :=
  let taskPrompt := buildGrammarlyTaskPrompt text in
  let request :=
    {| sessionId := sessionId; llm := "browser-use-llm"; task := taskPrompt |} in
  tryCatch
    (handle <- call (CallCreateTask request) (createTask client request) ;;
     result <- call CallComplete (complete client handle) ;;
     match result with
     | ResultObject (Some scores) => ret scores
     | _ => throw (Js.ErrorObj "Browser Use task did not return structured scores")
     end)
    (fun error =>
       match error with
       | Js.ErrorObj _ => throw error
       | Js.NonError _ => throw (Js.ErrorObj "Browser Use Grammarly scoring task failed")
       end).

End Run.

(** ** Scripted client

    A client in the manner of the unit-test mocks: the session id and the
    parsed output are what the world holds. *)

Record Scripted : Type :=
  { scriptedSession : SessionValue;
    scriptedResult : TaskResult }.

Definition scriptedClient : Client Scripted unit :=
  {| createSession := fun _ w => (Normal (scriptedSession w), w);
     createTask := fun _ w => (Normal tt, w);
     complete := fun _ w => (Normal (scriptedResult w), w) |}.

Definition scoredWorld : Scripted :=
  {| scriptedSession := SessionObject (Some "bu-session-12345"%string);
     scriptedResult :=
       ResultObject (Some (Scores.mk (Some 15%Q) (Some 3%Q) "baseline")) |}.

End BrowserUse.

(* ------------------------------------------------------------------ *)
(** * 1Password credentials ([auth/onePasswordProvider.ts])

    The 1Password SDK and the read of package.json are collaborators.
    [Promise.all] over the two [resolve] calls is modelled as both calls
    made one after the other; when both reject, which rejection wins is
    left to the collaborator. *)

Module OnePassword.

Definition INTEGRATION_NAME : string := "Grammarly MCP Server".

Definition DEFAULT_SECRET_REF : string := "op://Browserbase Agent/Grammarly".

Record OnePasswordOptions : Type :=
  { serviceAccountToken : string;
    secretRefPath : option string }.

(** The argument of the SDK's [createClient]; the version read from
    package.json is [None] when the file has no [version] field. *)
Record ClientConfig : Type :=
  { auth : string;
    integrationName : string;
    integrationVersion : option string }.

Inductive Call : Type :=
| CallReadPackageJson
| CallCreateClient (config : ClientConfig)
| CallResolve (secretReference : string).

(** [readPackageVersion] is [JSON.parse(fs.readFileSync(...)).version];
    [Handle] is the SDK client object. *)
Record Sdk (World Handle : Type) : Type :=
  { readPackageVersion : World -> Completion (option string) * World;
    createClient : ClientConfig -> World -> Completion Handle * World;
    resolve : Handle -> string -> World -> Completion string * World;
    secondRejectsFirst : World -> bool }.
Arguments readPackageVersion {World Handle} _ _.
Arguments createClient {World Handle} _ _ _.
Arguments resolve {World Handle} _ _ _ _.
Arguments secondRejectsFirst {World Handle} _ _.

(** The world, the call log and the module-level
    [cachedIntegrationVersion]. *)
Record State (World : Type) : Type :=
  { world : World;
    calls : list Call;
    cachedIntegrationVersion : option string }.
Arguments world {World} _.
Arguments calls {World} _.
Arguments cachedIntegrationVersion {World} _.

(** [!!config.opServiceAccountToken]. *)
Definition isOnePasswordConfigured (opServiceAccountToken : option string) : bool :=
  Js.truthyOpt opServiceAccountToken.

Definition isResolve (c : Call) : bool :=
  match c with
  | CallResolve _ => true
  | _ => false
  end.

Definition isReadPackageJson (c : Call) : bool :=
  match c with
  | CallReadPackageJson => true
  | _ => false
  end.

Definition countCalls (p : Call -> bool) (log : list Call) : nat :=
  List.length (List.filter p log).

Section Run.
Context {World Handle : Type}.
Variable sdk : Sdk World Handle.

Definition initialState (w : World) : State World :=
  {| world := w; calls := []; cachedIntegrationVersion := None |}.

Definition call {A} (c : Call) (f : World -> Completion A * World) : M (State World) A :=
  fun st =>
    let (r, w') := f (world st) in
    (r, {| world := w'; calls := calls st ++ [c];
           cachedIntegrationVersion := cachedIntegrationVersion st |}).

(** [await Promise.all([first, second])] for two calls started in this
    order. *)
Definition promiseAll2 {A B} (first : M (State World) A) (second : M (State World) B)
  : M (State World) (A * B) :=
  fun st =>
    let (c1, st1) := first st in
    let (c2, st2) := second st1 in
    (match c1, c2 with
     | Normal a, Normal b => Normal (a, b)
     | Throw e, Normal _ => Throw e
     | Normal _, Throw e => Throw e
     | Throw e1, Throw e2 =>
         if secondRejectsFirst sdk (world st2) then Throw e2 else Throw e1
     end, st2).

Definition getIntegrationVersion : M (State World) (option string) :=
  cached <- gets cachedIntegrationVersion ;;
  match cached with
  | None =>
      version <- call CallReadPackageJson (readPackageVersion sdk) ;;
      modify (fun st => {| world := world st; calls := calls st;
                           cachedIntegrationVersion := version |}) ;;;
      gets cachedIntegrationVersion
  | Some _ => gets cachedIntegrationVersion
  end.

Definition createOnePasswordClient (serviceAccountToken : string)
  : M (State World) Handle :=
  tryCatch
    (version <- getIntegrationVersion ;;
     let config :=
       {| auth := serviceAccountToken;
          integrationName := INTEGRATION_NAME;
          integrationVersion := version |} in
     call (CallCreateClient config) (createClient sdk config))
    (fun error =>
       throw (Js.ErrorObj ("1Password SDK initialization failed: "
                           ++ Js.messageOr "unknown error" error))).

Definition getGrammarlyCredentials (options : OnePasswordOptions)
  : M (State World) Login.GrammarlyCredentials :=
  let basePath :=
    match secretRefPath options with
    | Some path => path
    | None => DEFAULT_SECRET_REF
    end in
  client <- createOnePasswordClient (serviceAccountToken options) ;;
  tryCatch
    (resolved <-
       promiseAll2
         (call (CallResolve (basePath ++ "/username"))
            (resolve sdk client (basePath ++ "/username")))
         (call (CallResolve (basePath ++ "/password"))
            (resolve sdk client (basePath ++ "/password"))) ;;
     let (username, password) := resolved in
     if negb (Js.truthy username) || negb (Js.truthy password)
     then throw (Js.ErrorObj "Username or password field is empty in 1Password item")
     else ret {| Login.username := username; Login.password := password |})
    (fun error =>
       throw (Js.ErrorObj ("Failed to resolve 1Password secrets: "
                           ++ Js.messageOr "unknown error" error))).

End Run.

(** ** Scripted SDK

    An SDK in the manner of the unit-test mocks: the vault maps secret
    references to values. *)

Record Scripted : Type :=
  { packageVersion : option string;
    vault : list (string * string) }.

Fixpoint lookupSecret (reference : string) (entries : list (string * string))
  : option string :=
  match entries with
  | [] => None
  | (key, value) :: rest =>
      if String.eqb key reference then Some value else lookupSecret reference rest
  end.

Definition scriptedSdk : Sdk Scripted unit :=
  {| readPackageVersion := fun w => (Normal (packageVersion w), w);
     createClient := fun _ w => (Normal tt, w);
     resolve := fun _ reference w =>
       match lookupSecret reference (vault w) with
       | Some value => (Normal value, w)
       | None => (Throw (Js.ErrorObj "Secret not found"), w)
       end;
     secondRejectsFirst := fun _ => false |}.

Definition testOptions : OnePasswordOptions :=
  {| serviceAccountToken := "ops_test_token"; secretRefPath := None |}.

Definition testVault : Scripted :=
  {| packageVersion := Some "0.1.0"%string;
     vault := [ ("op://Browserbase Agent/Grammarly/username"%string,
                 "test@example.com"%string);
                ("op://Browserbase Agent/Grammarly/password"%string,
                 "testPassword123"%string) ] |}.

(** The item exists but its password field is empty. *)
Definition emptyPasswordVault : Scripted :=
  {| packageVersion := Some "0.1.0"%string;
     vault := [ ("op://Browserbase Agent/Grammarly/username"%string,
                 "test@example.com"%string);
                ("op://Browserbase Agent/Grammarly/password"%string, EmptyString) ] |}.

End OnePassword.

(* ------------------------------------------------------------------ *)
(** * Rules for [wp] *)

Module AsyncFacts.

Section Rules.
Context {St : Type}.

Lemma wp_ret {A} (a : A) (Q : Completion A -> St -> Prop) st :
  Q (Normal a) st -> wp (ret a) Q st.
Proof. exact (fun H => H). Qed.

Lemma wp_throw {A} (e : Js.Thrown) (Q : Completion A -> St -> Prop) st :
  Q (Throw e) st -> wp (throw e) Q st.
Proof. exact (fun H => H). Qed.

Lemma wp_gets {A} (f : St -> A) (Q : Completion A -> St -> Prop) st :
  Q (Normal (f st)) st -> wp (gets f) Q st.
Proof. exact (fun H => H). Qed.

Lemma wp_modify (f : St -> St) (Q : Completion unit -> St -> Prop) st :
  Q (Normal tt) (f st) -> wp (modify f) Q st.
Proof. exact (fun H => H). Qed.

Lemma wp_bind {A B} (m : M St A) (k : A -> M St B) (Q : Completion B -> St -> Prop) st :
  wp m (fun c st' =>
          match c with
          | Normal a => wp (k a) Q st'
          | Throw e => Q (Throw e) st'
          end) st ->
  wp (bind m k) Q st.
Proof.
  unfold wp, bind. destruct (m st) as [[a | e] st']; simpl; trivial.
Qed.

Lemma wp_tryCatch {A} (body : M St A) (handler : Js.Thrown -> M St A)
    (Q : Completion A -> St -> Prop) st :
  wp body (fun c st' =>
             match c with
             | Normal a => Q (Normal a) st'
             | Throw e => wp (handler e) Q st'
             end) st ->
  wp (tryCatch body handler) Q st.
Proof.
  unfold wp, tryCatch. destruct (body st) as [[a | e] st']; simpl; trivial.
Qed.

Lemma wp_tryFinally {A} (body : M St A) (fin : M St unit)
    (Q : Completion A -> St -> Prop) st :
  wp body (fun c st' =>
             wp fin (fun d st'' =>
                       match d with
                       | Normal _ => Q c st''
                       | Throw e => Q (Throw e) st''
                       end) st') st ->
  wp (tryFinally body fin) Q st.
Proof.
  unfold wp, tryFinally. destruct (body st) as [c st']; simpl.
  destruct (fin st') as [[u | e] st'']; simpl; trivial.
Qed.

Lemma wp_mono {A} (m : M St A) (Q Q' : Completion A -> St -> Prop) st :
  wp m Q st -> (forall c st', Q c st' -> Q' c st') -> wp m Q' st.
Proof. unfold wp. intros H HQ. apply HQ, H. Qed.

Lemma wp_run {A} (m : M St A) (Q : Completion A -> St -> Prop) st c st' :
  wp m Q st -> m st = (c, st') -> Q c st'.
Proof. unfold wp. intros H E. rewrite E in H. exact H. Qed.

End Rules.

End AsyncFacts.

Import AsyncFacts.

(* ------------------------------------------------------------------ *)
(** * Optimisation loop: properties *)

Module OptimizerFacts.
Import Optimizer.

(** ** Thresholds *)

Example thresholdsMet_both_ok :
  thresholdsMet (Scores.mk (Some 8%Q) (Some 2%Q) EmptyString) 10%Q 5%Q = true.
Proof. reflexivity. Qed.

Example thresholdsMet_ai_too_high :
  thresholdsMet (Scores.mk (Some 15%Q) (Some 3%Q) EmptyString) 10%Q 5%Q = false.
Proof. reflexivity. Qed.

Example thresholdsMet_one_null :
  thresholdsMet (Scores.mk None (Some 5%Q) EmptyString) 10%Q 5%Q = true.
Proof. reflexivity. Qed.

Example thresholdsMet_both_null :
  thresholdsMet (Scores.mk None None "n/a") 100%Q 100%Q = false.
Proof. reflexivity. Qed.

(** C1.  [thresholdsMet] answers [true] exactly when at least one of the two
    percent fields is non-null and every non-null one is at most its
    configured maximum; in particular it answers [false] whenever both
    fields are null. *)
Theorem thresholdsMet_only_if_verified :
  forall (scores : Scores.t) (maxAiPercent maxPlagiarismPercent : Q),
    (thresholdsMet scores maxAiPercent maxPlagiarismPercent = true <->
       (Scores.aiDetectionPercent scores <> None \/
        Scores.plagiarismPercent scores <> None) /\
       (forall ai, Scores.aiDetectionPercent scores = Some ai -> (ai <= maxAiPercent)%Q) /\
       (forall pl, Scores.plagiarismPercent scores = Some pl ->
                   (pl <= maxPlagiarismPercent)%Q))
    /\
    (Scores.aiDetectionPercent scores = None ->
     Scores.plagiarismPercent scores = None ->
     thresholdsMet scores maxAiPercent maxPlagiarismPercent = false).
Proof.
  intros [ai pl n] maxAi maxPl; unfold thresholdsMet, isNull; simpl.
  split.
  - destruct ai as [a|], pl as [p|]; simpl; split.
    + rewrite andb_true_iff, !Qle_bool_iff. intros [Ha Hp].
      repeat split; [left; discriminate | intros ? [= <-]; exact Ha | intros ? [= <-]; exact Hp].
    + intros (_ & Ha & Hp). rewrite andb_true_iff, !Qle_bool_iff.
      split; [apply Ha | apply Hp]; reflexivity.
    + rewrite andb_true_r, Qle_bool_iff. intros Ha.
      repeat split; [left; discriminate | intros ? [= <-]; exact Ha | discriminate].
    + intros (_ & Ha & _). rewrite andb_true_r, Qle_bool_iff. apply Ha; reflexivity.
    + rewrite Qle_bool_iff. intros Hp.
      repeat split; [right; discriminate | discriminate | intros ? [= <-]; exact Hp].
    + intros (_ & _ & Hp). rewrite Qle_bool_iff. apply Hp; reflexivity.
    + discriminate.
    + intros ([H | H] & _); contradiction H; reflexivity.
  - intros -> ->. reflexivity.
Qed.

(** ** Reasoning rules for the collaborators *)

Section Rules.
Context {World : Type}.
Variable env : Collaborators World.

Lemma wp_call {A} (c : Call) (f : World -> Completion A * World)
    (Q : Completion A -> State World -> Prop) (st : State World) :
  (forall r w', f (world st) = (r, w') ->
      Q r {| world := w'; calls := calls st ++ [c]; sessionId := sessionId st |}) ->
  wp (call c f) Q st.
Proof.
  unfold wp, call. intros H. destruct (f (world st)) as [r w'] eqn:E.
  simpl. apply H. reflexivity.
Qed.

Lemma wp_progress (message : string) (pct : Q)
    (Q : Completion unit -> State World -> Prop) (st : State World) :
  Q (Normal tt) st ->
  (forall r w',
      Q r {| world := w'; calls := calls st ++ [CallProgress message pct];
             sessionId := sessionId st |}) ->
  wp (progress env message pct) Q st.
Proof.
  intros Hnone Hsome. unfold progress. destruct (onProgress env) as [cb |].
  - apply wp_call. intros r w' _. apply Hsome.
  - apply wp_ret. exact Hnone.
Qed.

Lemma countCalls_snoc (p : Call -> bool) (log : list Call) (c : Call) :
  countCalls p (log ++ [c]) = (countCalls p log + (if p c then 1 else 0))%nat.
Proof.
  unfold countCalls. rewrite filter_app, length_app. simpl.
  destruct (p c); reflexivity.
Qed.

End Rules.

(** One symbolic step through a computation. *)
Ltac wp_step :=
  lazymatch goal with
  | |- wp (bind _ _) _ _ => apply wp_bind
  | |- wp (ret _) _ _ => apply wp_ret
  | |- wp (gets _) _ _ => apply wp_gets
  | |- wp (modify _) _ _ => apply wp_modify
  | |- wp (tryCatch _ _) _ _ => apply wp_tryCatch
  | |- wp (tryFinally _ _) _ _ => apply wp_tryFinally
  | |- wp (progress _ _ _) _ _ => apply wp_progress; [ | intros [[] | ?] ? ]
  | |- wp (call _ _) _ _ => apply wp_call; intros [? | ?] ? _
  | |- wp (if ?b then _ else _) _ _ => destruct b eqn:?
  | |- wp (match ?o with Some _ => _ | None => _ end) _ _ => destruct o eqn:?
  end;
  cbn [world calls sessionId initialState app].

Ltac wp_steps := repeat wp_step.

(** ** Score-only and analyze modes *)

(** C10.  In [score_only] and [analyze] modes the returned [final_text] is
    the caller's input text, and the rewrite step is never called. *)
Theorem final_text_unchanged_without_optimize :
  forall (World : Type) (env : Collaborators World)
         (input : GrammarlyOptimizeInput) (w : World),
    mode input = score_only \/ mode input = analyze ->
    (forall r, fst (runGrammarlyOptimization env input w) = Normal r ->
               Result.final_text r = text input)
    /\ countCalls isRewrite (calls (snd (runGrammarlyOptimization env input w))) = 0%nat.
Proof.
  intros World env input w Hmode.
  change (wp (progress env "Creating Browser Use session..." 5 ;;;
              tryFinally (tryBody env input) (finallyBlock env))
            (fun c st => (forall r, c = Normal r -> Result.final_text r = text input)
                         /\ countCalls isRewrite (calls st) = 0%nat)
            (initialState w)).
  unfold tryBody, finallyBlock, assignSessionId, progress.
  destruct Hmode as [-> | ->]; destruct (onProgress env) as [cb |]; cbv iota.
  all: wp_steps.
  all: split; [intros r Hr; first [discriminate Hr | injection Hr as <-; reflexivity]
              | reflexivity].
Qed.

(** ** The optimisation loop *)

Section Loop.
Context {World : Type}.
Variable env : Collaborators World.
Variable input : GrammarlyOptimizeInput.
Variable sid : string.

Lemma entryMeets_historyEntry (iteration : Z) (scores : Scores.t) (note : string) :
  entryMeets input (historyEntry iteration scores note)
  = thresholdsMet scores (max_ai_percent input) (max_plagiarism_percent input).
Proof. destruct scores; reflexivity. Qed.

Lemma iterationBody_wp (iteration : Z) (ls : LoopState) (st : State World) :
  wp (iterationBody env input sid iteration ls)
     (fun c st' =>
        match c with
        | Normal ls' =>
            exists e,
              history ls' = history ls ++ [e]
              /\ iterationsUsed ls' = iteration
              /\ entryMeets input e = reachedThresholds ls'
              /\ History.iteration e = iteration
              /\ countCalls isRewrite (calls st')
                 = (countCalls isRewrite (calls st) + 1)%nat
              /\ countCalls isScoreTask (calls st')
                 = (countCalls isScoreTask (calls st) + 1)%nat
              /\ sessionId st' = sessionId st
        | Throw _ => True
        end) st.
Proof.
  unfold iterationBody, progress.
  destruct (onProgress env) as [cb |]; cbv iota zeta.
  all: wp_steps; trivial.
  all: eexists; cbn [history iterationsUsed reachedThresholds];
    rewrite entryMeets_historyEntry, !countCalls_snoc; cbn [isRewrite isScoreTask historyEntry History.iteration];
    repeat split; lia.
Qed.

Lemma optimizeLoop_wp (budget : nat) :
  forall (iteration : Z) (ls : LoopState) (st : State World),
    iterationsUsed ls = iteration - 1 ->
    wp (optimizeLoop env input sid budget iteration ls)
       (fun c st' =>
          match c with
          | Normal ls' => exists entries, loopRan input budget iteration ls ls' st st' entries
          | Throw _ => True
          end) st.
Proof.
  induction budget as [| budget IH]; intros iteration ls st Hprev; cbn [optimizeLoop].
  - apply wp_ret. exists []. unfold loopRan. rewrite app_nil_r. cbn [List.length].
    split; [reflexivity | ]. split; [lia | ]. split; [lia | ].
    split; [intros [| j] e H; discriminate | ].
    split; [reflexivity | ].
    split; [intros [| j] e H; discriminate | ].
    split; [lia | ]. split; [lia | reflexivity].
  - apply wp_bind. eapply wp_mono; [apply iterationBody_wp | ].
    intros [ls1 | err] st1; [ | trivial].
    intros (e & Hh & Hused & Hmeets & Hit & Hrw & Hsc & Hsid).
    destruct (reachedThresholds ls1) eqn:Hreached.
    + apply wp_ret. exists [e]. unfold loopRan. cbn [List.length].
      split; [exact Hh | ]. split; [lia | ]. split; [lia | ].
      split.
      { intros [| [| j]] e0 H _; try discriminate. split; [reflexivity | exact Hreached]. }
      split; [rewrite Hreached; discriminate | ].
      split.
      { intros [| [| j]] e0 H; try discriminate. injection H as <-. lia. }
      split; [lia | ]. split; [lia | exact Hsid].
    + eapply wp_mono; [apply IH; lia | ].
      intros [ls2 | err] st2; [ | trivial].
      intros (entries & Hh2 & Hused2 & Hlen & Hfirst & Hfull & Hidx & Hrw2 & Hsc2 & Hsid2).
      exists (e :: entries). unfold loopRan. cbn [List.length].
      split; [rewrite Hh2, Hh, <- app_assoc; reflexivity | ].
      split; [lia | ]. split; [lia | ].
      split.
      { intros [| j] e0 H Hm; cbn [nth_error] in H.
        - injection H as <-. congruence.
        - destruct (Hfirst _ _ H Hm) as [Hj Hr]. split; [lia | exact Hr]. }
      split; [intros Hr; rewrite (Hfull Hr); reflexivity | ].
      split.
      { intros [| j] e0 H; cbn [nth_error] in H.
        - injection H as <-. lia.
        - rewrite (Hidx _ _ H). lia. }
      split; [lia | ]. split; [lia | congruence].
Qed.

End Loop.

(** An iteration whose scores meet the thresholds is the last one the loop
    runs. *)
Lemma optimizeLoop_breaks {World : Type} (env : Collaborators World)
    (input : GrammarlyOptimizeInput) (sid : string) (remaining : nat) (iteration : Z)
    (ls ls' : LoopState) (st st' : State World) :
  iterationBody env input sid iteration ls st = (Normal ls', st') ->
  thresholdsMet (lastScores ls') (max_ai_percent input) (max_plagiarism_percent input)
  = true ->
  optimizeLoop env input sid (S remaining) iteration ls st = (Normal ls', st').
Proof.
  intros Hbody Hmet. cbn [optimizeLoop]. unfold bind. rewrite Hbody.
  assert (Hreached : reachedThresholds ls' = true).
  { revert Hbody Hmet. unfold iterationBody, bind, progress, call, ret.
    destruct (onProgress env) as [cb |].
    - destruct (cb _ _ (world st)) as [[[] | e] w1]; [ | discriminate]. cbn.
      destruct (rewriteTextWithClaude env _ w1) as [[rw | e] w2]; [ | discriminate]. cbn.
      destruct (cb _ _ w2) as [[[] | e] w3]; [ | discriminate]. cbn.
      destruct (runGrammarlyScoreTask env _ _ w3) as [[sc | e] w4]; [ | discriminate].
      intros [= <- _]. cbn. trivial.
    - cbn.
      destruct (rewriteTextWithClaude env _ (world st)) as [[rw | e] w2]; [ | discriminate].
      cbn.
      destruct (runGrammarlyScoreTask env _ _ w2) as [[sc | e] w4]; [ | discriminate].
      intros [= <- _]. cbn. trivial. }
  rewrite Hreached. reflexivity.
Qed.

Lemma optimize_run_wp {World : Type} (env : Collaborators World)
    (input : GrammarlyOptimizeInput) (w : World) :
  mode input = optimize ->
  wp (progress env "Creating Browser Use session..." 5 ;;;
      tryFinally (tryBody env input) (finallyBlock env))
     (fun c st' => forall r, c = Normal r -> optimizeReturned input r st')
     (initialState w).
Proof.
  intros Hmode.
  unfold tryBody, finallyBlock, assignSessionId, progress. rewrite Hmode.
  destruct (onProgress env) as [cb |]; cbv iota.
  all: wp_steps; try discriminate.
  all: (eapply wp_mono; [apply optimizeLoop_wp; reflexivity | ]).
  all: intros [ls | err] st1 Hloop; wp_steps; try discriminate.
  all: intros r Hr; injection Hr as <-.
  all: destruct Hloop as (entries & Hh & Hused & Hlen & Hfirst & Hfull & Hidx & Hrw & Hsc & _).
  all: cbn [history calls] in Hh, Hrw, Hsc.
  all: eexists; exists entries.
  all: cbn [Result.history Result.iterations_used Result.thresholds_met].
  all: cbn [calls]; rewrite ?countCalls_snoc; cbn [isRewrite isScoreTask].
  all: rewrite ?countCalls_snoc in Hrw, Hsc; cbn [isRewrite isScoreTask countCalls filter List.length] in Hrw, Hsc.
  all: split; [exact Hh | ]; split; [lia | ]; split; [exact Hlen | ].
  all: split; [exact Hfirst | ]; split; [exact Hfull | ]; split; [exact Hidx | ].
  all: split; lia.
Qed.

(** C2.  In [optimize] mode, if the scores recorded for some iteration
    [k >= 1] meet the thresholds, the loop ran no further iteration: the
    returned result has [iterations_used = k], [thresholds_met = true] and a
    history of [k + 1] entries, and the rewrite step was called [k] times and
    the scoring task [k + 1] times (baseline included). *)
Theorem optimize_stops_when_thresholds_met :
  forall (World : Type) (env : Collaborators World)
         (input : GrammarlyOptimizeInput) (w : World)
         (r : Result.t) (st' : State World) (k : Z) (e : History.t),
    mode input = optimize ->
    runGrammarlyOptimization env input w = (Normal r, st') ->
    1 <= k ->
    nth_error (Result.history r) (Z.to_nat k) = Some e ->
    thresholdsMet (entryScores e) (max_ai_percent input) (max_plagiarism_percent input)
    = true ->
    History.iteration e = k
    /\ k <= max_iterations input
    /\ Result.iterations_used r = k
    /\ Result.thresholds_met r = true
    /\ Z.of_nat (List.length (Result.history r)) = k + 1
    /\ countCalls isRewrite (calls st') = Z.to_nat k
    /\ countCalls isScoreTask (calls st') = S (Z.to_nat k).
Proof.
  intros World env input w r st' k e Hmode Hrun Hk Hnth Hmeets.
  pose proof (wp_run _ _ _ _ _ (optimize_run_wp env input w Hmode) Hrun r eq_refl)
    as (baseline & entries & Hh & Hused & Hlen & Hfirst & _ & Hidx & Hrw & Hsc).
  rewrite Hh in Hnth |- *.
  destruct (Z.to_nat k) as [| j] eqn:Hj; [lia | ].
  cbn [nth_error] in Hnth.
  destruct (Hfirst j e Hnth Hmeets) as [Hlast Hmet].
  pose proof (Hidx j e Hnth) as Hit.
  cbn [List.length]. rewrite Hrw, Hsc, <- Hlast.
  repeat split; try lia. exact Hmet.
Qed.

(** When the thresholds are never met the whole budget is used. *)
Lemma optimize_uses_budget_when_not_met :
  forall (World : Type) (env : Collaborators World)
         (input : GrammarlyOptimizeInput) (w : World)
         (r : Result.t) (st' : State World),
    mode input = optimize ->
    0 <= max_iterations input ->
    runGrammarlyOptimization env input w = (Normal r, st') ->
    Result.thresholds_met r = false ->
    Result.iterations_used r = max_iterations input.
Proof.
  intros World env input w r st' Hmode Hmax Hrun Hnot.
  pose proof (wp_run _ _ _ _ _ (optimize_run_wp env input w Hmode) Hrun r eq_refl)
    as (baseline & entries & _ & Hused & _ & _ & Hfull & _).
  rewrite Hused, (Hfull Hnot). lia.
Qed.


(** ** Session teardown *)

Section Teardown.
Context {World : Type}.
Variable env : Collaborators World.

Lemma finallyBlock_never_throws (st : State World) :
  fst (finallyBlock env st) = Normal tt.
Proof.
  unfold finallyBlock, bind, gets, tryCatch, call, ret.
  destruct (sessionId st) as [s |]; simpl; [ | reflexivity].
  destruct (Js.truthy s); [ | reflexivity].
  destruct (deleteSession env s (world st)) as [[[] | e] w']; reflexivity.
Qed.

Lemma finallyBlock_calls (st : State World) :
  calls (snd (finallyBlock env st)) = calls st ++ teardownCalls (sessionId st)
  /\ sessionId (snd (finallyBlock env st)) = sessionId st.
Proof.
  unfold finallyBlock, bind, gets, tryCatch, call, ret, teardownCalls.
  destruct (sessionId st) as [s |] eqn:Hs; simpl.
  - destruct (Js.truthy s); simpl.
    + destruct (deleteSession env s (world st)) as [[[] | e] w']; simpl; auto.
    + rewrite app_nil_r. auto.
  - rewrite app_nil_r. auto.
Qed.

Lemma tryFinally_finallyBlock {A} (body : M (State World) A) (st : State World) :
  tryFinally body (finallyBlock env) st
  = (fst (body st), snd (finallyBlock env (snd (body st)))).
Proof.
  unfold tryFinally. destruct (body st) as [c st1]; simpl.
  pose proof (finallyBlock_never_throws st1) as H.
  destruct (finallyBlock env st1) as [[u | e] st2]; simpl in *; [reflexivity | discriminate].
Qed.

End Teardown.

(** ** What the main flow leaves for the [finally] block *)

Section MainFlow.
Context {World : Type}.
Variable env : Collaborators World.
Variable input : GrammarlyOptimizeInput.

Lemma progress_keeps_session (message : string) (pct : Q) (st : State World) :
  sessionId (snd (progress env message pct st)) = sessionId st.
Proof.
  unfold progress. destruct (onProgress env) as [cb |]; [ | reflexivity].
  unfold call. destruct (cb message pct (world st)) as [r w']. reflexivity.
Qed.

Lemma iterationBody_keeps_session (sid : string) (iteration : Z) (ls : LoopState)
    (st : State World) :
  wp (iterationBody env input sid iteration ls)
     (fun _ st' =>
        sessionId st' = sessionId st
        /\ countCalls isDeleteSession (calls st')
           = countCalls isDeleteSession (calls st)) st.
Proof.
  unfold iterationBody, progress. destruct (onProgress env) as [cb |]; cbv iota.
  all: wp_steps.
  all: rewrite ?countCalls_snoc; cbn [isDeleteSession]; split; [reflexivity | lia].
Qed.

Lemma optimizeLoop_keeps_session (sid : string) (budget : nat) :
  forall (iteration : Z) (ls : LoopState) (st : State World),
    wp (optimizeLoop env input sid budget iteration ls)
       (fun _ st' =>
          sessionId st' = sessionId st
          /\ countCalls isDeleteSession (calls st')
             = countCalls isDeleteSession (calls st)) st.
Proof.
  induction budget as [| budget IH]; intros iteration ls st; cbn [optimizeLoop].
  - apply wp_ret. split; reflexivity.
  - apply wp_bind. eapply wp_mono; [apply iterationBody_keeps_session | ].
    intros [ls1 | e] st1 [Hsid Hdel]; [ | split; assumption].
    destruct (reachedThresholds ls1); [apply wp_ret; split; assumption | ].
    eapply wp_mono; [apply IH | ]. intros c st2 [Hsid2 Hdel2].
    split; congruence.
Qed.

(** After the [try] block, [sessionId] holds what [createGrammarlySession]
    resolved with, or is still unset when it rejected; the block itself
    never closes a session. *)
Lemma tryBody_session (st : State World) :
  wp (tryBody env input)
     (fun _ st' =>
        sessionId st'
        = match fst (createGrammarlySession env (world st)) with
          | Normal sid => Some sid
          | Throw _ => sessionId st
          end
        /\ countCalls isDeleteSession (calls st')
           = countCalls isDeleteSession (calls st)) st.
Proof.
  unfold tryBody, assignSessionId, progress.
  apply wp_bind. apply wp_call. intros created w1 Hcreated. rewrite Hcreated.
  cbn [fst]. destruct created as [sid | e];
    [ | cbn [sessionId calls]; rewrite countCalls_snoc; cbn [isDeleteSession];
        split; [reflexivity | lia]].
  destruct (mode input); destruct (onProgress env) as [cb |]; cbv iota.
  all: wp_steps.
  all: try (eapply wp_mono;
            [ apply optimizeLoop_keeps_session
            | intros [ls | err] st1 [Hsid Hdel]; wp_steps ]).
  all: try (cbn [sessionId calls] in Hsid, Hdel).
  all: cbn [sessionId calls]; rewrite ?countCalls_snoc; cbn [isDeleteSession];
    try rewrite Hdel; rewrite ?countCalls_snoc; cbn [isDeleteSession];
    split; [first [reflexivity | exact Hsid] | lia].
Qed.

(** The main flow leaves in [sessionId] the id the session was created
    with, and closes nothing itself. *)
Lemma mainFlow_session (w : World) :
  countCalls isDeleteSession (calls (snd (mainFlow env input w))) = 0%nat
  /\ match progress env "Creating Browser Use session..." 5 (initialState w) with
     | (Normal _, st0) =>
         sessionId (snd (mainFlow env input w))
         = match fst (createGrammarlySession env (world st0)) with
           | Normal sid => Some sid
           | Throw _ => None
           end
     | (Throw _, _) => sessionId (snd (mainFlow env input w)) = None
     end.
Proof.
  pose proof (progress_keeps_session "Creating Browser Use session..." 5
                (initialState w)) as Hsession.
  assert (Hcount : countCalls isDeleteSession
                     (calls (snd (progress env "Creating Browser Use session..." 5
                                    (initialState w)))) = 0%nat).
  { unfold progress. destruct (onProgress env) as [cb |]; [ | reflexivity].
    unfold call. destruct (cb _ _ (world (initialState w))) as [r w']. reflexivity. }
  unfold mainFlow, bind.
  destruct (progress env "Creating Browser Use session..." 5 (initialState w))
    as [[[] | e] st0]; cbn [snd] in *.
  - pose proof (tryBody_session st0) as [Hsid Hdel]. rewrite Hsid, Hdel, Hcount, Hsession.
    split; reflexivity.
  - split; [exact Hcount | exact Hsession].
Qed.

End MainFlow.

(** C9 (as amended).  Whatever the mode and whatever the main flow does (a
    result or a thrown error), the completion of [runGrammarlyOptimization]
    is the completion of the main flow, and it does not depend on
    [deleteSession] at all: a failing teardown neither changes the result
    nor replaces the error.  The main flow never closes a session itself.
    When [createGrammarlySession] resolved with a non-empty id, the
    [finally] block calls [deleteSession] on that id as the last call of
    the run; when it rejected, was never reached or resolved with the empty
    string, the [finally] block makes no call. *)
Theorem teardown_never_masks_outcome :
  forall (World : Type) (env : Collaborators World)
         (input : GrammarlyOptimizeInput) (w : World),
    fst (runGrammarlyOptimization env input w) = fst (mainFlow env input w)
    /\ countCalls isDeleteSession (calls (snd (mainFlow env input w))) = 0%nat
    /\ (forall st0 sid w1,
          progress env "Creating Browser Use session..." 5 (initialState w)
          = (Normal tt, st0) ->
          createGrammarlySession env (world st0) = (Normal sid, w1) ->
          Js.truthy sid = true ->
          calls (snd (runGrammarlyOptimization env input w))
          = calls (snd (mainFlow env input w)) ++ [CallDeleteSession sid])
    /\ (forall st0 created w1,
          progress env "Creating Browser Use session..." 5 (initialState w)
          = (Normal tt, st0) ->
          createGrammarlySession env (world st0) = (created, w1) ->
          (forall sid, created = Normal sid -> Js.truthy sid = false) ->
          calls (snd (runGrammarlyOptimization env input w))
          = calls (snd (mainFlow env input w)))
    /\ (forall e st0,
          progress env "Creating Browser Use session..." 5 (initialState w)
          = (Throw e, st0) ->
          calls (snd (runGrammarlyOptimization env input w))
          = calls (snd (mainFlow env input w)))
    /\ (forall del,
          fst (runGrammarlyOptimization (withDeleteSession env del) input w)
          = fst (runGrammarlyOptimization env input w)).
Proof.
  intros World env input w.
  assert (Hmain : forall e : Collaborators World,
             fst (runGrammarlyOptimization e input w) = fst (mainFlow e input w)
             /\ calls (snd (runGrammarlyOptimization e input w))
                = calls (snd (mainFlow e input w))
                    ++ teardownCalls (sessionId (snd (mainFlow e input w)))).
  { intros e. unfold runGrammarlyOptimization, mainFlow, bind.
    destruct (progress e "Creating Browser Use session..." 5 (initialState w))
      as [[[] | err] st0] eqn:Hp.
    - rewrite tryFinally_finallyBlock. simpl. split; [reflexivity | ].
      apply finallyBlock_calls.
    - simpl. split; [reflexivity | ].
      assert (Hsid : sessionId st0 = None).
      { revert Hp. unfold progress, call, ret, initialState.
        destruct (onProgress e) as [cb |]; simpl.
        - destruct (cb _ _ w) as [r w']. intros [= _ <-]. reflexivity.
        - discriminate. }
      rewrite Hsid. simpl. rewrite app_nil_r. reflexivity. }
  destruct (Hmain env) as [Hfst Hcalls].
  destruct (mainFlow_session env input w) as [Hnone Hsession].
  split; [exact Hfst | split; [exact Hnone | ]].
  split; [ | split; [ | split]].
  - intros st0 sid w1 Hprogress Hcreated Hid.
    rewrite Hprogress, Hcreated in Hsession. cbn [fst] in Hsession.
    rewrite Hcalls, Hsession. cbn [teardownCalls]. rewrite Hid. reflexivity.
  - intros st0 created w1 Hprogress Hcreated Hid.
    rewrite Hprogress, Hcreated in Hsession. cbn [fst] in Hsession.
    rewrite Hcalls, Hsession. destruct created as [sid | e]; cbn [teardownCalls].
    + rewrite (Hid sid eq_refl). apply app_nil_r.
    + apply app_nil_r.
  - intros e st0 Hprogress. rewrite Hprogress in Hsession.
    rewrite Hcalls, Hsession. apply app_nil_r.
  - intros del. rewrite Hfst. rewrite (proj1 (Hmain (withDeleteSession env del))).
    reflexivity.
Qed.

(** The literal reading of C9 fails when the session was created with the
    empty string as its id: the run scores the text in that session and
    returns a result, but the guard [if (sessionId)] of the [finally] block
    skips the teardown, so [deleteSession] is never called. *)
Lemma empty_session_id_is_never_closed :
  (exists r,
      fst (runGrammarlyOptimization emptyIdEnv (scenarioInput score_only) scenarioWorld)
      = Normal r)
  /\ In CallCreateSession
       (calls (snd (runGrammarlyOptimization emptyIdEnv (scenarioInput score_only)
                      scenarioWorld)))
  /\ In (CallScoreTask EmptyString "Test text")
       (calls (snd (runGrammarlyOptimization emptyIdEnv (scenarioInput score_only)
                      scenarioWorld)))
  /\ ~ (exists sid,
          In (CallDeleteSession sid)
            (calls (snd (runGrammarlyOptimization emptyIdEnv (scenarioInput score_only)
                           scenarioWorld)))).
Proof.
  split; [eexists; vm_compute; reflexivity | ].
  split; [vm_compute; auto 10 | ].
  split; [vm_compute; auto 10 | ].
  intros [sid Hin]. vm_compute in Hin.
  repeat (destruct Hin as [Hin | Hin]; [discriminate Hin | ]). exact Hin.
Qed.

(** The main flow throws, the teardown throws too, and the session is
    closed all the same, as the last call of the run. *)
Lemma teardown_never_masks_outcome_witness :
  calls (snd (runGrammarlyOptimization scriptedEnv (scenarioInput optimize)
                {| scriptedScores := [] |}))
  = calls (snd (mainFlow scriptedEnv (scenarioInput optimize) {| scriptedScores := [] |}))
      ++ [CallDeleteSession "bu-session-12345"].
Proof.
  apply (proj1 (proj2 (proj2 (teardown_never_masks_outcome Scripted scriptedEnv
                                (scenarioInput optimize) {| scriptedScores := [] |})))
           (snd (progress scriptedEnv "Creating Browser Use session..." 5
                   (initialState {| scriptedScores := [] |})))
           "bu-session-12345"%string {| scriptedScores := [] |}).
  - vm_compute. reflexivity.
  - reflexivity.
  - reflexivity.
Defined.

(** ** End-to-end scenarios on the scripted collaborators *)

Example scenario_score_only :
  let r := fst (runGrammarlyOptimization scriptedEnv (scenarioInput score_only) scenarioWorld) in
  exists res, r = Normal res
    /\ Result.thresholds_met res = false
    /\ Result.iterations_used res = 0
    /\ List.length (Result.history res) = 1%nat.
Proof. vm_compute. eexists. split; [reflexivity | auto]. Qed.

Example scenario_teardown_rejects :
  calls (snd (runGrammarlyOptimization scriptedEnv (scenarioInput score_only) scenarioWorld))
  = [ CallProgress "Creating Browser Use session..." 5;
      CallCreateSession;
      CallProgress "Running initial Grammarly scoring..." 10;
      CallScoreTask "bu-session-12345" "Test text";
      CallProgress "Scoring complete" 100;
      CallDeleteSession "bu-session-12345" ].
Proof. vm_compute. reflexivity. Qed.

Example scenario_teardown_after_error :
  fst (runGrammarlyOptimization scriptedEnv (scenarioInput optimize)
         {| scriptedScores := [] |})
  = Throw (Js.ErrorObj "Browser Use task did not return structured scores")
  /\ last (calls (snd (runGrammarlyOptimization scriptedEnv (scenarioInput optimize)
                         {| scriptedScores := [] |}))) CallCreateSession
     = CallDeleteSession "bu-session-12345".
Proof. vm_compute. split; reflexivity. Qed.

Lemma optimize_stops_when_thresholds_met_witness :
  exists r st',
    runGrammarlyOptimization scriptedEnv (scenarioInput optimize) scenarioWorld
    = (Normal r, st')
    /\ Result.iterations_used r = 1
    /\ Result.thresholds_met r = true
    /\ Z.of_nat (List.length (Result.history r)) = 2.
Proof.
  destruct (runGrammarlyOptimization scriptedEnv (scenarioInput optimize) scenarioWorld)
    as [c st'] eqn:Hrun.
  assert (Hc : c = fst (runGrammarlyOptimization scriptedEnv (scenarioInput optimize)
                          scenarioWorld)) by (rewrite Hrun; reflexivity).
  vm_compute in Hc. subst c.
  eexists. exists st'. split; [reflexivity | ].
  destruct (optimize_stops_when_thresholds_met Scripted scriptedEnv
              (scenarioInput optimize) scenarioWorld _ st' 1
              (historyEntry 1 (Scores.mk (Some 8%Q) (Some 2%Q) "after rewrite")
                 "Varied sentence structure")
              eq_refl Hrun) as (_ & _ & Hused & Hmet & Hlen & _).
  - lia.
  - reflexivity.
  - reflexivity.
  - exact (conj Hused (conj Hmet Hlen)).
Defined.

Lemma final_text_unchanged_without_optimize_witness :
  (forall r,
      fst (runGrammarlyOptimization scriptedEnv (scenarioInput analyze) scenarioWorld)
      = Normal r ->
      Result.final_text r = "Test text"%string)
  /\ countCalls isRewrite
       (calls (snd (runGrammarlyOptimization scriptedEnv (scenarioInput analyze)
                      scenarioWorld))) = 0%nat.
Proof.
  apply (final_text_unchanged_without_optimize Scripted scriptedEnv
           (scenarioInput analyze) scenarioWorld).
  right. reflexivity.
Defined.

End OptimizerFacts.

(* ------------------------------------------------------------------ *)
(** * Login state machine: properties *)

Module LoginFacts.
Import Login.

(** ** Calls made by the login flow *)

Section CallLog.
Context {World : Type}.
Variable stagehand : Stagehand World.
Variable P : Call -> Prop.

Lemma keepsLog_ret {A} (a : A) : @keepsLog World P A (ret a).
Proof. intros st H. exact H. Qed.

Lemma keepsLog_gets {A} (f : State World -> A) : keepsLog P (gets f).
Proof. intros st H. exact H. Qed.

Lemma keepsLog_bind {A B} (m : M (State World) A) (k : A -> M (State World) B) :
  keepsLog P m -> (forall a, keepsLog P (k a)) -> keepsLog P (bind m k).
Proof.
  intros Hm Hk st H. unfold bind. specialize (Hm st H).
  destruct (m st) as [[a | e] st1]; simpl in *.
  - apply Hk. exact Hm.
  - exact Hm.
Qed.

Lemma keepsLog_tryCatch {A} (body : M (State World) A) (handler : Js.Thrown -> M (State World) A) :
  keepsLog P body -> (forall e, keepsLog P (handler e)) ->
  keepsLog P (tryCatch body handler).
Proof.
  intros Hb Hh st H. unfold tryCatch. specialize (Hb st H).
  destruct (body st) as [[a | e] st1]; simpl in *.
  - exact Hb.
  - apply Hh. exact Hb.
Qed.

Lemma keepsLog_readPage : keepsLog P (readPage stagehand).
Proof. intros st H. exact H. Qed.

Lemma keepsLog_call {A} (c : Call) (f : World -> Completion A * World) :
  P c -> keepsLog P (call c f).
Proof.
  intros Hc st H. unfold call. destruct (f (world st)) as [r w']; simpl.
  apply Forall_app. split; [exact H | constructor; [exact Hc | constructor]].
Qed.

End CallLog.

Ltac keeps_step :=
  lazymatch goal with
  | |- keepsLog _ (bind _ _) => apply keepsLog_bind; [ | intros ? ]
  | |- keepsLog _ (ret _) => apply keepsLog_ret
  | |- keepsLog _ (gets _) => apply keepsLog_gets
  | |- keepsLog _ (readPage _) => apply keepsLog_readPage
  | |- keepsLog _ (tryCatch _ _) => apply keepsLog_tryCatch; [ | intros ? ]
  | |- keepsLog _ (call _ _) => apply keepsLog_call
  | |- keepsLog _ (doObserve _ _) => apply keepsLog_call
  | |- keepsLog _ (doAct _ _) => apply keepsLog_call
  | |- keepsLog _ (doSleep _ _) => apply keepsLog_call
  | |- keepsLog _ (doFill _ _ _) => apply keepsLog_call
  | |- keepsLog _ (if ?b then _ else _) => destruct b
  | |- keepsLog _ (match ?x with _ :: _ => _ | [] => _ end) => destruct x
  | |- keepsLog _ (match ?x with Some _ => _ | None => _ end) => destruct x
  end.

Section Allowed.
Context {World : Type}.
Variable stagehand : Stagehand World.
Variable credentials : GrammarlyCredentials.








End Allowed.

(** ** The password never enters an instruction *)


Example test_password_not_in_instructions :
  forall literal, In literal actInstructions ->
                  Js.includes literal (password testCredentials) = false.
Proof.
  intros literal [<- | [<- | [<- | []]]]; vm_compute; reflexivity.
Qed.



(** ** Retry policy *)

Section Retry.
Context {World : Type}.
Variable stagehand : Stagehand World.
Variable credentials : GrammarlyCredentials.
Variable maxRetries : Z.

Lemma loginLoop_returns (remaining : nat) (attempt : Z) (st st' : State World)
    (r : LoginAttemptResult.t) :
  loginAttempt stagehand credentials attempt maxRetries st = (Normal (Some r), st') ->
  loginLoop stagehand credentials maxRetries (S remaining) attempt st = (Normal r, st').
Proof.
  intros H. cbn [loginLoop]. unfold bind. rewrite H. reflexivity.
Qed.

Lemma loginLoop_continues (remaining : nat) (attempt : Z) (st st' : State World) :
  loginAttempt stagehand credentials attempt maxRetries st = (Normal None, st') ->
  loginLoop stagehand credentials maxRetries (S remaining) attempt st
  = loginLoop stagehand credentials maxRetries remaining (attempt + 1) st'.
Proof.
  intros H. cbn [loginLoop]. unfold bind. rewrite H. reflexivity.
Qed.

Lemma loginLoop_after_retried (k : nat) (st0 st : State World) :
  retried stagehand credentials maxRetries k st0 st ->
  forall remaining,
    loginLoop stagehand credentials maxRetries (k + remaining) 0 st0
    = loginLoop stagehand credentials maxRetries remaining (Z.of_nat k) st.
Proof.
  induction 1 as [st | k st st' st'' _ IH Hattempt]; intros remaining.
  - reflexivity.
  - replace (S k + remaining)%nat with (k + S remaining)%nat by lia.
    rewrite IH, (loginLoop_continues _ _ _ _ Hattempt).
    f_equal. lia.
Qed.

(** An attempt that does not return either fell through the [try] block
    or, not being the last one, threw and slept. *)
Lemma loginAttempt_not_returning (attempt : Z) (st st' : State World) :
  loginAttempt stagehand credentials attempt maxRetries st = (Normal None, st') ->
  attemptSteps stagehand credentials attempt maxRetries st = (Normal None, st')
  \/ exists e st1,
       attemptSteps stagehand credentials attempt maxRetries st = (Throw e, st1)
       /\ attempt < maxRetries
       /\ st' = snd (doSleep stagehand (retryDelay attempt) st1).
Proof.
  unfold loginAttempt, tryCatch.
  destruct (attemptSteps stagehand credentials attempt maxRetries st) as [[exit | e] st1].
  - intros [= -> ->]. left. reflexivity.
  - destruct (attempt >=? maxRetries) eqn:Hlast.
    + discriminate.
    + unfold bind, doSleep, call, ret. cbn. intros [= <-].
      right. exists e, st1. split; [reflexivity | split; [lia | reflexivity]].
Qed.

(** The classifier never re-checks authentication. *)
Lemma detectLoginFailure_no_auth_check (st : State World) :
  countCalls isCheckAuthStatus (calls (snd (detectLoginFailure stagehand st)))
  = countCalls isCheckAuthStatus (calls st).
Proof.
  unfold detectLoginFailure, bind, readPage, tryCatch, doObserve, call, ret.
  destruct (pages stagehand (world st)) as [[|] | e]; cbn [negb snd]; try reflexivity.
  destruct (observe stagehand observeErrors (world st)) as [[found | e] w'].
  - destruct (List.length found =? 0)%nat;
      cbn [snd calls]; unfold countCalls; rewrite filter_app, length_app;
      cbn [filter isCheckAuthStatus List.length]; lia.
  - cbn [snd calls]; unfold countCalls; rewrite filter_app, length_app;
      cbn [filter isCheckAuthStatus List.length]; lia.
Qed.

Lemma loginAttempt_classified (attempt : Z) (st st1 st2 st3 : State World)
    (status : AuthStatus) (failure : PartialResult.t) :
  submitLoginForm stagehand credentials st = (Normal None, st1) ->
  call CallCheckAuthStatus (checkGrammarlyAuthStatus stagehand) st1 = (Normal status, st2) ->
  loggedIn status = false ->
  detectLoginFailure stagehand st2 = (Normal failure, st3) ->
  classified failure = true ->
  loginAttempt stagehand credentials attempt maxRetries st
  = (Normal (Some (failed failure)), st3).
Proof.
  intros Hsubmit Hcheck Hout Hdetect Hclass.
  unfold loginAttempt, tryCatch, attemptSteps, verifyLogin, bind.
  rewrite Hsubmit, Hcheck, Hout, Hdetect, Hclass. reflexivity.
Qed.

End Retry.

Lemma attemptGrammarlyLogin_enters_loop {World : Type} (stagehand : Stagehand World)
    (credentials : GrammarlyCredentials) (options : option AutoLoginOptions) (w : World) :
  hasPage stagehand w = true ->
  attemptGrammarlyLogin stagehand credentials options w
  = loginLoop stagehand credentials (maxRetriesOf options)
      (Z.to_nat (maxRetriesOf options + 1)) 0 (initialState w).
Proof.
  unfold hasPage, attemptGrammarlyLogin, bind, readPage. cbn [world initialState].
  destruct (pages stagehand w) as [[|] | e]; [reflexivity | discriminate ..].
Qed.

(** C4.  Whatever the retry budget, once an attempt has submitted the form,
    the auth check has answered "not logged in" and the classifier reports
    invalid credentials, a CAPTCHA or a rate limit, [attemptGrammarlyLogin]
    returns at once: the result is [success = false] with the classifier's
    flags, and the final state is the one the classifier left, so no
    further attempt and no further auth check is made. *)
Theorem classified_failure_is_terminal :
  forall (World : Type) (stagehand : Stagehand World)
         (credentials : GrammarlyCredentials) (options : option AutoLoginOptions)
         (w : World) (k : nat) (st st1 st2 st3 : State World)
         (status : AuthStatus) (failure : PartialResult.t),
    hasPage stagehand w = true ->
    Z.of_nat k <= maxRetriesOf options ->
    retried stagehand credentials (maxRetriesOf options) k (initialState w) st ->
    submitLoginForm stagehand credentials st = (Normal None, st1) ->
    call CallCheckAuthStatus (checkGrammarlyAuthStatus stagehand) st1 = (Normal status, st2) ->
    loggedIn status = false ->
    detectLoginFailure stagehand st2 = (Normal failure, st3) ->
    classified failure = true ->
    attemptGrammarlyLogin stagehand credentials options w = (Normal (failed failure), st3)
    /\ LoginAttemptResult.success (failed failure) = false
    /\ LoginAttemptResult.invalidCredentials (failed failure)
       = PartialResult.invalidCredentials failure
    /\ LoginAttemptResult.captchaDetected (failed failure)
       = PartialResult.captchaDetected failure
    /\ LoginAttemptResult.rateLimited (failed failure)
       = PartialResult.rateLimited failure
    /\ countCalls isCheckAuthStatus (calls st3)
       = S (countCalls isCheckAuthStatus (calls st1)).
Proof.
  intros World stagehand credentials options w k st st1 st2 st3 status failure
         Hpage Hk Hretried Hsubmit Hcheck Hout Hdetect Hclass.
  split.
  - rewrite (attemptGrammarlyLogin_enters_loop _ _ _ _ Hpage).
    replace (Z.to_nat (maxRetriesOf options + 1))
      with (k + S (Z.to_nat (maxRetriesOf options) - k))%nat by lia.
    rewrite (loginLoop_after_retried _ _ _ _ _ _ Hretried).
    apply loginLoop_returns.
    eapply loginAttempt_classified; eassumption.
  - repeat split.
    pose proof (detectLoginFailure_no_auth_check stagehand st2) as Hcount.
    rewrite Hdetect in Hcount. cbn [snd] in Hcount. rewrite Hcount.
    revert Hcheck. unfold call.
    destruct (checkGrammarlyAuthStatus stagehand (world st1)) as [r w'].
    intros [= _ <-]. cbn. unfold countCalls. rewrite filter_app, length_app. cbn. lia.
Qed.

(** C8 (as amended).  When every attempt [0 .. maxRetries] has run without
    returning, [attemptGrammarlyLogin] returns the generic failure; when
    instead the last attempt throws, it returns the thrown error's message. *)
Theorem exhausted_retries_give_generic_failure :
  forall (World : Type) (stagehand : Stagehand World)
         (credentials : GrammarlyCredentials) (options : option AutoLoginOptions)
         (w : World),
    hasPage stagehand w = true ->
    (forall st,
        retried stagehand credentials (maxRetriesOf options)
          (Z.to_nat (maxRetriesOf options + 1)) (initialState w) st ->
        attemptGrammarlyLogin stagehand credentials options w
        = (Normal (failedWith "Login failed after all retry attempts"), st))
    /\
    (forall k st e st1,
        Z.of_nat k = maxRetriesOf options ->
        retried stagehand credentials (maxRetriesOf options) k (initialState w) st ->
        attemptSteps stagehand credentials (Z.of_nat k) (maxRetriesOf options) st
        = (Throw e, st1) ->
        attemptGrammarlyLogin stagehand credentials options w
        = (Normal (failedWith (Js.messageOr "Unknown error" e)), st1)).
Proof.
  intros World stagehand credentials options w Hpage.
  rewrite (attemptGrammarlyLogin_enters_loop _ _ _ _ Hpage).
  split.
  - intros st Hretried.
    pose proof (loginLoop_after_retried _ _ _ _ _ _ Hretried 0%nat) as H.
    rewrite Nat.add_0_r in H. rewrite H. reflexivity.
  - intros k st e st1 Hk Hretried Hthrow.
    replace (Z.to_nat (maxRetriesOf options + 1)) with (k + 1)%nat by lia.
    rewrite (loginLoop_after_retried _ _ _ _ _ _ Hretried).
    apply loginLoop_returns.
    unfold loginAttempt, tryCatch. rewrite Hthrow.
    replace (Z.of_nat k >=? maxRetriesOf options) with true by (symmetry; lia).
    reflexivity.
Qed.

(** ** Scenarios of the unit tests on the scripted page *)

Example scenario_login_succeeds :
  fst (attemptGrammarlyLogin scriptedStagehand testCredentials None happyWorld)
  = Normal succeeded.
Proof. vm_compute. reflexivity. Qed.

Example scenario_retry_then_success :
  fst (attemptGrammarlyLogin scriptedStagehand testCredentials (retries 1) transientWorld)
  = Normal succeeded
  /\ countCalls isCheckAuthStatus
       (calls (snd (attemptGrammarlyLogin scriptedStagehand testCredentials (retries 1)
                      transientWorld))) = 2%nat
  /\ In (CallSleep 2000)
       (calls (snd (attemptGrammarlyLogin scriptedStagehand testCredentials (retries 1)
                      transientWorld))).
Proof. vm_compute. repeat split; auto 40. Qed.

Example scenario_password_fill_is_direct :
  List.filter (fun c => match c with
                        | CallFill _ _ => true
                        | CallAct (ActInstruction _) => true
                        | _ => false
                        end)
    (calls (snd (attemptGrammarlyLogin scriptedStagehand testCredentials None happyWorld)))
  = [ CallFill (inputSelector "type" "=" "email") "test@example.com";
      CallAct (ActInstruction actContinue);
      CallFill passwordSelector "testPassword123";
      CallAct (ActInstruction actSubmit) ].
Proof. vm_compute. reflexivity. Qed.

Lemma classified_failure_is_terminal_witness :
  fst (attemptGrammarlyLogin scriptedStagehand testCredentials (retries 2) wrongPasswordWorld)
  = Normal (LoginAttemptResult.mk false (Some "Invalid credentials"%string)
              (Some true) None None)
  /\ countCalls isCheckAuthStatus
       (calls (snd (attemptGrammarlyLogin scriptedStagehand testCredentials (retries 2)
                      wrongPasswordWorld))) = 1%nat.
Proof.
  pose (st := initialState wrongPasswordWorld).
  pose (st1 := snd (submitLoginForm scriptedStagehand testCredentials st)).
  pose (st2 := snd (call CallCheckAuthStatus
                      (checkGrammarlyAuthStatus scriptedStagehand) st1)).
  pose (st3 := snd (detectLoginFailure scriptedStagehand st2)).
  destruct (classified_failure_is_terminal Scripted scriptedStagehand testCredentials
              (retries 2) wrongPasswordWorld 0 st st1 st2 st3
              {| loggedIn := false; currentUrl := signinUrl |}
              (PartialResult.mk (Some "Invalid credentials"%string) (Some true) None None))
    as (Hrun & _ & _ & _ & _ & Hcount).
  - reflexivity.
  - vm_compute. discriminate.
  - constructor.
  - vm_compute. reflexivity.
  - vm_compute. reflexivity.
  - reflexivity.
  - vm_compute. reflexivity.
  - reflexivity.
  - rewrite Hrun. split; [reflexivity | ].
    cbn [snd]. rewrite Hcount. vm_compute. reflexivity.
Defined.

Lemma exhausted_retries_give_generic_failure_witness :
  fst (attemptGrammarlyLogin scriptedStagehand testCredentials (retries 1) silentWorld)
  = Normal (failedWith "Login failed after all retry attempts").
Proof.
  pose (st1 := snd (loginAttempt scriptedStagehand testCredentials 0 1
                      (initialState silentWorld))).
  pose (st2 := snd (loginAttempt scriptedStagehand testCredentials 1 1 st1)).
  destruct (exhausted_retries_give_generic_failure Scripted scriptedStagehand
              testCredentials (retries 1) silentWorld eq_refl) as [Hgeneric _].
  rewrite (Hgeneric st2); [reflexivity | ].
  change (retried scriptedStagehand testCredentials 1 2 (initialState silentWorld) st2).
  apply retried_more with (st' := st1);
    [apply retried_more with (st' := initialState silentWorld); [apply retried_none | ] | ];
    vm_compute; reflexivity.
Defined.

(** The literal reading of C8 fails when the last attempt throws: with no
    retry left after a refused navigation, the single attempt neither
    succeeds nor is classified, and the result carries the thrown error's
    message instead of the generic one. *)
Lemma last_attempt_exception_is_reported :
  fst (attemptGrammarlyLogin scriptedStagehand testCredentials (retries 0) offlineWorld)
  = Normal (failedWith "net::ERR_CONNECTION_REFUSED")
  /\ fst (attemptGrammarlyLogin scriptedStagehand testCredentials (retries 0) offlineWorld)
     <> Normal (failedWith "Login failed after all retry attempts")
  /\ calls (snd (attemptGrammarlyLogin scriptedStagehand testCredentials (retries 0)
                   offlineWorld))
     = [CallGoto signinUrl].
Proof.
  split; [vm_compute; reflexivity | ].
  split; [vm_compute; discriminate | vm_compute; reflexivity].
Qed.

End LoginFacts.

(* ------------------------------------------------------------------ *)
(** * Scoring task runner: properties *)

Module TaskFacts.
Import Task.

(** ** Truncation *)

Lemma slice0_short (n : nat) :
  forall s, (String.length s <= n)%nat -> Js.slice0 n s = s.
Proof.
  unfold Js.slice0.
  induction n as [| n IH]; intros [| c s] H; cbn in *; try reflexivity; try lia.
  f_equal. apply IH. lia.
Qed.

Lemma slice0_long (n : nat) :
  forall s, (n <= String.length s)%nat ->
            String.length (Js.slice0 n s) = n
            /\ exists rest, s = (Js.slice0 n s ++ rest)%string.
Proof.
  unfold Js.slice0.
  induction n as [| n IH]; intros [| c s] H; cbn in *; try lia.
  - split; [reflexivity | exists EmptyString; reflexivity].
  - split; [reflexivity | exists (String c s); reflexivity].
  - destruct (IH s) as [Hlen [rest Hrest]]; [lia | ].
    split; [lia | exists rest; cbn; f_equal; exact Hrest].
Qed.

(** ** How the call log grows *)

Section Growth.
Context {World : Type}.
Variable P : Call -> Prop.

Lemma addsOnly_ret {A} (a : A) : @addsOnly World P A (ret a).
Proof. intros st. exists []. cbn. rewrite app_nil_r. auto. Qed.

Lemma addsOnly_throw {A} (e : Js.Thrown) : @addsOnly World P A (throw e).
Proof. intros st. exists []. cbn. rewrite app_nil_r. auto. Qed.

Lemma addsOnly_gets {A} (f : State World -> A) : addsOnly P (gets f).
Proof. intros st. exists []. cbn. rewrite app_nil_r. auto. Qed.

Lemma addsOnly_bind {A B} (m : M (State World) A) (k : A -> M (State World) B) :
  addsOnly P m -> (forall a, addsOnly P (k a)) -> addsOnly P (bind m k).
Proof.
  intros Hm Hk st. unfold bind. destruct (Hm st) as (l1 & E1 & F1).
  destruct (m st) as [[a | e] st1]; cbn [snd] in *.
  - destruct (Hk a st1) as (l2 & E2 & F2). exists (l1 ++ l2).
    rewrite E2, E1, app_assoc. split; [reflexivity | apply Forall_app; auto].
  - exists l1. auto.
Qed.

Lemma addsOnly_tryCatch {A} (body : M (State World) A)
    (handler : Js.Thrown -> M (State World) A) :
  addsOnly P body -> (forall e, addsOnly P (handler e)) ->
  addsOnly P (tryCatch body handler).
Proof.
  intros Hb Hh st. unfold tryCatch. destruct (Hb st) as (l1 & E1 & F1).
  destruct (body st) as [[a | e] st1]; cbn [snd] in *.
  - exists l1. auto.
  - destruct (Hh e st1) as (l2 & E2 & F2). exists (l1 ++ l2).
    rewrite E2, E1, app_assoc. split; [reflexivity | apply Forall_app; auto].
Qed.

Lemma addsOnly_call {A} (c : Call) (f : World -> Completion A * World) :
  P c -> addsOnly P (call c f).
Proof.
  intros Hc st. unfold call. destruct (f (world st)) as [r w']. cbn.
  exists [c]. auto.
Qed.

Lemma addsOnly_run {A} (m : M (State World) A) (st st' : State World) (c : Completion A) :
  addsOnly P m -> m st = (c, st') ->
  exists l, calls st' = calls st ++ l /\ Forall P l.
Proof.
  intros Hm E. destruct (Hm st) as (l & El & Fl). rewrite E in El. eauto.
Qed.

End Growth.

Ltac adds_step :=
  lazymatch goal with
  | |- addsOnly _ (bind _ _) => apply addsOnly_bind; [ | intros ? ]
  | |- addsOnly _ (ret _) => apply addsOnly_ret
  | |- addsOnly _ (throw _) => apply addsOnly_throw
  | |- addsOnly _ (gets _) => apply addsOnly_gets
  | |- addsOnly _ (tryCatch _ _) => apply addsOnly_tryCatch; [ | intros ? ]
  | |- addsOnly _ (call _ _) => apply addsOnly_call; split; reflexivity
  | |- addsOnly _ (if ?b then _ else _) => destruct b
  | |- addsOnly _ (match ?x with _ => _ end) => destruct x
  end.

Section Setup.
Context {World : Type}.
Variable env : Collaborators World.
Variable wording : Wording.

Lemma navigate_setup : addsOnly isSetup (navigate env).
Proof. unfold navigate. repeat adds_step. Qed.

Lemma ensureAuthenticated_setup (options : option TaskOptions) :
  addsOnly isSetup (ensureAuthenticated env wording options).
Proof. unfold ensureAuthenticated. repeat adds_step. Qed.

Lemma observeThenAct_setup (query fallback : string) :
  addsOnly isSetup (observeThenAct env query fallback).
Proof. unfold observeThenAct. repeat adds_step. Qed.

Lemma count_setup (p : Call -> bool) (l : list Call) :
  Forall (fun c => p c = false) l -> countCalls p l = 0%nat.
Proof.
  unfold countCalls. induction 1 as [| c l Hc _ IH]; cbn; [reflexivity | ].
  rewrite Hc. exact IH.
Qed.

Lemma count_app (p : Call -> bool) (l l' : list Call) :
  countCalls p (l ++ l') = (countCalls p l + countCalls p l')%nat.
Proof. unfold countCalls. rewrite filter_app, length_app. reflexivity. Qed.

Lemma prepared_setup (text : string) (l : list Call) :
  Forall isSetup l -> prepared text false l.
Proof.
  intros H. unfold prepared. rewrite Forall_forall in H.
  split; [ | split].
  - rewrite Forall_forall. intros c Hc. apply (H c Hc).
  - intros selector value Hin. destruct (H _ Hin) as [_ Hfill]. discriminate Hfill.
  - discriminate.
Qed.

Lemma prepared_fill (text : string) (l : list Call) :
  Forall isSetup l ->
  prepared text true (l ++ [CallFill editorSelector (truncateText text)]).
Proof.
  intros H. pose proof (prepared_setup text l H) as (Hex & Hfill & _).
  unfold prepared. split; [ | split].
  - apply Forall_app. split; [exact Hex | constructor; [reflexivity | constructor]].
  - intros selector value Hin. apply in_app_or in Hin. destruct Hin as [Hin | [Heq | []]].
    + apply Hfill, Hin.
    + injection Heq as <- <-. split; reflexivity.
  - intros _. rewrite count_app, (count_setup isFill l).
    + reflexivity.
    + rewrite Forall_forall in H |- *. intros c Hc. apply (H c Hc).
Qed.

Lemma prepared_more_setup (text : string) (done : bool) (l l' : list Call) :
  prepared text done l -> Forall isSetup l' -> prepared text done (l ++ l').
Proof.
  intros (Hex & Hfill & Hcount) H'.
  pose proof (prepared_setup text l' H') as (Hex' & Hfill' & _).
  unfold prepared. split; [ | split].
  - apply Forall_app. split; assumption.
  - intros selector value Hin. apply in_app_or in Hin. destruct Hin as [Hin | Hin].
    + apply Hfill, Hin.
    + apply Hfill', Hin.
  - intros Hdone. rewrite count_app, (Hcount Hdone), (count_setup isFill l').
    + reflexivity.
    + rewrite Forall_forall in H' |- *. intros c Hc. apply (H' c Hc).
Qed.

Lemma prepared_unfinished (text : string) (l : list Call) :
  prepared text true l -> prepared text false l.
Proof.
  intros (Hex & Hfill & _). unfold prepared. repeat split; try assumption.
  - apply Hfill in H. apply H.
  - apply Hfill in H. apply H.
  - discriminate.
Qed.

Lemma prepareDocument_prepared (text : string) (options : option TaskOptions)
    (st st' : State World) (c : Completion unit) :
  prepareDocument env wording text options st = (c, st') ->
  exists l, calls st' = calls st ++ l /\ prepared text (completed c) l.
Proof.
  unfold prepareDocument, bind, gets, throw.
  destruct (hasPage env (world st)); cbn [negb].
  2: { intros [= <- <-]. exists []. rewrite app_nil_r.
       split; [reflexivity | apply prepared_setup; constructor]. }
  destruct (navigate env st) as [[[] | e] s1] eqn:E1;
    destruct (addsOnly_run _ _ _ _ _ navigate_setup E1) as (l1 & C1 & F1).
  2: { intros [= <- <-]. exists l1. split; [exact C1 | apply prepared_setup, F1]. }
  destruct (ensureAuthenticated env wording options s1) as [[[] | e] s2] eqn:E2;
    destruct (addsOnly_run _ _ _ _ _ (ensureAuthenticated_setup options) E2)
      as (l2 & C2 & F2).
  2: { intros [= <- <-]. exists (l1 ++ l2). rewrite C2, C1.
       split; [rewrite <- ?app_assoc; reflexivity
              | apply prepared_setup, Forall_app; auto]. }
  destruct (observeThenAct env (newDocumentQuery wording) (newDocumentFallback wording) s2)
    as [[[] | e] s3] eqn:E3;
    destruct (addsOnly_run _ _ _ _ _ (observeThenAct_setup _ _) E3) as (l3 & C3 & F3).
  2: { intros [= <- <-]. exists ((l1 ++ l2) ++ l3). rewrite C3, C2, C1.
       split; [rewrite <- ?app_assoc; reflexivity
              | apply prepared_setup; repeat (apply Forall_app; split); auto]. }
  assert (F123 : Forall isSetup ((l1 ++ l2) ++ l3))
    by (repeat (apply Forall_app; split); auto).
  assert (C123 : calls s3 = calls st ++ ((l1 ++ l2) ++ l3))
    by (rewrite C3, C2, C1; rewrite <- ?app_assoc; reflexivity).
  unfold call at 1.
  destruct (locatorFill env editorSelector (truncateText text) (world s3)) as [[[] | e] w4].
  2: { intros [= <- <-]. cbn [calls].
       exists (((l1 ++ l2) ++ l3) ++ [CallFill editorSelector (truncateText text)]).
       rewrite C123.
       split; [rewrite <- ?app_assoc; reflexivity
              | apply prepared_unfinished, prepared_fill, F123]. }
  match goal with
  | |- observeThenAct _ _ _ ?s4 = _ -> _ =>
      destruct (observeThenAct env (detectionQuery wording) (detectionFallback wording) s4)
        as [c5 s5] eqn:E5;
      destruct (addsOnly_run _ _ _ _ _ (observeThenAct_setup _ _) E5) as (l5 & C5 & F5)
  end.
  cbn [calls] in C5. intros [= <- <-].
  exists ((((l1 ++ l2) ++ l3) ++ [CallFill editorSelector (truncateText text)]) ++ l5).
  rewrite C5, C123. split; [rewrite <- ?app_assoc; reflexivity | ].
  apply prepared_more_setup; [ | exact F5].
  destruct c5; [ | apply prepared_unfinished]; apply prepared_fill, F123.
Qed.

Lemma extractScores_trace (st : State World) :
  exists after,
    calls (snd (extractScores env wording st)) = calls st ++ after
    /\ Extracted wording (fst (extractScores env wording st)) after.
Proof.
  unfold extractScores, tryCatch, bind, callExtract, throw, ret.
  destruct (extract env Primary (extractInstruction wording Primary) (world st))
    as [[r | e1] w1]; cbn [world calls fst snd].
  - eexists. split; [reflexivity | constructor].
  - destruct (extract env Fallback (extractInstruction wording Fallback) w1)
      as [[r2 | e2] w2]; cbn [world calls fst snd].
    + eexists. split; [rewrite <- app_assoc; reflexivity | constructor].
    + eexists. split; [rewrite <- app_assoc; reflexivity | constructor].
Qed.

(** A run either stops while preparing the document or reaches the
    extraction step after a completed preparation. *)
Lemma runStagehandGrammarlyTask_trace (text : string) (options : option TaskOptions)
    (w : World) :
  (exists e,
      fst (runStagehandGrammarlyTask env wording text options w) = Throw e
      /\ prepared text false
           (calls (snd (runStagehandGrammarlyTask env wording text options w))))
  \/ (exists before after,
        calls (snd (runStagehandGrammarlyTask env wording text options w)) = before ++ after
        /\ prepared text true before
        /\ Extracted wording
             (fst (runStagehandGrammarlyTask env wording text options w)) after).
Proof.
  unfold runStagehandGrammarlyTask, bind.
  destruct (prepareDocument env wording text options (initialState w)) as [[[] | e] st1] eqn:E;
    destruct (prepareDocument_prepared _ _ _ _ _ E) as (l & C & Hl); cbn in C.
  - right. destruct (extractScores_trace st1) as (after & Ca & Ha).
    exists l, after. rewrite Ca, C. auto.
  - left. exists e. cbn [fst snd]. rewrite C. auto.
Qed.

Lemma Extracted_only_extractions (c : Completion ExtractedScores.t) (after : list Call) :
  Extracted wording c after ->
  Forall (fun call => isExtract call = true /\ isFill call = false) after.
Proof. destruct 1; repeat constructor. Qed.

End Setup.

(** ** Extraction with one fallback *)




Example scenario_fallback_extraction :
  fst (runStagehandGrammarlyTask scriptedEnv scriptedWording "Test" None fallbackWorld)
  = Normal (ExtractedScores.mk (Some 10%Q) (Some 2%Q) None
              "Fallback extraction (partial extraction)")
  /\ countCalls isExtract
       (calls (snd (runStagehandGrammarlyTask scriptedEnv scriptedWording "Test" None
                      fallbackWorld))) = 2%nat.
Proof. vm_compute. split; reflexivity. Qed.

Example scenario_both_extractions_fail :
  fst (runStagehandGrammarlyTask scriptedEnv scriptedWording "Test" None brokenWorld)
  = Throw (Js.ErrorObj "Primary extraction failed").
Proof. vm_compute. reflexivity. Qed.

(** ** Injected text *)

Example truncate_short_text :
  truncateText "Short test text" = "Short test text"%string.
Proof. vm_compute. reflexivity. Qed.

(** C6.  Every fill of a run goes to the content-editable editor and
    carries [truncateText text]; a run that returns scores made exactly one
    such fill.  [truncateText text] is [text] itself when [text] has at most
    8000 characters, and otherwise its first 8000 characters. *)
Theorem injected_text_is_truncated_input :
  forall (World : Type) (env : Collaborators World) (wording : Wording)
         (text : string) (options : option TaskOptions) (w : World),
    (forall selector value,
        In (CallFill selector value)
           (calls (snd (runStagehandGrammarlyTask env wording text options w))) ->
        selector = editorSelector /\ value = truncateText text)
    /\ (forall scores,
          fst (runStagehandGrammarlyTask env wording text options w) = Normal scores ->
          countCalls isFill
            (calls (snd (runStagehandGrammarlyTask env wording text options w))) = 1%nat)
    /\ ((String.length text <= MAX_TEXT_LENGTH)%nat -> truncateText text = text)
    /\ ((MAX_TEXT_LENGTH < String.length text)%nat ->
        String.length (truncateText text) = MAX_TEXT_LENGTH
        /\ exists rest, text = (truncateText text ++ rest)%string).
Proof.
  intros World env wording text options w.
  split; [ | split; [ | split]].
  - intros selector value Hin.
    destruct (runStagehandGrammarlyTask_trace env wording text options w)
      as [(e & _ & _ & Hfill & _) | (before & after & Hlog & (_ & Hfill & _) & Hafter)].
    + apply Hfill, Hin.
    + rewrite Hlog in Hin. apply in_app_or in Hin. destruct Hin as [Hin | Hin].
      * apply Hfill, Hin.
      * apply Extracted_only_extractions in Hafter. rewrite Forall_forall in Hafter.
        destruct (Hafter _ Hin) as [_ Hno]. discriminate Hno.
  - intros scores Hret.
    destruct (runStagehandGrammarlyTask_trace env wording text options w)
      as [(e & He & _) | (before & after & Hlog & (_ & _ & Hcount) & Hafter)].
    + rewrite Hret in He. discriminate He.
    + rewrite Hlog, count_app, (Hcount eq_refl), (count_setup isFill after).
      * reflexivity.
      * apply Extracted_only_extractions in Hafter.
        rewrite Forall_forall in Hafter |- *. intros c Hc. apply (Hafter c Hc).
  - intros Hshort. unfold truncateText. apply slice0_short. exact Hshort.
  - intros Hlong. unfold truncateText. apply slice0_long.
    apply Nat.lt_le_incl. exact Hlong.
Qed.

Example scenario_long_text_is_truncated :
  List.filter isFill
    (calls (snd (runStagehandGrammarlyTask scriptedEnv scriptedWording
                   (repeated "a" (Z.to_nat 10000)) None fallbackWorld)))
  = [CallFill editorSelector (repeated "a" (Z.to_nat 8000))].
Proof. vm_compute. reflexivity. Qed.

End TaskFacts.

(* ------------------------------------------------------------------ *)
(** * Model tier selection: properties *)

Module ClaudeFacts.
Import Claude.

(** The table of the unit tests. *)
Example chooseClaudeModel_selects_sonnet :
  List.map (fun '(textLength, iterations) => chooseClaudeModel textLength iterations)
    [(5000, 5); (12000, 5); (5000, 8); (12000, 8); (1, 1); (8000, 3)]
  = [sonnet; sonnet; sonnet; sonnet; sonnet; sonnet].
Proof. reflexivity. Qed.

Example chooseClaudeModel_selects_opus :
  List.map (fun '(textLength, iterations) => chooseClaudeModel textLength iterations)
    [(12001, 5); (5000, 9); (15000, 10); (20000, 3); (5000, 15); (50000, 20)]
  = [opus; opus; opus; opus; opus; opus].
Proof. reflexivity. Qed.

(** C7.  For all integers, in particular the non-negative ones,
    [chooseClaudeModel] selects the standard tier exactly when
    [textLength <= 12000] and [iterations <= 8]; [(12000, 8)] selects the
    standard tier, while a text of 12001 characters or 9 iterations select
    the higher tier. *)
Theorem chooseClaudeModel_standard_iff :
  forall textLength iterations : Z,
    (chooseClaudeModel textLength iterations = sonnet
     <-> textLength <= 12000 /\ iterations <= 8)
    /\ (chooseClaudeModel textLength iterations = opus
        <-> 12000 < textLength \/ 8 < iterations)
    /\ chooseClaudeModel 12000 8 = sonnet
    /\ chooseClaudeModel 12001 iterations = opus
    /\ chooseClaudeModel textLength 9 = opus.
Proof.
  intros textLength iterations. unfold chooseClaudeModel.
  split; [ | split; [ | split; [reflexivity | split]]].
  - destruct (textLength >? 12000) eqn:Ht; destruct (iterations >? 8) eqn:Hi; cbn;
      split; intros H; try discriminate; try reflexivity; lia.
  - destruct (textLength >? 12000) eqn:Ht; destruct (iterations >? 8) eqn:Hi; cbn;
      split; intros H; try discriminate; try reflexivity; lia.
  - reflexivity.
  - destruct (textLength >? 12000); reflexivity.
Qed.

End ClaudeFacts.

(* ------------------------------------------------------------------ *)
(** * Optimisation loop: further properties *)

Module OptimizerMore.
Import Optimizer.
Import OptimizerFacts.

(** ** Thresholds *)

(** X1.  Raising the maxima never turns passing scores into failing ones;
    equivalently, lowering them never turns failing scores into passing. *)
Theorem thresholdsMet_monotone :
  forall (scores : Scores.t) (maxAi maxPl maxAi' maxPl' : Q),
    (maxAi <= maxAi')%Q -> (maxPl <= maxPl')%Q ->
    thresholdsMet scores maxAi maxPl = true ->
    thresholdsMet scores maxAi' maxPl' = true.
Proof.
  intros [ai pl n] maxAi maxPl maxAi' maxPl' Hai Hpl.
  unfold thresholdsMet, isNull; simpl.
  destruct ai as [a |], pl as [p |]; simpl; try discriminate.
  - rewrite !andb_true_iff, !Qle_bool_iff.
    intros [Ha Hp]. split; eapply Qle_trans; eassumption.
  - rewrite !andb_true_r, !Qle_bool_iff. intros Ha. eapply Qle_trans; eassumption.
  - rewrite !Qle_bool_iff. intros Hp. eapply Qle_trans; eassumption.
Qed.

Lemma thresholdsMet_monotone_witness :
  thresholdsMet (Scores.mk (Some 8%Q) (Some 2%Q) EmptyString) 20%Q 6%Q = true.
Proof.
  apply (thresholdsMet_monotone _ 10%Q 5%Q 20%Q 6%Q).
  - unfold Qle; simpl; lia.
  - unfold Qle; simpl; lia.
  - reflexivity.
Defined.

(** ** Cost of a run *)

Section Cost.
Context {World : Type}.
Variable env : Collaborators World.
Variable input : GrammarlyOptimizeInput.
Variable sid : string.

Lemma iterationBody_costs (iteration : Z) (ls : LoopState) (st : State World) :
  wp (iterationBody env input sid iteration ls) (fun _ st' => costs 1 st st') st.
Proof.
  unfold iterationBody, progress, costs.
  destruct (onProgress env) as [cb |]; cbv iota zeta.
  all: wp_steps.
  all: rewrite ?countCalls_snoc; cbn [isRewrite isScoreTask]; lia.
Qed.

Lemma optimizeLoop_costs (budget : nat) :
  forall (iteration : Z) (ls : LoopState) (st : State World),
    wp (optimizeLoop env input sid budget iteration ls)
       (fun _ st' => costs budget st st') st.
Proof.
  induction budget as [| budget IH]; intros iteration ls st; cbn [optimizeLoop].
  - apply wp_ret. unfold costs. lia.
  - apply wp_bind. eapply wp_mono; [apply iterationBody_costs | ].
    intros [ls1 | e] st1 [Hrw Hsc]; [ | unfold costs; lia].
    destruct (reachedThresholds ls1).
    + apply wp_ret. unfold costs. lia.
    + eapply wp_mono; [apply IH | ]. intros c st2 [Hrw2 Hsc2]. unfold costs. lia.
Qed.

End Cost.

(** X2.  Whatever happens, a run calls the rewrite step at most
    [max_iterations] times and the scoring task at most [max_iterations + 1]
    times. *)
Theorem run_cost_is_bounded :
  forall (World : Type) (env : Collaborators World)
         (input : GrammarlyOptimizeInput) (w : World),
    (countCalls isRewrite (calls (snd (runGrammarlyOptimization env input w)))
     <= Z.to_nat (max_iterations input))%nat
    /\ (countCalls isScoreTask (calls (snd (runGrammarlyOptimization env input w)))
        <= S (Z.to_nat (max_iterations input)))%nat.
Proof.
  intros World env input w.
  change (wp (progress env "Creating Browser Use session..." 5 ;;;
              tryFinally (tryBody env input) (finallyBlock env))
            (fun _ st =>
               (countCalls isRewrite (calls st) <= Z.to_nat (max_iterations input))%nat
               /\ (countCalls isScoreTask (calls st)
                   <= S (Z.to_nat (max_iterations input)))%nat)
            (initialState w)).
  unfold tryBody, finallyBlock, assignSessionId, progress.
  destruct (mode input); destruct (onProgress env) as [cb |]; cbv iota.
  all: wp_steps.
  all: try (eapply wp_mono; [apply optimizeLoop_costs | ];
            intros [ls | err] st1 [Hrw Hsc]; wp_steps).
  all: try (unfold countCalls in Hrw, Hsc;
            cbn [calls filter isRewrite isScoreTask List.length] in Hrw, Hsc).
  all: rewrite ?countCalls_snoc; cbn [isRewrite isScoreTask];
    unfold countCalls; cbn [filter isRewrite isScoreTask List.length]; lia.
Qed.

(** ** One session per run *)

Section Session.
Context {World : Type}.
Variable env : Collaborators World.
Variable input : GrammarlyOptimizeInput.
Variable sid : string.

Lemma iterationBody_session (iteration : Z) (ls : LoopState) (st : State World) :
  wp (iterationBody env input sid iteration ls) (fun _ st' => sessionKept sid st st') st.
Proof.
  unfold iterationBody, progress, sessionKept.
  destruct (onProgress env) as [cb |]; cbv iota zeta.
  all: wp_steps.
  all: rewrite ?countCalls_snoc; cbn [isCreateSession isDeleteSession].
  all: repeat split; try lia.
  all: try solve [intros H; repeat (apply Forall_app; split); try exact H;
                  repeat constructor].
  all: intros H; repeat (apply in_or_app; left); exact H.
Qed.

Lemma sessionKept_trans (st st1 st2 : State World) :
  sessionKept sid st st1 -> sessionKept sid st1 st2 -> sessionKept sid st st2.
Proof.
  intros (F1 & C1 & D1 & I1 & S1) (F2 & C2 & D2 & I2 & S2). unfold sessionKept.
  repeat split; try congruence; auto.
Qed.

Lemma sessionKept_refl (st : State World) : sessionKept sid st st.
Proof. unfold sessionKept. auto. Qed.

Lemma optimizeLoop_session (budget : nat) :
  forall (iteration : Z) (ls : LoopState) (st : State World),
    wp (optimizeLoop env input sid budget iteration ls)
       (fun _ st' => sessionKept sid st st') st.
Proof.
  induction budget as [| budget IH]; intros iteration ls st; cbn [optimizeLoop].
  - apply wp_ret. apply sessionKept_refl.
  - apply wp_bind. eapply wp_mono; [apply iterationBody_session | ].
    intros [ls1 | e] st1 H1; [ | exact H1].
    destruct (reachedThresholds ls1); [apply wp_ret; exact H1 | ].
    eapply wp_mono; [apply IH | ]. intros c st2 H2.
    eapply sessionKept_trans; eassumption.
Qed.

End Session.

Lemma run_has_one_session {World : Type} (env : Collaborators World)
    (input : GrammarlyOptimizeInput) (w : World) :
  oneSession (snd (runGrammarlyOptimization env input w)).
Proof.
  change (wp (progress env "Creating Browser Use session..." 5 ;;;
              tryFinally (tryBody env input) (finallyBlock env))
            (fun _ st => oneSession st)
            (initialState w)).
  unfold tryBody, finallyBlock, assignSessionId, progress.
  destruct (mode input); destruct (onProgress env) as [cb |]; cbv iota.
  all: wp_steps.
  all: try (eapply wp_mono; [apply optimizeLoop_session | ];
            intros [ls | err] st1 (Hall & Hcreate & Hdelete & Hin & Hsid);
            cbn [sessionId calls] in Hall, Hcreate, Hdelete, Hin, Hsid;
            unfold countCalls in Hcreate, Hdelete;
            cbn [filter isCreateSession isDeleteSession List.length] in Hcreate, Hdelete;
            specialize (Hall ltac:(repeat constructor));
            specialize (Hin ltac:(cbn; auto 10));
            wp_steps).
  all: try discriminate Hsid.
  all: try (injection Hsid as ->).
  all: unfold oneSession; cbn [sessionId calls].
  all: rewrite ?countCalls_snoc; cbn [isCreateSession isDeleteSession];
    unfold countCalls; cbn [filter isCreateSession isDeleteSession List.length].
  all: try rewrite Hcreate; try rewrite Hdelete.
  all: try rewrite Heqo; try rewrite Hsid.
  all: split; [lia | split; [lia | split]].
  all: try solve [intros _; first [ repeat (apply in_or_app; left); exact Hin | cbn; auto 10 ]].
  all: try solve [intros H; exfalso; apply H; reflexivity].
  all: solve [repeat (apply Forall_app; split); try exact Hall; repeat constructor].
Qed.

(** X4.  A run works in one session: it creates at most one session and closes
    at most one, every scoring task and the closing call carry the same
    session id, and none of them happens unless a session was created. *)
Theorem run_stays_in_one_session :
  forall (World : Type) (env : Collaborators World)
         (input : GrammarlyOptimizeInput) (w : World),
    (countCalls isCreateSession
       (calls (snd (runGrammarlyOptimization env input w))) <= 1)%nat
    /\ (countCalls isDeleteSession
          (calls (snd (runGrammarlyOptimization env input w))) <= 1)%nat
    /\ (forall c1 c2 sid1 sid2,
          In c1 (calls (snd (runGrammarlyOptimization env input w))) ->
          In c2 (calls (snd (runGrammarlyOptimization env input w))) ->
          sessionOf c1 = Some sid1 -> sessionOf c2 = Some sid2 -> sid1 = sid2)
    /\ (forall c sid,
          In c (calls (snd (runGrammarlyOptimization env input w))) ->
          sessionOf c = Some sid ->
          In CallCreateSession (calls (snd (runGrammarlyOptimization env input w)))).
Proof.
  intros World env input w.
  destruct (run_has_one_session env input w) as (Hcreate & Hdelete & Hall & Hin).
  rewrite Forall_forall in Hall.
  assert (Hid : forall c sid,
             In c (calls (snd (runGrammarlyOptimization env input w))) ->
             sessionOf c = Some sid ->
             sessionId (snd (runGrammarlyOptimization env input w)) = Some sid).
  { intros c sid Hc Hs. specialize (Hall c Hc). unfold inSession in Hall.
    rewrite Hs in Hall. exact Hall. }
  split; [exact Hcreate | split; [exact Hdelete | split]].
  - intros c1 c2 sid1 sid2 H1 H2 Hs1 Hs2.
    pose proof (Hid _ _ H1 Hs1) as E1. pose proof (Hid _ _ H2 Hs2) as E2. congruence.
  - intros c sid Hc Hs. apply Hin. rewrite (Hid _ _ Hc Hs). discriminate.
Qed.

(** ** What a returned result reports *)

Lemma scoredTexts_app (l l' : list Call) :
  scoredTexts (l ++ l') = scoredTexts l ++ scoredTexts l'.
Proof. apply flat_map_app. Qed.

Lemma wp_conj {St A : Type} (m : M St A) (Q1 Q2 : Completion A -> St -> Prop) (st : St) :
  wp m Q1 st -> wp m Q2 st -> wp m (fun c st' => Q1 c st' /\ Q2 c st') st.
Proof. unfold wp. auto. Qed.

Lemma thresholdsMet_ignores_notes (scores : Scores.t) (maxAi maxPl : Q) :
  thresholdsMet
    {| Scores.aiDetectionPercent := Scores.aiDetectionPercent scores;
       Scores.plagiarismPercent := Scores.plagiarismPercent scores;
       Scores.notes := EmptyString |} maxAi maxPl
  = thresholdsMet scores maxAi maxPl.
Proof. destruct scores; reflexivity. Qed.

Section Reported.
Context {World : Type}.
Variable env : Collaborators World.
Variable input : GrammarlyOptimizeInput.
Variable sid : string.

Lemma iterationBody_scoredLast (iteration : Z) (ls : LoopState) (st : State World) :
  wp (iterationBody env input sid iteration ls)
     (fun c st' =>
        match c with
        | Normal ls' =>
            scoredLast ls' st'
            /\ reachedThresholds ls'
               = thresholdsMet (lastScores ls') (max_ai_percent input)
                   (max_plagiarism_percent input)
            /\ iterationsUsed ls' = iteration
        | Throw _ => True
        end) st.
Proof.
  unfold iterationBody, progress, scoredLast.
  destruct (onProgress env) as [cb |]; cbv iota zeta.
  all: wp_steps; trivial.
  all: cbn [calls currentText history lastScores reachedThresholds iterationsUsed].
  all: rewrite ?scoredTexts_app; cbn [scoredTexts flat_map app]; rewrite ?app_nil_r.
  all: repeat split; eauto.
  all: eexists; eexists; split; [reflexivity | split; reflexivity].
Qed.

Lemma optimizeLoop_scoredLast (budget : nat) :
  forall (iteration : Z) (ls : LoopState) (st : State World),
    scoredLast ls st ->
    wp (optimizeLoop env input sid budget iteration ls)
       (fun c st' =>
          match c with
          | Normal ls' =>
              scoredLast ls' st'
              /\ ((reachedThresholds ls'
                   = thresholdsMet (lastScores ls') (max_ai_percent input)
                       (max_plagiarism_percent input)
                   /\ iteration <= iterationsUsed ls')
                  \/ (budget = 0%nat /\ ls' = ls))
          | Throw _ => True
          end) st.
Proof.
  induction budget as [| budget IH]; intros iteration ls st Hpre; cbn [optimizeLoop].
  - apply wp_ret. split; [exact Hpre | right; split; reflexivity].
  - apply wp_bind. eapply wp_mono; [apply iterationBody_scoredLast | ].
    intros [ls1 | e] st1; [ | trivial]. intros (Hlast & Hreached & Hused).
    destruct (reachedThresholds ls1) eqn:Hr.
    + apply wp_ret. split; [exact Hlast | left; split; [congruence | lia]].
    + eapply wp_mono; [apply IH; exact Hlast | ].
      intros [ls2 | e] st2; [ | trivial]. intros [Hlast2 [[H1 H2] | [_ ->]]].
      * split; [exact Hlast2 | left; split; [exact H1 | lia]].
      * split; [exact Hlast2 | left; split; [congruence | lia]].
Qed.

End Reported.

Lemma baseline_result_consistent {World : Type} (input : GrammarlyOptimizeInput)
    (scores0 : Scores.t) (reached : bool) (note notes : string) (st : State World) :
  mode input <> optimize ->
  reached = thresholdsMet scores0 (max_ai_percent input) (max_plagiarism_percent input) ->
  (exists earlier, scoredTexts (calls st) = earlier ++ [text input]) ->
  resultConsistent input
    {| Result.final_text := text input;
       Result.ai_detection_percent := Scores.aiDetectionPercent scores0;
       Result.plagiarism_percent := Scores.plagiarismPercent scores0;
       Result.iterations_used := 0;
       Result.thresholds_met := reached;
       Result.history := [historyEntry 0 scores0 note];
       Result.notes := notes |} st.
Proof.
  intros Hmode -> Hscored. unfold resultConsistent, reportedScores.
  cbn [Result.final_text Result.ai_detection_percent Result.plagiarism_percent
       Result.iterations_used Result.thresholds_met Result.history].
  split; [exact Hscored | ].
  split; [exists [], (historyEntry 0 scores0 note); repeat split | ].
  split; [intros _; destruct scores0; reflexivity | ].
  split; [intros H; contradiction | ].
  split; [reflexivity | ].
  split; [reflexivity | ].
  intros [| [| j]] e; cbn [nth_error]; [intros [= <-]; reflexivity | discriminate ..].
Qed.

Lemma loop_result_consistent {World : Type} (input : GrammarlyOptimizeInput)
    (scores0 : Scores.t) (note notes : string) (ls0 ls : LoopState)
    (st0 st1 st' : State World) (entries : list History.t) :
  mode input = optimize ->
  history ls0 = [historyEntry 0 scores0 note] ->
  loopRan input (Z.to_nat (max_iterations input)) 1 ls0 ls st0 st1 entries ->
  scoredLast ls st1 ->
  (reachedThresholds ls
   = thresholdsMet (lastScores ls) (max_ai_percent input) (max_plagiarism_percent input)
   /\ 1 <= iterationsUsed ls)
  \/ (Z.to_nat (max_iterations input) = 0%nat /\ ls = ls0) ->
  scoredTexts (calls st') = scoredTexts (calls st1) ->
  resultConsistent input
    {| Result.final_text := currentText ls;
       Result.ai_detection_percent := Scores.aiDetectionPercent (lastScores ls);
       Result.plagiarism_percent := Scores.plagiarismPercent (lastScores ls);
       Result.iterations_used := iterationsUsed ls;
       Result.thresholds_met := reachedThresholds ls;
       Result.history := history ls;
       Result.notes := notes |} st'.
Proof.
  intros Hmode Hh0 (Hh & Hused & _ & _ & _ & Hidx & _) [Hscored Hentry] Hran Hsame.
  unfold resultConsistent, reportedScores.
  cbn [Result.final_text Result.ai_detection_percent Result.plagiarism_percent
       Result.iterations_used Result.thresholds_met Result.history].
  rewrite Hsame.
  split; [exact Hscored | ].
  split; [exact Hentry | ].
  split.
  { intros [H | H]; [contradiction | ].
    destruct Hran as [[-> _] | [Hzero _]]; [ | lia].
    destruct (lastScores ls); reflexivity. }
  split.
  { intros _ H. destruct Hran as [[_ H1] | [Hzero _]]; [exact H1 | lia]. }
  split; [intros H; contradiction | ].
  rewrite Hh, Hh0. cbn [app List.length].
  split; [lia | ].
  intros [| j] e; cbn [nth_error].
  - intros [= <-]. reflexivity.
  - intros Hnth. rewrite (Hidx j e Hnth). lia.
Qed.

Ltac scored_log :=
  cbn [calls]; rewrite ?scoredTexts_app;
  cbn [scoredTexts flat_map app]; rewrite ?app_nil_r.

Lemma run_result_consistent {World : Type} (env : Collaborators World)
    (input : GrammarlyOptimizeInput) (w : World) :
  wp (progress env "Creating Browser Use session..." 5 ;;;
      tryFinally (tryBody env input) (finallyBlock env))
     (fun c st' => forall r, c = Normal r -> resultConsistent input r st')
     (initialState w).
Proof.
  unfold tryBody, finallyBlock, assignSessionId, progress.
  destruct (mode input) eqn:Hmode; destruct (onProgress env) as [cb |]; cbv iota.
  all: wp_steps; try discriminate.
  all: try (intros r Hr; injection Hr as <-;
            apply baseline_result_consistent;
            [ rewrite Hmode; discriminate
            | reflexivity
            | scored_log; exists []; reflexivity ]).
  all: (eapply wp_mono;
        [ apply wp_conj;
          [ apply optimizeLoop_wp; reflexivity
          | apply optimizeLoop_scoredLast; split;
            [ scored_log; exists []; reflexivity
            | eexists [], _; repeat split ] ]
        | ]).
  all: intros [ls | err] st1 Hpost; wp_steps; try discriminate.
  all: destruct Hpost as [[entries Hloop] [Hlast Hran]].
  all: intros r Hr; injection Hr as <-.
  all: eapply loop_result_consistent with (3 := Hloop);
       [ exact Hmode | reflexivity | exact Hlast | exact Hran
       | scored_log; reflexivity ].
Qed.

(** X5.  The text a result returns is the text of the last scoring call of the
    run: no rewrite is returned without having been scored. *)
Theorem final_text_is_last_scored_text :
  forall (World : Type) (env : Collaborators World)
         (input : GrammarlyOptimizeInput) (w : World) (r : Result.t),
    fst (runGrammarlyOptimization env input w) = Normal r ->
    exists earlier,
      scoredTexts (calls (snd (runGrammarlyOptimization env input w)))
      = earlier ++ [Result.final_text r].
Proof.
  intros World env input w r Hr.
  exact (proj1 (run_result_consistent env input w r Hr)).
Qed.

Lemma final_text_is_last_scored_text_witness :
  exists r,
    fst (runGrammarlyOptimization scriptedEnv (scenarioInput optimize) scenarioWorld)
    = Normal r
    /\ exists earlier,
         scoredTexts (calls (snd (runGrammarlyOptimization scriptedEnv
                                    (scenarioInput optimize) scenarioWorld)))
         = earlier ++ [Result.final_text r].
Proof.
  destruct (fst (runGrammarlyOptimization scriptedEnv (scenarioInput optimize)
                   scenarioWorld)) as [r | e] eqn:Hrun;
    [ | vm_compute in Hrun; discriminate Hrun].
  exists r. split; [reflexivity | ].
  apply (final_text_is_last_scored_text Scripted scriptedEnv (scenarioInput optimize)
           scenarioWorld r).
  exact Hrun.
Defined.

(** X6.  The history of a returned result has one entry per iteration used plus
    the baseline, entry [j] carries iteration number [j], and the last entry
    holds the percentages the result reports. *)
Theorem history_is_numbered_from_baseline :
  forall (World : Type) (env : Collaborators World)
         (input : GrammarlyOptimizeInput) (w : World) (r : Result.t),
    fst (runGrammarlyOptimization env input w) = Normal r ->
    Z.of_nat (List.length (Result.history r)) = Result.iterations_used r + 1
    /\ (forall j e, nth_error (Result.history r) j = Some e ->
                    History.iteration e = Z.of_nat j)
    /\ (exists older e,
          Result.history r = older ++ [e]
          /\ History.ai_detection_percent e = Result.ai_detection_percent r
          /\ History.plagiarism_percent e = Result.plagiarism_percent r).
Proof.
  intros World env input w r Hr.
  destruct (run_result_consistent env input w r Hr)
    as (_ & Hlast & _ & _ & _ & Hlen & Hidx).
  exact (conj Hlen (conj Hidx Hlast)).
Qed.

Lemma history_is_numbered_from_baseline_witness :
  exists r,
    fst (runGrammarlyOptimization scriptedEnv (scenarioInput optimize) scenarioWorld)
    = Normal r
    /\ Z.of_nat (List.length (Result.history r)) = Result.iterations_used r + 1
    /\ (forall j e, nth_error (Result.history r) j = Some e ->
                    History.iteration e = Z.of_nat j)
    /\ (exists older e,
          Result.history r = older ++ [e]
          /\ History.ai_detection_percent e = Result.ai_detection_percent r
          /\ History.plagiarism_percent e = Result.plagiarism_percent r).
Proof.
  destruct (fst (runGrammarlyOptimization scriptedEnv (scenarioInput optimize)
                   scenarioWorld)) as [r | e] eqn:Hrun;
    [ | vm_compute in Hrun; discriminate Hrun].
  exists r. split; [reflexivity | ].
  apply (history_is_numbered_from_baseline Scripted scriptedEnv
           (scenarioInput optimize) scenarioWorld r).
  exact Hrun.
Defined.

(** X7.  Outside [optimize] mode, and in [optimize] mode with at least one
    iteration allowed, the [thresholds_met] flag of a returned result is
    [thresholdsMet] of the two percentages the same result reports. *)
Theorem thresholds_met_matches_reported_scores :
  forall (World : Type) (env : Collaborators World)
         (input : GrammarlyOptimizeInput) (w : World) (r : Result.t),
    mode input <> optimize \/ 1 <= max_iterations input ->
    fst (runGrammarlyOptimization env input w) = Normal r ->
    Result.thresholds_met r
    = thresholdsMet (reportedScores r) (max_ai_percent input)
        (max_plagiarism_percent input).
Proof.
  intros World env input w r Hmax Hr.
  destruct (run_result_consistent env input w r Hr) as (_ & _ & Hmet & _).
  exact (Hmet Hmax).
Qed.

Lemma thresholds_met_matches_reported_scores_witness :
  exists r,
    fst (runGrammarlyOptimization scriptedEnv (scenarioInput optimize) scenarioWorld)
    = Normal r
    /\ Result.thresholds_met r = thresholdsMet (reportedScores r) 10 5.
Proof.
  destruct (fst (runGrammarlyOptimization scriptedEnv (scenarioInput optimize)
                   scenarioWorld)) as [r | e] eqn:Hrun;
    [ | vm_compute in Hrun; discriminate Hrun].
  exists r. split; [reflexivity | ].
  apply (thresholds_met_matches_reported_scores Scripted scriptedEnv
           (scenarioInput optimize) scenarioWorld r).
  - right. simpl. lia.
  - exact Hrun.
Defined.

(** X8.  In [optimize] mode with at least one iteration allowed, a returned
    result used between one and [max_iterations] iterations, with one
    rewrite call per iteration: the baseline scores alone never end the run,
    even when they already meet the thresholds.  When the result says the
    thresholds were not met, every allowed iteration was used. *)
Theorem optimize_rewrites_at_least_once :
  forall (World : Type) (env : Collaborators World)
         (input : GrammarlyOptimizeInput) (w : World) (r : Result.t),
    mode input = optimize ->
    1 <= max_iterations input ->
    fst (runGrammarlyOptimization env input w) = Normal r ->
    1 <= Result.iterations_used r <= max_iterations input
    /\ Z.of_nat (countCalls isRewrite
                   (calls (snd (runGrammarlyOptimization env input w))))
       = Result.iterations_used r
    /\ (Result.thresholds_met r = false ->
        Result.iterations_used r = max_iterations input).
Proof.
  intros World env input w r Hmode Hmax Hr.
  destruct (run_result_consistent env input w r Hr) as (_ & _ & _ & Hone & _).
  destruct (optimize_run_wp env input w Hmode r Hr)
    as (baseline & entries & _ & Hused & Hlen & _ & Hfull & _ & Hrw & _).
  change (countCalls isRewrite
            (calls (snd (runGrammarlyOptimization env input w)))
          = List.length entries) in Hrw.
  rewrite Hrw, Hused.
  split; [split; [rewrite <- Hused; exact (Hone Hmode Hmax) | lia] | ].
  split; [reflexivity | ].
  intros Hnot. rewrite (Hfull Hnot). lia.
Qed.

Lemma optimize_rewrites_at_least_once_witness :
  thresholdsMet (Scores.mk (Some 4%Q) (Some 1%Q) "baseline") 10 5 = true
  /\ exists r,
       fst (runGrammarlyOptimization scriptedEnv (scenarioInput optimize)
              alreadyMetWorld) = Normal r
       /\ 1 <= Result.iterations_used r <= 5
       /\ Z.of_nat (countCalls isRewrite
                      (calls (snd (runGrammarlyOptimization scriptedEnv
                                     (scenarioInput optimize) alreadyMetWorld))))
          = Result.iterations_used r
       /\ (Result.thresholds_met r = false -> Result.iterations_used r = 5).
Proof.
  split; [reflexivity | ].
  destruct (fst (runGrammarlyOptimization scriptedEnv (scenarioInput optimize)
                   alreadyMetWorld)) as [r | e] eqn:Hrun;
    [ | vm_compute in Hrun; discriminate Hrun].
  exists r. split; [reflexivity | ].
  apply (optimize_rewrites_at_least_once Scripted scriptedEnv (scenarioInput optimize)
           alreadyMetWorld r).
  - reflexivity.
  - simpl. lia.
  - exact Hrun.
Defined.

(** ** Each rewrite starts from the last scored text *)

Lemma lastScoredText_app (init : option string) (l l' : list Call) :
  lastScoredText init (l ++ l') = lastScoredText (lastScoredText init l) l'.
Proof. apply fold_left_app. Qed.





Section Chain.
Context {World : Type}.
Variable env : Collaborators World.
Variable input : GrammarlyOptimizeInput.
Variable sid : string.



End Chain.




(** ** Which Claude calls a mode makes *)

Section Dispatch.
Context {World : Type}.
Variable env : Collaborators World.
Variable input : GrammarlyOptimizeInput.
Variable sid : string.
Variable p : Call -> bool.
Hypothesis Hp : outsideLoop p.

Lemma iterationBody_outside (iteration : Z) (ls : LoopState) (st : State World) :
  wp (iterationBody env input sid iteration ls)
     (fun _ st' => countCalls p (calls st') = countCalls p (calls st)) st.
Proof.
  destruct Hp as (Hprogress & Hrewrite & Hscore).
  unfold iterationBody, progress. destruct (onProgress env) as [cb |]; cbv iota.
  all: wp_steps.
  all: rewrite ?countCalls_snoc, ?Hprogress, ?Hrewrite, ?Hscore; lia.
Qed.

Lemma optimizeLoop_outside (budget : nat) :
  forall (iteration : Z) (ls : LoopState) (st : State World),
    wp (optimizeLoop env input sid budget iteration ls)
       (fun _ st' => countCalls p (calls st') = countCalls p (calls st)) st.
Proof.
  induction budget as [| budget IH]; intros iteration ls st; cbn [optimizeLoop].
  - apply wp_ret. reflexivity.
  - apply wp_bind. eapply wp_mono; [apply iterationBody_outside | ].
    intros [ls1 | e] st1 Hbody; [ | exact Hbody].
    destruct (reachedThresholds ls1); [apply wp_ret; exact Hbody | ].
    eapply wp_mono; [apply IH | ]. intros c st2 Hloop. congruence.
Qed.

End Dispatch.

Lemma isAnalyze_outsideLoop : outsideLoop isAnalyze.
Proof. repeat split. Qed.

Lemma isSummarize_outsideLoop : outsideLoop isSummarize.
Proof. repeat split. Qed.

(** X23.  The mode decides which Claude calls a run makes: the analysis is
    requested only in [analyze] mode and the summary only in [optimize]
    mode, each at most once, and a run that returns a result in one of
    these modes has made its call exactly once. *)
Theorem claude_calls_follow_mode :
  forall (World : Type) (env : Collaborators World)
         (input : GrammarlyOptimizeInput) (w : World),
    (countCalls isAnalyze (calls (snd (runGrammarlyOptimization env input w))) <= 1)%nat
    /\ (countCalls isSummarize
          (calls (snd (runGrammarlyOptimization env input w))) <= 1)%nat
    /\ (mode input <> analyze ->
        countCalls isAnalyze (calls (snd (runGrammarlyOptimization env input w))) = 0%nat)
    /\ (mode input <> optimize ->
        countCalls isSummarize
          (calls (snd (runGrammarlyOptimization env input w))) = 0%nat)
    /\ (forall r,
          fst (runGrammarlyOptimization env input w) = Normal r ->
          (mode input = analyze ->
           countCalls isAnalyze
             (calls (snd (runGrammarlyOptimization env input w))) = 1%nat)
          /\ (mode input = optimize ->
              countCalls isSummarize
                (calls (snd (runGrammarlyOptimization env input w))) = 1%nat)).
Proof.
  intros World env input w.
  change (wp (progress env "Creating Browser Use session..." 5 ;;;
              tryFinally (tryBody env input) (finallyBlock env))
            (fun c st =>
               (countCalls isAnalyze (calls st) <= 1)%nat
               /\ (countCalls isSummarize (calls st) <= 1)%nat
               /\ (mode input <> analyze -> countCalls isAnalyze (calls st) = 0%nat)
               /\ (mode input <> optimize -> countCalls isSummarize (calls st) = 0%nat)
               /\ (forall r, c = Normal r ->
                     (mode input = analyze -> countCalls isAnalyze (calls st) = 1%nat)
                     /\ (mode input = optimize ->
                         countCalls isSummarize (calls st) = 1%nat)))
            (initialState w)).
  unfold tryBody, finallyBlock, assignSessionId, progress.
  destruct (mode input) eqn:Hmode; destruct (onProgress env) as [cb |]; cbv iota.
  all: wp_steps.
  all: try (eapply wp_mono;
            [ apply wp_conj;
              [ apply (optimizeLoop_outside env input _ isAnalyze isAnalyze_outsideLoop)
              | apply (optimizeLoop_outside env input _ isSummarize
                         isSummarize_outsideLoop) ]
            | intros [ls | err] st1 [Hanalyze Hsummarize]; wp_steps ]).
  all: try (unfold countCalls in Hanalyze, Hsummarize;
            cbn [calls filter isAnalyze isSummarize List.length] in Hanalyze, Hsummarize).
  all: cbn [calls]; rewrite ?countCalls_snoc; cbn [isAnalyze isSummarize];
    try rewrite Hanalyze; try rewrite Hsummarize;
    unfold countCalls; cbn [filter isAnalyze isSummarize List.length].
  all: repeat split; try lia; try congruence; try discriminate.
  all: intros; try congruence; try discriminate.
Qed.

End OptimizerMore.

(* ------------------------------------------------------------------ *)
(** * Automatic login: further properties *)

Module LoginMore.
Import Login.
Import LoginFacts.

Section Rules.
Context {World : Type}.

Lemma wp_any {A} (m : M (State World) A)
    (Q : Completion A -> State World -> Prop) (st : State World) :
  (forall c st', Q c st') -> wp m Q st.
Proof. intros H. apply H. Qed.

Lemma wp_login_call {A} (c : Call) (f : World -> Completion A * World)
    (Q : Completion A -> State World -> Prop) (st : State World) :
  (forall r w', Q r {| world := w'; calls := calls st ++ [c] |}) ->
  wp (call c f) Q st.
Proof.
  unfold wp, call. intros H. destruct (f (world st)) as [r w']. simpl. apply H.
Qed.

(** [sleep] always resolves. *)
Lemma wp_sleep (stagehand : Stagehand World) (ms : Z)
    (Q : Completion unit -> State World -> Prop) (st : State World) :
  (forall w', Q (Normal tt) {| world := w'; calls := calls st ++ [CallSleep ms] |}) ->
  wp (doSleep stagehand ms) Q st.
Proof. unfold wp, doSleep, call. simpl. intros H. apply H. Qed.

End Rules.

(** Step over a computation whose outcome does not matter. *)
Ltac wp_skip :=
  lazymatch goal with
  | |- wp (bind _ _) _ _ => apply wp_bind; apply wp_any; intros [? | ?] ?; [ | exact I ]
  end.

Ltac wp_login_step :=
  lazymatch goal with
  | |- wp (bind _ _) _ _ => apply wp_bind
  | |- wp (ret _) _ _ => apply wp_ret
  | |- wp (gets _) _ _ => apply wp_gets
  | |- wp (tryCatch _ _) _ _ => apply wp_tryCatch
  | |- wp (call _ _) _ _ => apply wp_login_call; intros [? | ?] ?
  | |- wp (doObserve _ _) _ _ => apply wp_login_call; intros [? | ?] ?
  | |- wp (doAct _ _) _ _ => apply wp_login_call; intros [? | ?] ?
  | |- wp (doSleep _ _) _ _ => apply wp_sleep; intros ?
  | |- wp (doFill _ _ _) _ _ => apply wp_login_call; intros [? | ?] ?
  | |- wp (if ?b then _ else _) _ _ => destruct b eqn:?
  end;
  cbn [world calls].

(** ** The result of a login attempt *)

Lemma classifyErrorText_wellFormed (errorText : string) :
  wellFormed (failed (classifyErrorText errorText)).
Proof.
  unfold classifyErrorText.
  repeat match goal with
         | |- context [if ?b then _ else _] => destruct b
         end.
  all: cbn; split; [eexists; reflexivity | lia].
Qed.

Lemma failedWith_wellFormed (message : string) : wellFormed (failedWith message).
Proof. cbn. split; [eexists; reflexivity | lia]. Qed.

Section Outcome.
Context {World : Type}.
Variable stagehand : Stagehand World.
Variable credentials : GrammarlyCredentials.

Lemma detectLoginFailure_result (st : State World) :
  wp (detectLoginFailure stagehand)
     (fun c st' =>
        match c with
        | Normal failure =>
            (failure = noFailure \/ exists errorText, failure = classifyErrorText errorText)
            /\ (calls st' = calls st \/ calls st' = calls st ++ [CallObserve observeErrors])
        | Throw e => pages stagehand (world st) = Throw e /\ st' = st
        end) st.
Proof.
  unfold wp, detectLoginFailure, bind, readPage, tryCatch, doObserve, call, ret.
  destruct (pages stagehand (world st)) as [[|] | e]; cbn [negb fst snd].
  - destruct (observe stagehand observeErrors (world st)) as [[found | e] w'].
    + destruct (List.length found =? 0)%nat; cbn [fst snd calls].
      * split; [left; reflexivity | right; reflexivity].
      * split; [right; eexists; reflexivity | right; reflexivity].
    + cbn [fst snd calls]. split; [left; reflexivity | right; reflexivity].
  - split; left; reflexivity.
  - split; reflexivity.
Qed.

Lemma submitLoginForm_result (st : State World) :
  wp (submitLoginForm stagehand credentials)
     (fun c st' =>
        match c with
        | Normal (Some r) => LoginAttemptResult.success r = false /\ wellFormed r
        | Normal None =>
            In (CallFill passwordSelector (password credentials)) (calls st')
        | Throw _ => True
        end) st.
Proof.
  unfold submitLoginForm.
  do 10 wp_skip.
  apply wp_bind. apply wp_login_call. intros [found | e] w1; [ | exact I].
  destruct (List.length found =? 0)%nat.
  - apply wp_bind. eapply wp_mono; [apply detectLoginFailure_result | ].
    intros [failure | e] st1; [ | intros _; exact I]. intros [Hfailure _].
    destruct (Js.truthyOpt (PartialResult.error failure)) eqn:Herror; apply wp_ret.
    + destruct Hfailure as [-> | [errorText ->]]; [discriminate Herror | ].
      split; [reflexivity | apply classifyErrorText_wellFormed].
    + split; [reflexivity | apply failedWith_wellFormed].
  - repeat wp_login_step; try exact I.
    rewrite <- !app_assoc. apply in_or_app. right. cbn [app In]. auto.
Qed.

Lemma verifyLogin_result (attempt maxRetries : Z) (st : State World) :
  In (CallFill passwordSelector (password credentials)) (calls st) ->
  wp (verifyLogin stagehand attempt maxRetries)
     (fun c st' =>
        match c with
        | Normal (Some r) =>
            wellFormed r
            /\ (LoginAttemptResult.success r = true ->
                calls st' = calls st ++ [CallCheckAuthStatus])
        | _ => True
        end) st.
Proof.
  intros Hfill. unfold verifyLogin.
  apply wp_bind. apply wp_login_call. intros [status | e] w1; [ | exact I].
  destruct (loggedIn status).
  - apply wp_ret. split; [reflexivity | intros _; reflexivity].
  - apply wp_bind. eapply wp_mono; [apply detectLoginFailure_result | ].
    intros [failure | e] st1; [ | intros _; exact I]. intros [Hfailure _].
    destruct (classified failure) eqn:Hclass.
    + apply wp_ret. split; [ | discriminate].
      destruct Hfailure as [-> | [errorText ->]]; [discriminate Hclass | ].
      apply classifyErrorText_wellFormed.
    + repeat wp_login_step; exact I.
Qed.

Lemma loginAttempt_result (attempt maxRetries : Z) (st : State World) :
  wp (loginAttempt stagehand credentials attempt maxRetries)
     (fun c st' =>
        match c with
        | Normal (Some r) => returnedAfter credentials r st'
        | Normal None => True
        | Throw _ => False
        end) st.
Proof.
  unfold loginAttempt, attemptSteps.
  apply wp_tryCatch. apply wp_bind.
  eapply wp_mono; [apply submitLoginForm_result | ].
  intros [[r |] | e] st1.
  - intros [Hfail Hwf]. apply wp_ret.
    split; [exact Hwf | rewrite Hfail; discriminate].
  - intros Hfill. eapply wp_mono; [apply verifyLogin_result; exact Hfill | ].
    intros [[r |] | e] st2.
    + intros [Hwf Hlog]. split; [exact Hwf | ].
      intros Hok. exists (calls st1). split; [exact (Hlog Hok) | exact Hfill].
    + trivial.
    + intros _. repeat wp_login_step; try exact I.
      split; [apply failedWith_wellFormed | discriminate].
  - intros _. repeat wp_login_step; try exact I.
    split; [apply failedWith_wellFormed | discriminate].
Qed.

Lemma loginLoop_result (maxRetries : Z) (remaining : nat) :
  forall (attempt : Z) (st : State World),
    wp (loginLoop stagehand credentials maxRetries remaining attempt)
       (fun c st' =>
          match c with
          | Normal r => returnedAfter credentials r st'
          | Throw _ => False
          end) st.
Proof.
  induction remaining as [| remaining IH]; intros attempt st; cbn [loginLoop].
  - apply wp_ret. split; [apply failedWith_wellFormed | discriminate].
  - apply wp_bind. eapply wp_mono; [apply loginAttempt_result | ].
    intros [[r |] | e] st1; [ | | intros []].
    + intros H. apply wp_ret. exact H.
    + intros _. apply IH.
Qed.

Lemma attemptGrammarlyLogin_result (options : option AutoLoginOptions) (w : World) :
  match pages stagehand w with
  | Throw e =>
      attemptGrammarlyLogin stagehand credentials options w = (Throw e, initialState w)
  | Normal _ =>
      match fst (attemptGrammarlyLogin stagehand credentials options w) with
      | Normal r =>
          returnedAfter credentials r
            (snd (attemptGrammarlyLogin stagehand credentials options w))
      | Throw _ => False
      end
  end.
Proof.
  unfold attemptGrammarlyLogin, bind, readPage. cbn [world initialState].
  destruct (pages stagehand w) as [[|] | e]; cbn [negb].
  - exact (loginLoop_result (maxRetriesOf options)
             (Z.to_nat (maxRetriesOf options + 1)) 0 {| world := w; calls := [] |}).
  - split; [apply failedWith_wellFormed | discriminate].
  - reflexivity.
Qed.

End Outcome.

(** X10.  [attemptGrammarlyLogin] rejects in one case only: when the read
    of the first page, made before the retry loop and outside its [try],
    throws; the error is then passed on and no call has been made.
    Otherwise it resolves with a result, whatever the page and the auth
    check do: a success carries no error and no flag, a failure carries an
    error message and at most one of the three flags. *)
Theorem login_rejects_only_on_page_read :
  forall (World : Type) (stagehand : Stagehand World)
         (credentials : GrammarlyCredentials)
         (options : option AutoLoginOptions) (w : World),
    match pages stagehand w with
    | Throw e =>
        attemptGrammarlyLogin stagehand credentials options w
        = (Throw e, initialState w)
    | Normal _ =>
        exists r,
          fst (attemptGrammarlyLogin stagehand credentials options w) = Normal r
          /\ (LoginAttemptResult.success r = true ->
              LoginAttemptResult.error r = None /\ flagCount r = 0%nat)
          /\ (LoginAttemptResult.success r = false ->
              (exists message, LoginAttemptResult.error r = Some message)
              /\ (flagCount r <= 1)%nat)
    end.
Proof.
  intros World stagehand credentials options w.
  pose proof (attemptGrammarlyLogin_result stagehand credentials options w) as H.
  destruct (pages stagehand w) as [page | e]; [ | exact H].
  destruct (fst (attemptGrammarlyLogin stagehand credentials options w))
    as [r | e]; [ | destruct H].
  exists r. split; [reflexivity | ].
  destruct H as [Hwf _]. unfold wellFormed in Hwf.
  destruct (LoginAttemptResult.success r).
  - subst r. split; [intros _; split; reflexivity | discriminate].
  - split; [discriminate | intros _; exact Hwf].
Qed.

(** X11.  A successful result is returned right after an auth check, and only
    once the password field has been filled with the password: the last
    call of the run is [checkGrammarlyAuthStatus] and the fill precedes
    it. *)
Theorem success_follows_auth_check :
  forall (World : Type) (stagehand : Stagehand World)
         (credentials : GrammarlyCredentials)
         (options : option AutoLoginOptions) (w : World) (r : LoginAttemptResult.t),
    fst (attemptGrammarlyLogin stagehand credentials options w) = Normal r ->
    LoginAttemptResult.success r = true ->
    exists earlier,
      calls (snd (attemptGrammarlyLogin stagehand credentials options w))
      = earlier ++ [CallCheckAuthStatus]
      /\ In (CallFill passwordSelector (password credentials)) earlier.
Proof.
  intros World stagehand credentials options w r Hr Hok.
  pose proof (attemptGrammarlyLogin_result stagehand credentials options w) as H.
  destruct (pages stagehand w) as [page | e].
  - rewrite Hr in H. destruct H as [_ H]. exact (H Hok).
  - rewrite H in Hr. discriminate Hr.
Qed.

Lemma success_follows_auth_check_witness :
  exists earlier,
    calls (snd (attemptGrammarlyLogin scriptedStagehand testCredentials None happyWorld))
    = earlier ++ [CallCheckAuthStatus]
    /\ In (CallFill passwordSelector "testPassword123") earlier.
Proof.
  apply (success_follows_auth_check Scripted scriptedStagehand testCredentials None
           happyWorld succeeded).
  - vm_compute. reflexivity.
  - reflexivity.
Defined.

(** ** How often a run touches the page *)

Section Counting.
Context {World : Type}.
Variable p : Call -> bool.

Lemma countCalls_add (log : list Call) (c : Call) :
  countCalls p (log ++ [c]) = (countCalls p log + (if p c then 1 else 0))%nat.
Proof.
  unfold countCalls. rewrite filter_app, length_app. simpl.
  destruct (p c); reflexivity.
Qed.

Lemma atMost_ret {A} (a : A) : @atMost World p 0 A (ret a).
Proof. intros st. simpl. lia. Qed.

Lemma atMost_gets {A} (f : State World -> A) : atMost p 0 (gets f).
Proof. intros st. simpl. lia. Qed.

Lemma atMost_readPage (stagehand : Stagehand World) : atMost p 0 (readPage stagehand).
Proof. intros st. simpl. lia. Qed.

Lemma atMost_call_one {A} (c : Call) (f : World -> Completion A * World) :
  atMost p 1 (call c f).
Proof.
  intros st. unfold call. destruct (f (world st)) as [r w']. simpl.
  rewrite countCalls_add. destruct (p c); lia.
Qed.

Lemma atMost_call_none {A} (c : Call) (f : World -> Completion A * World) :
  p c = false -> atMost p 0 (call c f).
Proof.
  intros Hc st. unfold call. destruct (f (world st)) as [r w']. simpl.
  rewrite countCalls_add, Hc. lia.
Qed.

Lemma atMost_bind {A B} (n1 n2 : nat) (m : M (State World) A)
    (k : A -> M (State World) B) :
  atMost p n1 m -> (forall a, atMost p n2 (k a)) -> atMost p (n1 + n2) (bind m k).
Proof.
  intros Hm Hk st. unfold bind. specialize (Hm st).
  destruct (m st) as [[a | e] st1]; simpl in *.
  - specialize (Hk a st1). lia.
  - lia.
Qed.

Lemma atMost_tryCatch {A} (n1 n2 : nat) (body : M (State World) A)
    (handler : Js.Thrown -> M (State World) A) :
  atMost p n1 body -> (forall e, atMost p n2 (handler e)) ->
  atMost p (n1 + n2) (tryCatch body handler).
Proof.
  intros Hb Hh st. unfold tryCatch. specialize (Hb st).
  destruct (body st) as [[a | e] st1]; simpl in *.
  - lia.
  - specialize (Hh e st1). lia.
Qed.

Lemma atMost_split {A} (n1 n2 : nat) (m : M (State World) A) :
  atMost p n1 m \/ atMost p n2 m -> atMost p (Nat.max n1 n2) m.
Proof. intros [H | H] st; specialize (H st); lia. Qed.

Lemma atMost_weaken {A} (n n' : nat) (m : M (State World) A) :
  atMost p n m -> (n <= n')%nat -> atMost p n' m.
Proof. intros H Hle st. specialize (H st). lia. Qed.

Variable stagehand : Stagehand World.

Lemma detectLoginFailure_atMost :
  p (CallObserve observeErrors) = false -> atMost p 0 (detectLoginFailure stagehand).
Proof.
  intros Hp. unfold detectLoginFailure.
  apply (atMost_bind 0 0); [apply atMost_readPage | intros page].
  destruct (negb page); [apply atMost_ret | ].
  apply (atMost_tryCatch 0 0); [ | intros e; apply atMost_ret].
  apply (atMost_bind 0 0); [apply atMost_call_none; exact Hp | intros found].
  destruct (List.length found =? 0)%nat; apply atMost_ret.
Qed.

Lemma fillFirstVisible_atMost (value : string) (selectors : list string) :
  (forall selector, In selector selectors ->
                    p (CallIsVisible selector) = false
                    /\ p (CallFill selector value) = false) ->
  atMost p 0 (fillFirstVisible stagehand selectors value).
Proof.
  induction selectors as [| selector rest IH]; intros Hp; cbn [fillFirstVisible].
  - apply atMost_ret.
  - destruct (Hp selector (or_introl eq_refl)) as [Hvisible Hfill].
    apply (atMost_bind 0 0).
    + apply (atMost_tryCatch 0 0); [ | intros e; apply atMost_ret].
      apply (atMost_bind 0 0); [apply atMost_call_none; exact Hvisible | intros visible].
      destruct visible; [ | apply atMost_ret].
      apply (atMost_bind 0 0); [apply atMost_call_none; exact Hfill | intros _].
      apply atMost_ret.
    + intros filled. destruct filled; [apply atMost_ret | ].
      apply IH. intros s Hs. apply Hp. right. exact Hs.
Qed.

Lemma loginLoop_atMost (credentials : GrammarlyCredentials) (maxRetries : Z) :
  (forall attempt, atMost p 1 (loginAttempt stagehand credentials attempt maxRetries)) ->
  forall (remaining : nat) (attempt : Z),
    atMost p remaining (loginLoop stagehand credentials maxRetries remaining attempt).
Proof.
  intros Hattempt remaining.
  induction remaining as [| remaining IH]; intros attempt; cbn [loginLoop].
  - apply atMost_ret.
  - change (S remaining) with (1 + remaining)%nat.
    apply atMost_bind; [apply Hattempt | intros [r |]].
    + apply (atMost_weaken 0); [apply atMost_ret | lia].
    + apply IH.
Qed.

End Counting.

Ltac atMost_step :=
  lazymatch goal with
  | |- atMost _ _ (bind _ _) => eapply atMost_bind; [ | intros ? ]
  | |- atMost _ _ (ret _) => apply atMost_ret
  | |- atMost _ _ (gets _) => apply atMost_gets
  | |- atMost _ _ (tryCatch _ _) => eapply atMost_tryCatch; [ | intros ? ]
  | |- atMost _ _ (detectLoginFailure _) => apply detectLoginFailure_atMost; reflexivity
  | |- atMost _ _ (fillFirstVisible _ _ _) =>
      apply fillFirstVisible_atMost;
      intros ? [<- | [<- | [<- | [<- | []]]]]; split; reflexivity
  | |- atMost _ _ (if ?b then _ else _) =>
      apply atMost_split; destruct b; [left | right]
  | |- atMost _ _ (match ?x with _ :: _ => _ | [] => _ end) =>
      apply atMost_split; destruct x; [right | left]
  | |- atMost _ _ (match ?x with Some _ => _ | None => _ end) =>
      apply atMost_split; destruct x; [left | right]
  | |- atMost _ _ _ =>
      first [ apply atMost_call_none; reflexivity | apply atMost_call_one ]
  end.

Section Budget.
Context {World : Type}.
Variable stagehand : Stagehand World.
Variable credentials : GrammarlyCredentials.

Lemma loginAttempt_checks_once (attempt maxRetries : Z) :
  atMost isCheckAuthStatus 1 (loginAttempt stagehand credentials attempt maxRetries).
Proof.
  unfold loginAttempt, attemptSteps, submitLoginForm, verifyLogin.
  eapply atMost_weaken; [repeat atMost_step | vm_compute; lia].
Qed.

Lemma loginAttempt_fills_password_once (attempt maxRetries : Z) :
  atMost isPasswordFill 1 (loginAttempt stagehand credentials attempt maxRetries).
Proof.
  unfold loginAttempt, attemptSteps, submitLoginForm, verifyLogin.
  eapply atMost_weaken; [repeat atMost_step | vm_compute; lia].
Qed.

Lemma loginAttempt_navigates_once (attempt maxRetries : Z) :
  atMost isGoto 1 (loginAttempt stagehand credentials attempt maxRetries).
Proof.
  unfold loginAttempt, attemptSteps, submitLoginForm, verifyLogin.
  eapply atMost_weaken; [repeat atMost_step | vm_compute; lia].
Qed.

Lemma attemptGrammarlyLogin_atMost (p : Call -> bool)
    (options : option AutoLoginOptions) (w : World) :
  (forall attempt,
      atMost p 1 (loginAttempt stagehand credentials attempt (maxRetriesOf options))) ->
  (countCalls p (calls (snd (attemptGrammarlyLogin stagehand credentials options w)))
   <= Z.to_nat (maxRetriesOf options + 1))%nat.
Proof.
  intros Hattempt. unfold attemptGrammarlyLogin.
  match goal with
  | |- (countCalls p (calls (snd (?m ?st))) <= ?n)%nat =>
      assert (H : atMost p (0 + n) m); [ | exact (H st) ]
  end.
  apply atMost_bind; [apply atMost_readPage | intros page].
  destruct (negb page).
  - apply (atMost_weaken _ 0); [apply atMost_ret | lia].
  - apply loginLoop_atMost. exact Hattempt.
Qed.

End Budget.

(** X12.  With a retry budget of [maxRetries], a run checks the auth status,
    fills the password field and navigates to the sign-in page at most
    [maxRetries + 1] times each, whatever the page does. *)
Theorem login_work_is_bounded :
  forall (World : Type) (stagehand : Stagehand World)
         (credentials : GrammarlyCredentials)
         (options : option AutoLoginOptions) (w : World),
    (countCalls isCheckAuthStatus
       (calls (snd (attemptGrammarlyLogin stagehand credentials options w)))
     <= Z.to_nat (maxRetriesOf options + 1))%nat
    /\ (countCalls isPasswordFill
          (calls (snd (attemptGrammarlyLogin stagehand credentials options w)))
        <= Z.to_nat (maxRetriesOf options + 1))%nat
    /\ (countCalls isGoto
          (calls (snd (attemptGrammarlyLogin stagehand credentials options w)))
        <= Z.to_nat (maxRetriesOf options + 1))%nat.
Proof.
  intros World stagehand credentials options w.
  split; [ | split]; apply attemptGrammarlyLogin_atMost; intros attempt.
  - apply loginAttempt_checks_once.
  - apply loginAttempt_fills_password_once.
  - apply loginAttempt_navigates_once.
Qed.

(** ** Waiting *)

Lemma retryDelay_bounds (attempt : Z) :
  0 <= attempt -> 2000 <= retryDelay attempt <= 30000.
Proof.
  intros H. unfold retryDelay, Js.mathMin.
  assert (0 < 2 ^ attempt) by (apply Z.pow_pos_nonneg; lia). lia.
Qed.

Section Waiting.
Context {World : Type}.
Variable stagehand : Stagehand World.
Variable credentials : GrammarlyCredentials.

Lemma detectLoginFailure_sleeps :
  keepsLog (sleepWithin 500 30000) (detectLoginFailure stagehand).
Proof. unfold detectLoginFailure. repeat keeps_step. exact I. Qed.

Lemma fillFirstVisible_sleeps (value : string) (selectors : list string) :
  keepsLog (sleepWithin 500 30000) (fillFirstVisible stagehand selectors value).
Proof.
  induction selectors as [| selector rest IH]; cbn [fillFirstVisible].
  - apply keepsLog_ret.
  - repeat keeps_step; try exact I; try apply IH.
Qed.

Lemma loginAttempt_sleeps (attempt maxRetries : Z) :
  0 <= attempt ->
  keepsLog (sleepWithin 500 30000)
    (loginAttempt stagehand credentials attempt maxRetries).
Proof.
  intros Hattempt.
  unfold loginAttempt, attemptSteps, submitLoginForm, verifyLogin.
  repeat first
    [ apply detectLoginFailure_sleeps
    | apply fillFirstVisible_sleeps
    | keeps_step ].
  all: try exact I.
  all: unfold sleepWithin; pose proof (retryDelay_bounds attempt Hattempt); lia.
Qed.

Lemma loginLoop_sleeps (maxRetries : Z) (remaining : nat) :
  forall attempt,
    0 <= attempt ->
    keepsLog (sleepWithin 500 30000)
      (loginLoop stagehand credentials maxRetries remaining attempt).
Proof.
  induction remaining as [| remaining IH]; intros attempt Hattempt; cbn [loginLoop].
  - apply keepsLog_ret.
  - repeat first [ apply loginAttempt_sleeps; exact Hattempt | apply IH; lia | keeps_step ].
Qed.

End Waiting.

(** X13.  Every pause of a login run lasts between half a second and thirty
    seconds: the fixed pauses are 500 to 3000 ms and the back-off delay
    [min(2000 * 2^attempt, 30000)] is only computed for [attempt >= 0]. *)
Theorem login_sleeps_are_bounded :
  forall (World : Type) (stagehand : Stagehand World)
         (credentials : GrammarlyCredentials)
         (options : option AutoLoginOptions) (w : World),
    Forall (sleepWithin 500 30000)
      (calls (snd (attemptGrammarlyLogin stagehand credentials options w))).
Proof.
  intros World stagehand credentials options w.
  unfold attemptGrammarlyLogin.
  match goal with
  | |- Forall _ (calls (snd (?m ?st))) =>
      assert (H : keepsLog (sleepWithin 500 30000) m); [ | apply H; constructor ]
  end.
  repeat first [ apply loginLoop_sleeps; lia | keeps_step ].
Qed.

(** ** The failure classifier *)

Lemma prefix_includes (a b s : string) :
  String.prefix (a ++ b) s = true -> Js.includes s b = true.
Proof.
  revert s. induction a as [| c a IH]; intros s H.
  - cbn [String.append] in H. destruct s; cbn [Js.includes]; rewrite H; reflexivity.
  - destruct s as [| c' s']; cbn [String.append String.prefix] in H; [discriminate | ].
    destruct (Ascii.ascii_dec c c'); [ | discriminate].
    cbn [Js.includes]. rewrite (IH s' H).
    destruct (String.prefix b (String c' s')); reflexivity.
Qed.

Lemma includes_suffix (a b s : string) :
  Js.includes s (a ++ b) = true -> Js.includes s b = true.
Proof.
  induction s as [| c s IH]; cbn [Js.includes].
  - destruct (String.prefix (a ++ b) EmptyString) eqn:Hp; [ | discriminate].
    intros _. exact (prefix_includes a b _ Hp).
  - destruct (String.prefix (a ++ b) (String c s)) eqn:Hp.
    + intros _. exact (prefix_includes a b _ Hp).
    + intros H. rewrite (IH H). destruct (String.prefix b (String c s)); reflexivity.
Qed.

(** X14.  The classifier reports a CAPTCHA exactly when the error text
    contains one of the three words captcha, verify and robot: the fourth
    test of the source, for the phrase "not a robot", never decides. *)
Theorem captcha_verdict_needs_three_words :
  forall errorText : string,
    PartialResult.captchaDetected (classifyErrorText errorText) = Some true
    <-> (Js.includes errorText "captcha" || Js.includes errorText "verify"
         || Js.includes errorText "robot") = true.
Proof.
  intros errorText. unfold classifyErrorText.
  assert (Hsub : Js.includes errorText "not a robot" = true ->
                 Js.includes errorText "robot" = true)
    by exact (includes_suffix "not a " "robot" errorText).
  destruct (Js.includes errorText "captcha"), (Js.includes errorText "verify"),
    (Js.includes errorText "robot"); cbn [orb PartialResult.captchaDetected];
    try (split; reflexivity).
  destruct (Js.includes errorText "not a robot"); [specialize (Hsub eq_refl); discriminate | ].
  cbn [orb].
  repeat match goal with
         | |- context [if ?b then _ else _] => destruct b
         end; cbn; split; discriminate.
Qed.

(** X15.  [detectLoginFailure] throws in one case only: when its read of
    the first page, made outside its [try], throws; the error is then
    passed on and no call is made.  Otherwise it resolves, after at most
    one call, the [observe] for error messages (none, and the verdict [{}],
    when there is no page); a verdict that sets a flag always comes with a
    non-empty error message, so the caller's test of [failure.error] never
    hides one. *)
Theorem detectLoginFailure_outcomes :
  forall (World : Type) (stagehand : Stagehand World) (st : State World),
    match pages stagehand (world st) with
    | Throw e => detectLoginFailure stagehand st = (Throw e, st)
    | Normal page =>
        exists failure st',
          detectLoginFailure stagehand st = (Normal failure, st')
          /\ (calls st' = calls st
              \/ calls st' = calls st ++ [CallObserve observeErrors])
          /\ (page = false -> failure = noFailure /\ st' = st)
          /\ (classified failure = true ->
              Js.truthyOpt (PartialResult.error failure) = true)
    end.
Proof.
  intros World stagehand st.
  unfold detectLoginFailure, bind, readPage, tryCatch, doObserve, call, ret.
  destruct (pages stagehand (world st)) as [[|] | e]; cbn [negb]; [ | | reflexivity].
  - destruct (observe stagehand observeErrors (world st)) as [[found | e] w'].
    + destruct (List.length found =? 0)%nat; eexists; eexists;
        (split; [reflexivity | ]); cbn [calls];
        (split; [right; reflexivity | ]); (split; [discriminate | ]).
      * discriminate.
      * intros _. unfold classifyErrorText.
        repeat match goal with
               | |- context [if ?b then _ else _] => destruct b
               end; reflexivity.
    + eexists; eexists; (split; [reflexivity | ]); cbn [calls].
      split; [right; reflexivity | ]. split; discriminate.
  - eexists; eexists; (split; [reflexivity | ]).
    split; [left; reflexivity | ]. split; [ | discriminate].
    intros _. split; reflexivity.
Qed.

End LoginMore.

(* ------------------------------------------------------------------ *)
(** * Browser Use scoring task: properties *)

Module BrowserUseFacts.
Import BrowserUse.

(** ** The task prompt *)

Lemma append_inv_head (h x y : string) : (h ++ x)%string = (h ++ y)%string -> x = y.
Proof.
  induction h as [| c h IH]; cbn [String.append]; intros H.
  - exact H.
  - injection H as H. exact (IH H).
Qed.

Lemma length_append (x y : string) :
  String.length (x ++ y) = (String.length x + String.length y)%nat.
Proof. induction x as [| c x IH]; cbn; [reflexivity | rewrite IH; reflexivity]. Qed.

Lemma append_inv_tail (t : string) :
  forall x y : string, (x ++ t)%string = (y ++ t)%string -> x = y.
Proof.
  induction x as [| c x IH]; intros [| d y] H; cbn [String.append] in H.
  - reflexivity.
  - apply (f_equal String.length) in H. cbn in H. rewrite length_append in H. lia.
  - apply (f_equal String.length) in H. cbn in H. rewrite length_append in H. lia.
  - injection H as -> H. rewrite (IH y H). reflexivity.
Qed.

Lemma includes_append (h t s : string) : Js.includes (h ++ s ++ t) s = true.
Proof.
  induction h as [| c h IH]; cbn [String.append].
  - assert (Hp : forall a b : string, String.prefix a (a ++ b) = true).
    { induction a as [| c a IHa]; intros b; [destruct b; reflexivity | ].
      cbn. destruct (Ascii.ascii_dec c c); [apply IHa | contradiction]. }
    destruct (s ++ t)%string eqn:E; cbn [Js.includes]; rewrite <- E, Hp; reflexivity.
  - cbn [Js.includes]. rewrite IH.
    destruct (String.prefix s (String c (h ++ s ++ t))); reflexivity.
Qed.

(** X16.  The task prompt is a fixed text around the user's text: the text
    is embedded verbatim, unescaped, between the two markers, so the prompt
    contains it and two different texts never give the same prompt. *)
Theorem task_prompt_embeds_text :
  (forall text : string,
      buildGrammarlyTaskPrompt text = (promptHead ++ text ++ promptTail)%string)
  /\ (forall text : string,
        Js.includes (buildGrammarlyTaskPrompt text) text = true)
  /\ (forall text text' : string,
        buildGrammarlyTaskPrompt text = buildGrammarlyTaskPrompt text' -> text = text').
Proof.
  assert (Hshape : forall text : string,
             buildGrammarlyTaskPrompt text = (promptHead ++ text ++ promptTail)%string)
    by (intros text; reflexivity).
  split; [exact Hshape | split].
  - intros text. rewrite Hshape. apply includes_append.
  - intros text text' H. rewrite !Hshape in H.
    apply append_inv_head in H. exact (append_inv_tail _ _ _ H).
Qed.

(** ** Outcomes of the two SDK wrappers *)

(** X17.  [createGrammarlySession] makes exactly one SDK call.  It resolves
    exactly when the SDK resolved with an object whose [id] is a string,
    and then with that id, the empty string included; it passes an [Error]
    of the SDK on unchanged and never rejects with anything but an
    [Error]. *)
Theorem session_creation_outcomes :
  forall (World Handle : Type) (client : Client World Handle)
         (profileId : string) (st : State World),
    calls (snd (createGrammarlySession client profileId st))
    = calls st ++ [CallCreateSession profileId]
    /\ (forall id,
          fst (createGrammarlySession client profileId st) = Normal id
          <-> fst (createSession client profileId (world st))
              = Normal (SessionObject (Some id)))
    /\ (forall message,
          fst (createSession client profileId (world st)) = Throw (Js.ErrorObj message) ->
          fst (createGrammarlySession client profileId st) = Throw (Js.ErrorObj message))
    /\ (forall shown,
          fst (createGrammarlySession client profileId st) <> Throw (Js.NonError shown)).
Proof.
  intros World Handle client profileId st.
  unfold createGrammarlySession, tryCatch, bind, call, ret, throw.
  destruct (createSession client profileId (world st)) as [[[| [id |]] | [m | x]] w'];
    cbn [fst snd calls].
  all: split; [reflexivity | ].
  all: split; [intros id'; split; intros H; try discriminate H;
               injection H as <-; reflexivity | ].
  all: split; [intros message H; try discriminate H; injection H as <-; reflexivity | ].
  all: intros shown H; discriminate H.
Qed.

(** X18.  [runGrammarlyScoreTask] creates one task, for the given session and
    with the prompt built from the text, and completes it unless the
    creation failed.  It resolves exactly when both calls resolved and the
    result holds parsed output, and then with that output, unchanged; it
    never rejects with anything but an [Error]. *)
Theorem scoring_task_outcomes :
  forall (World Handle : Type) (client : Client World Handle)
         (sessionId text : string) (st : State World),
    (calls (snd (runGrammarlyScoreTask client sessionId text st))
     = calls st
         ++ [CallCreateTask {| BrowserUse.sessionId := sessionId;
                               llm := "browser-use-llm";
                               task := buildGrammarlyTaskPrompt text |}]
     \/ calls (snd (runGrammarlyScoreTask client sessionId text st))
        = calls st
            ++ [CallCreateTask {| BrowserUse.sessionId := sessionId;
                                  llm := "browser-use-llm";
                                  task := buildGrammarlyTaskPrompt text |};
                CallComplete])
    /\ (forall scores,
          fst (runGrammarlyScoreTask client sessionId text st) = Normal scores
          <-> exists handle w1,
                createTask client
                  {| BrowserUse.sessionId := sessionId;
                     llm := "browser-use-llm";
                     task := buildGrammarlyTaskPrompt text |} (world st)
                = (Normal handle, w1)
                /\ fst (complete client handle w1)
                   = Normal (ResultObject (Some scores)))
    /\ (forall shown,
          fst (runGrammarlyScoreTask client sessionId text st)
          <> Throw (Js.NonError shown)).
Proof.
  intros World Handle client sessionId text st.
  unfold runGrammarlyScoreTask, tryCatch, bind, call, ret, throw.
  destruct (createTask client _ (world st)) as [[handle | [m | x]] w1]; cbn [fst snd calls world].
  - destruct (complete client handle w1) as [[[| [scores |]] | [m | x]] w2] eqn:Hc;
      cbn [fst snd calls].
    all: split; [right; rewrite <- app_assoc; reflexivity | ].
    all: split; [ | intros shown H; discriminate H].
    all: intros scores'; split;
      [ intros H;
        first [ discriminate H
              | injection H as <-; exists handle, w1;
                split; [reflexivity | rewrite Hc; reflexivity] ]
      | intros (handle' & w1' & Hcreate & Hdone); injection Hcreate as <- <-;
        rewrite Hc in Hdone; cbn [fst] in Hdone;
        first [ discriminate Hdone | injection Hdone as <-; reflexivity ] ].
  - split; [left; reflexivity | ].
    split; [ | intros shown H; discriminate H].
    intros scores; split; [intros H; discriminate H | ].
    intros (handle & w1' & Hcreate & _). discriminate Hcreate.
  - split; [left; reflexivity | ].
    split; [ | intros shown H; discriminate H].
    intros scores; split; [intros H; discriminate H | ].
    intros (handle & w1' & Hcreate & _). discriminate Hcreate.
Qed.

Example scripted_session_and_scores :
  fst (createGrammarlySession scriptedClient "profile" {| world := scoredWorld; calls := [] |})
  = Normal "bu-session-12345"%string
  /\ fst (runGrammarlyScoreTask scriptedClient "bu-session-12345" "Test text"
            {| world := scoredWorld; calls := [] |})
     = Normal (Scores.mk (Some 15%Q) (Some 3%Q) "baseline").
Proof. split; reflexivity. Qed.

End BrowserUseFacts.

(* ------------------------------------------------------------------ *)
(** * 1Password credentials: properties *)

Module OnePasswordFacts.
Import OnePassword.

Lemma countCalls_app (p : Call -> bool) (l l' : list Call) :
  countCalls p (l ++ l') = (countCalls p l + countCalls p l')%nat.
Proof. unfold countCalls. rewrite filter_app, length_app. reflexivity. Qed.

Section Provider.
Context {World Handle : Type}.
Variable sdk : Sdk World Handle.

(** What [createOnePasswordClient] does: on success the client was created
    with the token; on failure the error is labelled; and it never calls
    [resolve]. *)
Lemma createOnePasswordClient_outcomes (token : string) (st : State World) :
  exists added,
    calls (snd (createOnePasswordClient sdk token st)) = calls st ++ added
    /\ countCalls isResolve added = 0%nat
    /\ match fst (createOnePasswordClient sdk token st) with
       | Normal _ =>
           exists version,
             In (CallCreateClient {| auth := token;
                                     integrationName := INTEGRATION_NAME;
                                     integrationVersion := version |}) added
       | Throw e =>
           exists detail,
             e = Js.ErrorObj ("1Password SDK initialization failed: " ++ detail)
       end.
Proof.
  unfold createOnePasswordClient, getIntegrationVersion, tryCatch, bind, gets, modify,
    call, ret, throw.
  destruct (cachedIntegrationVersion st) as [v |] eqn:Hcache; cbn [fst snd calls world].
  - destruct (createClient sdk _ (world st)) as [[handle | e] w1]; cbn [fst snd calls].
    + eexists. split; [reflexivity | split; [reflexivity | ]].
      exists (Some v). rewrite Hcache. left. reflexivity.
    + eexists. split; [reflexivity | split; [reflexivity | ]].
      eexists. reflexivity.
  - destruct (readPackageVersion sdk (world st)) as [[version | e] w1];
      cbn [fst snd calls world cachedIntegrationVersion].
    + destruct (createClient sdk _ w1) as [[handle | e] w2]; cbn [fst snd calls].
      * exists [CallReadPackageJson;
                CallCreateClient {| auth := token; integrationName := INTEGRATION_NAME;
                                    integrationVersion := version |}].
        split; [rewrite <- app_assoc; reflexivity | split; [reflexivity | ]].
        exists version. right. left. reflexivity.
      * eexists. split; [rewrite <- app_assoc; reflexivity | split; [reflexivity | ]].
        eexists. reflexivity.
    + eexists. split; [reflexivity | split; [reflexivity | ]].
      eexists. reflexivity.
Qed.

End Provider.



(** X20.  Every rejection of [getGrammarlyCredentials] is an [Error] with one
    of two labels.  "1Password SDK initialization failed" means that no
    secret was asked for; "Failed to resolve 1Password secrets" means that
    both secrets were asked for, whichever of the two failed. *)
Theorem credential_errors_are_labelled :
  forall (World Handle : Type) (sdk : Sdk World Handle)
         (options : OnePasswordOptions) (st : State World),
    match fst (getGrammarlyCredentials sdk options st) with
    | Normal _ =>
        countCalls isResolve (calls (snd (getGrammarlyCredentials sdk options st)))
        = (countCalls isResolve (calls st) + 2)%nat
    | Throw e =>
        (exists detail,
            e = Js.ErrorObj ("1Password SDK initialization failed: " ++ detail)
            /\ countCalls isResolve (calls (snd (getGrammarlyCredentials sdk options st)))
               = countCalls isResolve (calls st))
        \/ (exists detail,
              e = Js.ErrorObj ("Failed to resolve 1Password secrets: " ++ detail)
              /\ countCalls isResolve
                   (calls (snd (getGrammarlyCredentials sdk options st)))
                 = (countCalls isResolve (calls st) + 2)%nat)
    end.
Proof.
  intros World Handle sdk options st.
  destruct (createOnePasswordClient_outcomes sdk (serviceAccountToken options) st)
    as (added & Hcalls & Hnone & Hcreated).
  unfold getGrammarlyCredentials, bind.
  destruct (createOnePasswordClient sdk (serviceAccountToken options) st)
    as [[client | e] st1]; cbn [fst snd] in *.
  - unfold tryCatch, bind, promiseAll2, call, ret, throw.
    destruct (resolve sdk client _ (world st1)) as [[username | e1] w1]; cbn [world calls];
      destruct (resolve sdk client _ w1) as [[password | e2] w2]; cbn [world calls];
      try match goal with
          | |- context [secondRejectsFirst sdk w2] => destruct (secondRejectsFirst sdk w2)
          end;
      try match goal with
          | |- context [negb (Js.truthy ?u) || negb (Js.truthy ?p)] =>
              destruct (negb (Js.truthy u) || negb (Js.truthy p))
          end;
      cbn [fst snd calls].
    all: try right; try (eexists; split; [reflexivity | ]).
    all: rewrite Hcalls, !countCalls_app, Hnone; cbn; lia.
  - destruct Hcreated as [detail ->]. left. exists detail.
    split; [reflexivity | ]. rewrite Hcalls, countCalls_app, Hnone. lia.
Qed.

(** X21.  An item whose [username] or [password] field resolves to the empty
    string is rejected, and the error raised inside the [try] block is
    caught by the function's own [catch] and labelled as a resolution
    failure. *)
Theorem empty_secret_is_a_resolution_failure :
  forall (World Handle : Type) (sdk : Sdk World Handle)
         (options : OnePasswordOptions) (st st1 : State World)
         (client : Handle) (username password : string) (w1 w2 : World),
    createOnePasswordClient sdk (serviceAccountToken options) st = (Normal client, st1) ->
    resolve sdk client
      (match secretRefPath options with
       | Some path => path
       | None => DEFAULT_SECRET_REF
       end ++ "/username") (world st1) = (Normal username, w1) ->
    resolve sdk client
      (match secretRefPath options with
       | Some path => path
       | None => DEFAULT_SECRET_REF
       end ++ "/password") w1 = (Normal password, w2) ->
    Js.truthy username = false \/ Js.truthy password = false ->
    fst (getGrammarlyCredentials sdk options st)
    = Throw (Js.ErrorObj
               ("Failed to resolve 1Password secrets: "
                ++ "Username or password field is empty in 1Password item")).
Proof.
  intros World Handle sdk options st st1 client username password w1 w2
    Hclient Hu Hp Hempty.
  unfold getGrammarlyCredentials, bind. rewrite Hclient.
  unfold tryCatch, bind, promiseAll2, call, ret, throw.
  rewrite Hu. cbn [world calls]. rewrite Hp. cbn [world calls].
  destruct Hempty as [-> | ->]; cbn [negb orb]; [reflexivity | ].
  destruct (Js.truthy username); reflexivity.
Qed.

Lemma empty_secret_is_a_resolution_failure_witness :
  fst (getGrammarlyCredentials scriptedSdk testOptions (initialState emptyPasswordVault))
  = Throw (Js.ErrorObj
             "Failed to resolve 1Password secrets: Username or password field is empty in 1Password item").
Proof.
  apply (empty_secret_is_a_resolution_failure Scripted unit scriptedSdk testOptions
           (initialState emptyPasswordVault)
           (snd (createOnePasswordClient scriptedSdk "ops_test_token"
                   (initialState emptyPasswordVault)))
           tt "test@example.com" EmptyString emptyPasswordVault emptyPasswordVault).
  - vm_compute. reflexivity.
  - vm_compute. reflexivity.
  - vm_compute. reflexivity.
  - right. reflexivity.
Defined.

(** X22.  Once the integration version has been read from package.json it
    is cached: creating another client reads no file, keeps the cache and
    passes the cached version to the SDK. *)
Theorem integration_version_is_read_once :
  forall (World Handle : Type) (sdk : Sdk World Handle)
         (token version : string) (st : State World),
    cachedIntegrationVersion st = Some version ->
    cachedIntegrationVersion (snd (createOnePasswordClient sdk token st)) = Some version
    /\ calls (snd (createOnePasswordClient sdk token st))
       = calls st
           ++ [CallCreateClient {| auth := token;
                                   integrationName := INTEGRATION_NAME;
                                   integrationVersion := Some version |}].
Proof.
  intros World Handle sdk token version st Hcache.
  unfold createOnePasswordClient, getIntegrationVersion, tryCatch, bind, gets, modify,
    call, ret, throw.
  rewrite Hcache. cbn [fst snd calls world]. rewrite Hcache.
  destruct (createClient sdk _ (world st)) as [[handle | e] w1];
    cbn [fst snd calls cachedIntegrationVersion]; split; first [exact Hcache | reflexivity].
Qed.

Lemma integration_version_is_read_once_witness :
  countCalls isReadPackageJson
    (calls (snd (createOnePasswordClient scriptedSdk "ops_test_token"
                   (snd (createOnePasswordClient scriptedSdk "ops_test_token"
                           (initialState testVault))))))
  = 1%nat.
Proof.
  rewrite (proj2 (integration_version_is_read_once Scripted unit scriptedSdk
                    "ops_test_token" "0.1.0"
                    (snd (createOnePasswordClient scriptedSdk "ops_test_token"
                            (initialState testVault)))
                    eq_refl)).
  vm_compute. reflexivity.
Defined.

End OnePasswordFacts.
